(** * The stage orchestration engine of the infant pipeline, in Rocq

    A shallow embedding of [app/pipelines.py] (ParameterSettings, Status,
    Stage and the two [_get_intended_sefmaps]) and of the per-session body of
    [interface] in [app/run.py], followed by the properties of the
    specification that concern them.

    Python values are embedded in [pyval]; exceptions are values of [pyerr]
    carried by [result]; code that prints, touches the file system or builds
    Stage objects runs in the state-and-exception monad [io] over [World]. *)

From Stdlib Require Import PrimFloat SpecFloat FloatOps.
From Stdlib Require Import ZArith List Ascii String Lia.
From stdpp Require Import gmap strings list fin_maps pretty sorting.

Set Warnings "-register-all,-inexact-float".
Local Open Scope string_scope.
Local Open Scope Z_scope.

(** ** Python values and exceptions *)

(** The values that reach the modelled code: JSON data of the BIDS bundle,
    command line arguments and the attributes of a ParameterSettings. A dict
    keeps its items in insertion order; its keys are strings. *)
Inductive pyval :=
| VNone
| VBool (b : bool)
| VInt (z : Z)
| VFloat (f : float)
| VStr (s : string)
| VList (l : list pyval)
| VDict (d : list (string * pyval)).

Inductive pyerr :=
| KeyError (k : string)
| IndexError
| TypeError
| AttributeError
| ValueError
| OverflowError
| UnboundLocalError (var : string)
| AssertionError (msg : string)
| NotImplementedError
| Exception (msg : string)
| FileNotFoundError (path : string)
| FileExistsError (path : string)
| IsADirectoryError (path : string)
| JSONDecodeError
| HelperError (msg : string)   (* raised inside helpers.py *)
| Unmodelled.                  (* a Python feature outside this embedding *)

Inductive result (A : Type) :=
| Ok (a : A)
| Raise (e : pyerr).
Arguments Ok {A} a.
Arguments Raise {A} e.

Definition rbind {A B} (m : result A) (k : A -> result B) : result B :=
  match m with
  | Ok a => k a
  | Raise e => Raise e
  end.

(** [x <- m ;; k] runs [m] and, unless it raised, [k] on its value. *)
Notation "x <- m ;; k" := (rbind m (fun x => k))
  (at level 100, m at level 99, k at level 200, right associativity).

Definition is_ok {A} (r : result A) : bool :=
  match r with Ok _ => true | Raise _ => false end.

(** ** Strings *)

Definition str_join (sep : string) (l : list string) : string :=
  match l with
  | [] => ""
  | x :: r => fold_left (fun acc y => acc +:+ sep +:+ y) r x
  end.

(** [needle in hay] on two strings. *)
Fixpoint str_contains (needle hay : string) : bool :=
  if String.prefix needle hay then true
  else match hay with
       | EmptyString => false
       | String _ hay' => str_contains needle hay'
       end.

(** [s.find(c)] for a one-character [c]: the first index, if any. *)
Fixpoint str_find (c : ascii) (s : string) : option nat :=
  match s with
  | EmptyString => None
  | String a s' =>
      if Ascii.eqb a c then Some 0%nat
      else option_map S (str_find c s')
  end.

(** [s[:n]] and [s[n:]]. *)
Fixpoint str_take (n : nat) (s : string) : string :=
  match n, s with
  | S n', String a s' => String a (str_take n' s')
  | _, _ => EmptyString
  end.

Fixpoint str_drop (n : nat) (s : string) : string :=
  match n, s with
  | S n', String _ s' => str_drop n' s'
  | _, _ => s
  end.

(** [s.split(c)]: always at least one piece. *)
Fixpoint str_split (c : ascii) (s : string) : list string :=
  match s with
  | EmptyString => [EmptyString]
  | String a s' =>
      if Ascii.eqb a c then EmptyString :: str_split c s'
      else match str_split c s' with
           | [] => [String a EmptyString]
           | p :: r => String a p :: r
           end
  end.

(** [s.rstrip(c)]. *)
Fixpoint str_rstrip (c : ascii) (s : string) : string :=
  match s with
  | EmptyString => EmptyString
  | String a s' =>
      match str_rstrip c s' with
      | EmptyString => if Ascii.eqb a c then EmptyString else String a EmptyString
      | r => String a r
      end
  end.

Definition str_startswith (p s : string) : bool := String.prefix p s.

Definition str_endswith_char (c : ascii) (s : string) : bool :=
  match String.get (String.length s - 1) s with
  | Some a => Ascii.eqb a c && negb (String.length s =? 0)%nat
  | None => false
  end.

Fixpoint all_digits (s : string) : bool :=
  match s with
  | EmptyString => true
  | String a s' => (Ascii.leb "0" a && Ascii.leb a "9") && all_digits s'
  end.

Fixpoint has_char (p : ascii -> bool) (s : string) : bool :=
  match s with
  | EmptyString => false
  | String a s' => p a || has_char p s'
  end.

(** [l[:-2]] *)
Definition drop_last2 {A} (l : list A) : list A :=
  firstn (length l - 2) l.

(** [os.path.join(a, b)] of posixpath. *)
Definition os_path_join (a b : string) : string :=
  if str_startswith "/" b then b
  else if (String.length a =? 0)%nat || str_endswith_char "/" a then a +:+ b
  else a +:+ "/" +:+ b.

(** ** Built-in operations on values *)

(** What the embedding takes from the Python runtime as given: the decimal
    rendering of floats, the quoting of [repr] on strings, and the working
    directory behind [os.path.abspath]. *)
Class PyRuntime := {
  fmt_12f : float -> string;       (* '%.12f' % x *)
  fmt_g : float -> string;         (* '%g' % x *)
  float_repr : float -> string;    (* repr(x) of a float *)
  str_repr : string -> string;     (* repr(s) of a str *)
  os_path_abspath : string -> string;
  is_literal : pyval -> string -> bool   (* v is "..." : the same object *)
}.

(** [bool(v)] *)
Definition py_truthy (v : pyval) : bool :=
  match v with
  | VNone => false
  | VBool b => b
  | VInt z => negb (z =? 0)
  | VFloat f => negb (PrimFloat.eqb f 0%float)
  | VStr s => negb (String.length s =? 0)%nat
  | VList l => negb (length l =? 0)%nat
  | VDict d => negb (length d =? 0)%nat
  end.

(** [iter(v)]: a list yields its items, a dict its keys, a string its
    characters. *)
Fixpoint str_chars (s : string) : list string :=
  match s with
  | EmptyString => []
  | String a s' => String a EmptyString :: str_chars s'
  end.

Definition py_iter (v : pyval) : result (list pyval) :=
  match v with
  | VList l => Ok l
  | VDict d => Ok (map (fun kv => VStr (fst kv)) d)
  | VStr s => Ok (map VStr (str_chars s))
  | _ => Raise TypeError
  end.

Fixpoint dict_get (d : list (string * pyval)) (k : string) : option pyval :=
  match d with
  | [] => None
  | (k', v) :: r => if String.eqb k' k then Some v else dict_get r k
  end.

(** [v[k]] for a string key [k]. *)
Definition getitem_key (v : pyval) (k : string) : result pyval :=
  match v with
  | VDict d => match dict_get d k with Some x => Ok x | None => Raise (KeyError k) end
  | _ => Raise TypeError
  end.

(** [v[i]] for an integer [i]; a negative index counts from the end. *)
Definition getitem_idx (v : pyval) (i : Z) : result pyval :=
  match v with
  | VList l =>
      let j := if i <? 0 then Z.of_nat (length l) + i else i in
      if j <? 0 then Raise IndexError
      else match nth_error l (Z.to_nat j) with
           | Some x => Ok x
           | None => Raise IndexError
           end
  | VStr s =>
      let j := if i <? 0 then Z.of_nat (String.length s) + i else i in
      if j <? 0 then Raise IndexError
      else match String.get (Z.to_nat j) s with
           | Some a => Ok (VStr (String a EmptyString))
           | None => Raise IndexError
           end
  | VDict _ => Raise (KeyError (pretty i))
  | _ => Raise TypeError
  end.

(** [d.get(k, default)]: only dicts have the method. *)
Definition dict_get_default (v : pyval) (k : string) (default : pyval) : result pyval :=
  match v with
  | VDict d => Ok (match dict_get d k with Some x => x | None => default end)
  | _ => Raise AttributeError
  end.

Definition is_str (s : string) (v : pyval) : bool :=
  match v with VStr s' => String.eqb s' s | _ => false end.

(** [s in v] for a string [s]: membership in a list, key of a dict,
    substring of a string. *)
Definition py_in (s : string) (v : pyval) : result bool :=
  match v with
  | VList l => Ok (existsb (is_str s) l)
  | VDict d => Ok (existsb (fun kv => String.eqb (fst kv) s) d)
  | VStr h => Ok (str_contains s h)
  | _ => Raise TypeError
  end.

(** [sep.join(v)]: every item must be a string. *)
Fixpoint all_strs (l : list pyval) : result (list string) :=
  match l with
  | [] => Ok []
  | VStr s :: r => r' <- all_strs r;; Ok (s :: r')
  | _ :: _ => Raise TypeError
  end.

Definition py_join (sep : string) (v : pyval) : result string :=
  l <- py_iter v;; ss <- all_strs l;; Ok (str_join sep ss).

(** [set(v)]: the items must be hashable. *)
Definition py_hashable (v : pyval) : bool :=
  match v with VList _ | VDict _ => false | _ => true end.

Definition py_set (v : pyval) : result (list pyval) :=
  l <- py_iter v;;
  if forallb py_hashable l then Ok l else Raise TypeError.

(** Numbers. An int converts to the nearest binary64 float, as [float(n)]
    does; the conversion overflows where the result is not finite. *)
Definition Z_to_float (z : Z) : result float :=
  let f := SF2Prim (binary_normalize prec emax z 0 false) in
  if PrimFloat.is_infinity f then Raise OverflowError else Ok f.

Definition to_float (v : pyval) : result float :=
  match v with
  | VFloat f => Ok f
  | VInt z => Z_to_float z
  | VBool b => Ok (if b then 1%float else 0%float)
  | _ => Raise TypeError
  end.

Definition as_int (v : pyval) : option Z :=
  match v with
  | VInt z => Some z
  | VBool b => Some (if b then 1 else 0)
  | _ => None
  end.

(** [a - b] *)
Definition py_sub (a b : pyval) : result pyval :=
  match as_int a, as_int b with
  | Some x, Some y => Ok (VInt (x - y))
  | _, _ => x <- to_float a;; y <- to_float b;; Ok (VFloat (PrimFloat.sub x y))
  end.

(** [a * f] for a float literal [f] *)
Definition py_mul_float (a : pyval) (f : float) : result pyval :=
  x <- to_float a;; Ok (VFloat (PrimFloat.mul x f)).

(** [a + 1] *)
Definition py_add1 (a : pyval) : result pyval :=
  match as_int a with
  | Some x => Ok (VInt (x + 1))
  | None => x <- to_float a;; Ok (VFloat (PrimFloat.add x 1%float))
  end.

(** [v == 0] *)
Definition py_eq_zero (v : pyval) : bool :=
  match v with
  | VInt z => z =? 0
  | VBool b => negb b
  | VFloat f => PrimFloat.eqb f 0%float
  | _ => false
  end.

(** [v == n] for an int literal [n] *)
Definition py_eq_int (v : pyval) (n : Z) : bool :=
  match v with
  | VInt z => z =? n
  | VBool b => (if b then 1 else 0) =? n
  | VFloat f => match Z_to_float n with Ok g => PrimFloat.eqb f g | Raise _ => false end
  | _ => false
  end.

Section Rendering.
Context `{PyRuntime}.

(** [repr(v)] and [str(v)] *)
Fixpoint py_repr (v : pyval) : string :=
  match v with
  | VNone => "None"
  | VBool b => if b then "True" else "False"
  | VInt z => pretty z
  | VFloat f => float_repr f
  | VStr s => str_repr s
  | VList l => "[" +:+ str_join ", " (map py_repr l) +:+ "]"
  | VDict d =>
      "{" +:+ str_join ", "
               (map (fun kv => match kv with
                               | (k, x) => str_repr k +:+ ": " +:+ py_repr x
                               end) d) +:+ "}"
  end.

Definition py_str (v : pyval) : string :=
  match v with
  | VStr s => s
  | _ => py_repr v
  end.

(** ['%.12f' % v] and ['%g' % v]: [v] must be a number. *)
Definition py_fmt_12f (v : pyval) : result string :=
  x <- to_float v;; Ok (fmt_12f x).

Definition py_fmt_g (v : pyval) : result string :=
  x <- to_float v;; Ok (fmt_g x).
End Rendering.

(** ** [str.format] with keyword arguments

    Literal text with [{{] and [}}] escapes and replacement fields [{name}];
    a field without a name, or with a number, asks for a positional argument
    and there is none. Fields with a conversion, a format specification, an
    attribute or an index are outside the embedding. *)
Definition field_special (a : ascii) : bool :=
  Ascii.eqb a "!" || Ascii.eqb a ":" || Ascii.eqb a "." || Ascii.eqb a "["
  || Ascii.eqb a "{".

(** Reads a field up to its closing brace: the name and the rest. *)
Fixpoint read_field (s : string) : option (string * string) :=
  match s with
  | EmptyString => None
  | String a s' =>
      if Ascii.eqb a "}" then Some (EmptyString, s')
      else match read_field s' with
           | Some (name, rest) => Some (String a name, rest)
           | None => None
           end
  end.

Definition format_field (lookup : string -> option string) (name : string)
  : result string :=
  if has_char field_special name then Raise Unmodelled
  else if all_digits name then Raise IndexError
  else match lookup name with
       | Some v => Ok v
       | None => Raise (KeyError name)
       end.

Fixpoint format_fuel (fuel : nat) (lookup : string -> option string) (s : string)
  : result string :=
  match fuel with
  | O => Raise Unmodelled
  | S fuel' =>
      match s with
      | EmptyString => Ok EmptyString
      | String a s' =>
          if Ascii.eqb a "{" then
            match s' with
            | String b s'' =>
                if Ascii.eqb b "{" then
                  r <- format_fuel fuel' lookup s'';; Ok (String "{" r)
                else
                  match read_field s' with
                  | None => Raise ValueError
                  | Some (name, rest) =>
                      v <- format_field lookup name;;
                      r <- format_fuel fuel' lookup rest;;
                      Ok (v +:+ r)
                  end
            | EmptyString => Raise ValueError
            end
          else if Ascii.eqb a "}" then
            match s' with
            | String b s'' =>
                if Ascii.eqb b "}" then
                  r <- format_fuel fuel' lookup s'';; Ok (String "}" r)
                else Raise ValueError
            | EmptyString => Raise ValueError
            end
          else r <- format_fuel fuel' lookup s';; Ok (String a r)
      end
  end.

(** Every step consumes a character, so the length of the template plus
    one is fuel enough. *)
Definition py_format (lookup : string -> option string) (s : string) : result string :=
  format_fuel (S (String.length s)) lookup s.

(** ** The world outside the interpreter *)

(** A file holds JSON (a status record) or something else; the file system
    maps a path to what is there. Parent directories are not tracked. *)
Inductive content :=
| Json (v : pyval)
| Data.

Inductive node :=
| Dir
| File (c : content).

(** [built] is the list of Stage objects constructed so far, by class name:
    it is not program state, it records which constructors have run. *)
Record World := mkWorld {
  fs : gmap string node;
  stdout : list string;
  built : list string
}.

Definition io (A : Type) : Type := World -> World * result A.

Definition io_bind {A B} (m : io A) (k : A -> io B) : io B :=
  fun w => match m w with
           | (w', Ok a) => k a w'
           | (w', Raise e) => (w', Raise e)
           end.

Definition ret {A} (a : A) : io A := fun w => (w, Ok a).

(** [x <~ m ;; k]: the same in [io], the world threaded through. *)
Notation "x <~ m ;; k" := (io_bind m (fun x => k))
  (at level 100, m at level 99, k at level 200, right associativity).

Definition lift {A} (r : result A) : io A := fun w => (w, r).
Definition raise {A} (e : pyerr) : io A := fun w => (w, Raise e).

Definition nl : string := String (ascii_of_nat 10) EmptyString.

(** [print(s)] *)
Definition print (s : string) : io unit :=
  fun w => (mkWorld (fs w) (stdout w ++ [s])%list (built w), Ok tt).

Definition set_fs (f : gmap string node) (w : World) : World :=
  mkWorld f (stdout w) (built w).

Definition os_path_exists (p : string) : io bool :=
  fun w => (w, Ok (bool_decide (is_Some (fs w !! p)))).

Definition is_file (n : option node) : bool :=
  match n with Some (File _) => true | _ => false end.

Definition is_dir (n : option node) : bool :=
  match n with Some Dir => true | _ => false end.

Definition os_path_isfile (p : string) : io bool :=
  fun w => (w, Ok (is_file (fs w !! p))).

Definition os_path_isdir (p : string) : io bool :=
  fun w => (w, Ok (is_dir (fs w !! p))).

Definition os_makedirs (p : string) : io unit :=
  fun w => match fs w !! p with
           | Some _ => (w, Raise (FileExistsError p))
           | None => (set_fs (<[p := Dir]> (fs w)) w, Ok tt)
           end.

Definition os_remove (p : string) : io unit :=
  fun w => match fs w !! p with
           | Some (File _) => (set_fs (delete p (fs w)) w, Ok tt)
           | Some Dir => (w, Raise (IsADirectoryError p))
           | None => (w, Raise (FileNotFoundError p))
           end.

(** [json.load(open(p, 'r'))] *)
Definition json_load (p : string) : io pyval :=
  fun w => match fs w !! p with
           | Some (File (Json v)) => (w, Ok v)
           | Some (File Data) => (w, Raise JSONDecodeError)
           | Some Dir => (w, Raise (IsADirectoryError p))
           | None => (w, Raise (FileNotFoundError p))
           end.

(** [json.dump(v, open(p, 'w'))] *)
Definition json_dump (p : string) (v : pyval) : io unit :=
  fun w => match fs w !! p with
           | Some Dir => (w, Raise (IsADirectoryError p))
           | _ => (set_fs (<[p := File (Json v)]> (fs w)) w, Ok tt)
           end.

(** [for x in l: body(x)] *)
Fixpoint io_for {A} (l : list A) (body : A -> io unit) : io unit :=
  match l with
  | [] => ret tt
  | x :: r => _ <~ body x;; io_for r body
  end.

(** ** helpers.py

    The module is not part of the sources at hand; its functions are taken
    as given. Each may raise. *)
Class Helpers := {
  get_realdwelltime : pyval -> result pyval;
  get_readoutdir : pyval -> result pyval;
  ijk_to_xyz : pyval -> result pyval;
  get_relpath : pyval -> result pyval;
  validate_config : pyval -> pyval -> result unit
}.

(** ** ParameterSettings *)

Module ParameterSettings.

(** The class attributes (the defaults shared by every session) and the
    attributes of one instance. Reading an attribute looks at the instance
    first; assigning writes the instance. *)
Record t := mk {
  klass : gmap string pyval;
  inst : gmap string pyval
}.

Definition defaults : list (string * pyval) := [
  ("summary_dir", VStr "summary_{DCANBOLDPROCVER}");
  ("t1template", VStr "{HCPPIPEDIR_Templates}/INFANT_MNI_T1_1mm.nii.gz");
  ("t1templatebrain", VStr "{HCPPIPEDIR_Templates}/INFANT_MNI_T1_1mm_brain.nii.gz");
  ("t1template2mm", VStr "{HCPPIPEDIR_Templates}/INFANT_MNI_T1_2mm.nii.gz");
  ("t2template", VStr "{HCPPIPEDIR_Templates}/INFANT_MNI_T2_1mm.nii.gz");
  ("t2templatebrain", VStr "{HCPPIPEDIR_Templates}/INFANT_MNI_T2_1mm_brain.nii.gz");
  ("t2template2mm", VStr "{HCPPIPEDIR_Templates}/INFANT_MNI_T2_2mm.nii.gz");
  ("templatemask", VStr "{HCPPIPEDIR_Templates}/INFANT_MNI_T1_1mm_brain_mask.nii.gz");
  ("template2mmmask", VStr "{HCPPIPEDIR_Templates}/INFANT_MNI_T1_2mm_brain_mask_dil.nii.gz");
  ("refmyelinmaps", VStr "{HCPPIPEDIR_Templates}/standard_mesh_atlases/Conte69.MyelinMap_BC.164k_fs_LR.dscalar.nii");
  ("surfatlasdir", VStr "{HCPPIPEDIR_Templates}/standard_mesh_atlases");
  ("grayordinatesdir", VStr "{HCPPIPEDIR_Templates}/91282_Greyordinates");
  ("multitemplatedir", VStr "{HCPPIPEDIR_Templates}/JLF_templates");
  ("multimaskingdir", VStr "{HCPPIPEDIR_Templates}/DCAN_neo_JLF_heads");
  ("t2wstudytemplate", VStr "{HCPPIPEDIR_Templates}/temp_nih_T2w_atl.nii.gz");
  ("t2wstudytemplatebrain", VStr "{HCPPIPEDIR_Templates}/temp_nih_T2w_atl_brain.nii.gz");
  ("templatesidentifier", VStr "{HCPPIPEDIR_Templates}/README.txt");
  ("gca", VStr "{FREESURFER_HOME}/average/RB_all_2008-03-26.gca");
  ("brainsize", VInt 120);
  ("fmrires", VFloat 2%float);
  ("grayordinatesres", VInt 2);
  ("smoothingFWHM", VInt 2);
  ("regname", VStr "FS");
  ("hiresmesh", VStr "164");
  ("lowresmesh", VStr "32");
  ("mctype", VStr "MCFLIRT");
  ("topupconfig", VStr "{HCPPIPEDIR_Config}/b02b0.cnf");
  ("fnirtconfig", VStr "{HCPPIPEDIR_Config}/T1_2_MNI152_2mm.cnf");
  ("freesurferlabels", VStr "{HCPPIPEDIR_Config}/FreeSurferAllLut.txt");
  ("subcortgraylabels", VStr "{HCPPIPEDIR_Config}/FreeSurferSubcorticalLabelTableLut.txt");
  ("brain_radius", VInt 45);
  ("fd_threshold", VFloat 0.3%float);
  ("filter_order", VInt 2);
  ("lower_bpf", VFloat 0.009%float);
  ("upper_bpf", VFloat 0.080%float);
  ("motion_filter_type", VStr "notch");
  ("motion_filter_order", VInt 4);
  ("band_stop_min", VNone);
  ("band_stop_max", VNone);
  ("motion_filter_option", VInt 5);
  ("skip_seconds", VInt 5);
  ("contiguous_frames", VInt 5);
  ("jlf_method", VStr "T1W");
  ("max_cortical_thickness", VInt 5);
  ("smoothing_iterations", VInt 10);
  ("aseg", VStr "DEFAULT");
  ("subcortical_map_method", VStr "ROI_MAP");
  ("t1_brain_mask", VNone);
  ("mc_frame", VInt 17)
].

Definition class_attrs : gmap string pyval := list_to_map defaults.

Definition setattr (self : t) (name : string) (v : pyval) : t :=
  mk (klass self) (<[name := v]> (inst self)).

Definition getattr (self : t) (name : string) : result pyval :=
  match inst self !! name with
  | Some v => Ok v
  | None => match klass self !! name with
            | Some v => Ok v
            | None => Raise AttributeError
            end
  end.

Definition hasattr (self : t) (name : string) : bool :=
  is_ok (getattr self name).

Definition fmap_types : list string :=
  ["magnitude"; "magnitude1"; "magnitude2"; "phasediff"; "phase1"; "phase2";
   "fieldmap"].

(** [fmap_types.intersection(set(v))], as a truth value *)
Definition fmap_types_intersect (v : pyval) : result bool :=
  l <- py_set v;;
  Ok (existsb (fun x => existsb (fun s => is_str s x) fmap_types) l).

Definition as_str (v : pyval) : result string :=
  match v with VStr s => Ok s | _ => Raise AttributeError end.

Section WithHelpers.
Context `{PyRuntime} `{Helpers}.

(** Lines 149-199 of [__init__]: the distortion correction method,
    TOPUP, FIELDMAP or None, from the types of files of the session. *)
Definition infer_distortion_correction (bids_data : pyval) (self : t) : result t :=
  md <- getitem_key bids_data "t1w_metadata";;
  ud <- get_readoutdir md;;
  let self := setattr self "unwarpdir" ud in
  types <- getitem_key bids_data "types";;
  has_epi <- py_in "epi" types;;
  if has_epi then
    let self := setattr self "dcmethod" (VStr "TOPUP") in
    fm <- getitem_key bids_data "fmap_metadata";;
    pos <- getitem_key fm "positive";;
    pos0 <- getitem_idx pos 0;;
    es <- getitem_key pos0 "EffectiveEchoSpacing";;
    let self := setattr self "echospacing" es in
    es' <- py_fmt_12f es;;
    let self := setattr self "echospacing" (VStr (str_rstrip "0" es')) in
    fn <- getitem_key bids_data "func_metadata";;
    fn0 <- getitem_idx fn 0;;
    ped <- getitem_key fn0 "PhaseEncodingDirection";;
    sd <- ijk_to_xyz ped;;
    let self := setattr self "seunwarpdir" sd in
    let self := setattr self "fmapmag" VNone in
    let self := setattr self "fmapphase" VNone in
    let self := setattr self "fmapgeneralelectric" VNone in
    let self := setattr self "echodiff" VNone in
    let self := setattr self "gdcoeffs" VNone in
    Ok self
  else
    grad <- (types' <- getitem_key bids_data "types";; fmap_types_intersect types');;
    if grad then
      let self := setattr self "dcmethod" (VStr "FIELDMAP") in
      fmap <- getitem_key bids_data "fmap";;
      keys <- match fmap with VDict _ => Ok fmap | _ => Raise AttributeError end;;
      m1 <- py_in "magnitude1" keys;;
      m2 <- (if m1 then py_in "magnitude2" keys else Ok false);;
      self <-
        (if m2 then
           mag <- getitem_key fmap "magnitude1";;
           let self := setattr self "fmapmag" mag in
           fm <- getitem_key bids_data "fmap_metadata";;
           e2 <- (x <- getitem_key fm "magnitude2";; getitem_key x "EchoTime");;
           fm' <- getitem_key bids_data "fmap_metadata";;
           e1 <- (x <- getitem_key fm' "magnitude1";; getitem_key x "EchoTime");;
           d <- py_sub e2 e1;;
           let self := setattr self "echodiff" d in
           ms <- py_mul_float d 1000%float;;
           g <- py_fmt_g ms;;
           let self := setattr self "echodiff" (VStr g) in
           Ok (setattr self "fmapgeneralelectric" VNone)
         else
           m <- py_in "magnitude" keys;;
           if m then Raise NotImplementedError
           else Raise (Exception "No FM magnitude image identified"));;
      pd <- py_in "phasediff" keys;;
      self <-
        (if pd then
           ph <- getitem_key fmap "phasediff";;
           Ok (setattr self "fmapphase" ph)
         else
           p1 <- py_in "phase1" keys;;
           p2 <- (if p1 then py_in "phase2" keys else Ok false);;
           if p2 then Raise NotImplementedError
           else Raise (Exception "No FM phase image identified"));;
      let self := setattr self "seunwarpdir" VNone in
      let self := setattr self "gdcoeffs" VNone in
      let self := setattr self "echospacing" VNone in
      Ok self
    else
      let self := setattr self "fmapmag" VNone in
      let self := setattr self "fmapphase" VNone in
      let self := setattr self "fmapgeneralelectric" VNone in
      let self := setattr self "echodiff" VNone in
      let self := setattr self "gdcoeffs" VNone in
      let self := setattr self "dcmethod" VNone in
      let self := setattr self "seunwarpdir" VNone in
      let self := setattr self "echospacing" VNone in
      Ok self.

(** Lines 127-146: the anatomical inputs; T2w is required. *)
Definition init_anatomical (bids_data : pyval) (self : t) : io t :=
  let self := setattr self "bids_data" bids_data in
  t1w <~ lift (getitem_key bids_data "t1w");;
  let self := setattr self "t1w" t1w in
  sp <~ lift (md <- getitem_key bids_data "t1w_metadata";; get_realdwelltime md);;
  let self := setattr self "t1samplespacing" sp in
  has_t2 <~ lift (types <- getitem_key bids_data "types";; py_in "T2w" types);;
  if has_t2 then
    let self := setattr self "useT2" (VStr "true") in
    t2w <~ lift (getitem_key bids_data "t2w");;
    let self := setattr self "t2w" t2w in
    sp2 <~ lift (md <- getitem_key bids_data "t2w_metadata";; get_realdwelltime md);;
    ret (setattr self "t2samplespacing" sp2)
  else
    _ <~ print (nl +:+ "ERROR: The infant pipeline is not able to run without T2w data." +:+ nl);;
    raise (Exception "The infant pipeline is not able to run without T2w data").

(** Lines 201-232: the remaining instance attributes. *)
Definition init_paths (bids_data : pyval) (output_directory : string) (self : t)
  : result t :=
  let self := if hasattr self "fmribfcmethod" then self
              else setattr self "fmribfcmethod" VNone in
  let self := setattr self "physio" VNone in
  let self := setattr self "t1wstudytemplate" VNone in
  let self := setattr self "t1wstudytemplatebrain" VNone in
  let self := setattr self "path" (VStr (os_path_join output_directory "files")) in
  let self := setattr self "logs" (VStr (os_path_join output_directory "logs")) in
  subject <- getitem_key bids_data "subject";;
  let self := setattr self "subject" subject in
  session <- getitem_key bids_data "session";;
  let self := setattr self "session" session in
  t1w <- getattr self "t1w";;
  first <- getitem_idx t1w 0;;
  first <- as_str first;;
  let session_root := str_join "/" (drop_last2 (str_split "/" first)) in
  let self := setattr self "unproc" (VStr (os_path_join session_root "func")) in
  let bids_input_root := str_join "/" (drop_last2 (str_split "/" session_root)) in
  let self := setattr self "sourcedata_root"
                (VStr (os_path_join bids_input_root "sourcedata")) in
  let self := setattr self "printcom" (VStr "") in
  let self := setattr self "atropos_mask_method" (VStr "REFINE") in
  let self := setattr self "crop" (VBool true) in
  Ok self.

Definition __init__ (bids_data : pyval) (output_directory : string) : io t :=
  self <~ init_anatomical bids_data (mk class_attrs ∅);;
  self <~ lift (infer_distortion_correction bids_data self);;
  lift (init_paths bids_data output_directory self).
End WithHelpers.

(** [_params]: the attributes, of the instance or of the class, whose
    name does not start with an underscore. Methods are not attributes
    here, so the filter on routines has nothing to remove. *)
Definition public (name : string) : bool := negb (str_startswith "_" name).

Definition _params (self : t) : gmap string pyval :=
  filter (fun kv => public (fst kv) = true) (inst self ∪ klass self).

(** [inspect.getmembers] lists the members sorted by name. *)
Definition key_le (a b : string * pyval) : Prop := String.leb (fst a) (fst b) = true.

#[global] Instance key_le_dec a b : Decision (key_le a b) :=
  decide (String.leb (fst a) (fst b) = true).

Definition items (m : gmap string pyval) : list (string * pyval) :=
  merge_sort key_le (map_to_list m).

(** The loop of [_format]: every string is formatted against the
    environment and assigned back to the instance. *)
Fixpoint format_items (env : gmap string string) (l : list (string * pyval))
  (self : t) : result t :=
  match l with
  | [] => Ok self
  | (item, VStr value) :: r =>
      value' <- py_format (fun name => env !! name) value;;
      format_items env r (setattr self item (VStr value'))
  | _ :: r => format_items env r self
  end.

Definition _format (env : gmap string string) (self : t) : result t :=
  format_items env (items (_params self)) self.

Definition get_params (env : gmap string string) (self : t)
  : result (t * gmap string pyval) :=
  self <- _format env self;;
  Ok (self, _params self).

(** [__getitem__] and [__setitem__] *)
Definition __getitem__ (self : t) (item : string) : result pyval :=
  match _params self !! item with
  | Some v => Ok v
  | None => Raise (KeyError item)
  end.

Definition __setitem__ (self : t) (key : string) (value : pyval) : t :=
  setattr self key value.

(** [get_bids] with its argument list: a key is a string or a position. *)
Inductive key :=
| K (s : string)
| I (i : Z).

Definition getitem (v : pyval) (k : key) : result pyval :=
  match k with
  | K s => getitem_key v s
  | I i => getitem_idx v i
  end.

Fixpoint get_from (val : pyval) (args : list key) : result pyval :=
  match args with
  | [] => Ok val
  | arg :: r => val <- getitem val arg;; get_from val r
  end.

Definition get_bids (self : t) (args : list key) : result pyval :=
  val <- getattr self "bids_data";;
  get_from val args.

(** *** The setters *)

Definition set_anat_only (anat_only : pyval) (self : t) : t :=
  if py_truthy anat_only then
    let self := setattr self "unproc" VNone in
    setattr self "summary_dir" VNone
  else self.

Definition set_atropos_mask_method (value : pyval) (self : t) : t :=
  setattr self "atropos_mask_method" value.

Definition set_bandstop_filter (lower_bound upper_bound filter_type : pyval)
  (self : t) : t :=
  let self := setattr self "motion_filter_type" filter_type in
  let self := setattr self "band_stop_min" lower_bound in
  setattr self "band_stop_max" upper_bound.

Definition set_hypernormalization_method (norm_method : pyval) (self : t) : t :=
  setattr self "norm_method" norm_method.

Definition set_mc_frame (value : pyval) (self : t) : t :=
  setattr self "mc_frame" value.

Definition set_templates
  (t1_study_template t1_study_template_brain t2_study_template
   t2_study_template_brain multi_template_dir multi_masking_dir : pyval)
  (self : t) : t :=
  let self :=
    if py_truthy t1_study_template then
      let self := setattr self "t1wstudytemplate" t1_study_template in
      setattr self "t1wstudytemplatebrain" t1_study_template_brain
    else self in
  let self :=
    if py_truthy t2_study_template then
      let self := setattr self "t2wstudytemplate" t2_study_template in
      setattr self "t2wstudytemplatebrain" t2_study_template_brain
    else self in
  let self :=
    if py_truthy multi_template_dir then
      setattr self "multitemplatedir" multi_template_dir
    else self in
  if py_truthy multi_masking_dir then
    setattr self "multimaskingdir" multi_masking_dir
  else self.

Definition turn_off_cropping (self : t) : t :=
  setattr self "crop" (VBool false).

Definition set_dcmethod (value : pyval) (self : t) : t :=
  if py_truthy value then setattr self "dcmethod" value else self.

Definition set_atropos_range (lower_bound upper_bound : pyval) (self : t) : t :=
  let self := __setitem__ self "atropos_label_min" lower_bound in
  __setitem__ self "atropos_label_max" upper_bound.

Definition set_max_cortical_thickness (value : pyval) (self : t) : t :=
  if py_truthy value then setattr self "max_cortical_thickness" value
  else setattr self "max_cortical_thickness" (VInt 5).

Definition is_none (v : pyval) : bool :=
  match v with VNone => true | _ => false end.

Definition set_jlf_method (value : pyval) (self : t) : t :=
  if py_truthy value && negb (is_none value) then setattr self "jlf_method" value
  else setattr self "jlf_method" (VStr "T1W").

Definition set_smoothing_iterations (value : pyval) (self : t) : t :=
  if py_truthy value then setattr self "smoothing_iterations" value
  else setattr self "smoothing_iterations" (VInt 10).

Definition set_subcortical_map_method (value : pyval) (self : t) : t :=
  if py_truthy value && negb (is_none value) then
    setattr self "subcortical_map_method" value
  else setattr self "subcortical_map_method" (VStr "ROI_MAP").

Definition set_t1_brain_mask (value : pyval) (self : t) : t :=
  if py_truthy value then setattr self "t1_brain_mask" value else self.

Definition set_aseg (value : pyval) (self : t) : t :=
  if py_truthy value then setattr self "aseg" value
  else setattr self "aseg" (VStr "DEFAULT").

End ParameterSettings.

(** ** Status: the status.json of a stage, written through *)

Module Status.

Definition name : string := "status.json".

Module states.
Definition unchecked : Z := 999.
Definition not_started : Z := 4.
Definition failed : Z := 3.
Definition incomplete : Z := 2.
Definition succeeded : Z := 1.
End states.

Record t := mk { file_path : string }.

Definition defaults : list (string * pyval) :=
  [("num_runs", VInt 0); ("node_status", VInt states.not_started); ("comment", VStr "")].

Definition _write_dict (self : t) (contents : list (string * pyval)) : io unit :=
  json_dump (file_path self) (VDict contents).

Definition __init__ (folder_path : string) : io t :=
  let self := mk (os_path_join folder_path name) in
  e <~ os_path_exists (file_path self);;
  if negb e then
    _ <~ _write_dict self defaults;;
    ret self
  else ret self.

Definition __getitem__ (self : t) (key : string) : io pyval :=
  store <~ json_load (file_path self);;
  lift (getitem_key store key).

(** [store[key] = value] on a dict *)
Fixpoint dict_set (d : list (string * pyval)) (k : string) (v : pyval)
  : list (string * pyval) :=
  match d with
  | [] => [(k, v)]
  | (k', v') :: r =>
      if String.eqb k' k then (k, v) :: r else (k', v') :: dict_set r k v
  end.

Definition __setitem__ (self : t) (key : string) (value : pyval) : io unit :=
  store <~ json_load (file_path self);;
  match store with
  | VDict d => _write_dict self (dict_set d key value)
  | _ => raise TypeError
  end.

Definition increment_run (self : t) : io unit :=
  n <~ __getitem__ self "num_runs";;
  n' <~ lift (py_add1 n);;
  __setitem__ self "num_runs" n'.

Definition update_start_run (self : t) : io unit :=
  _ <~ increment_run self;;
  __setitem__ self "node_status" (VInt states.incomplete).

Definition update_success (self : t) : io unit :=
  _ <~ __setitem__ self "node_status" (VInt states.succeeded);;
  __setitem__ self "comment" (VStr "").

Definition update_failure (self : t) (comment : string) : io unit :=
  _ <~ __setitem__ self "node_status" (VInt states.failed);;
  __setitem__ self "comment" (VStr comment).

Definition update_unchecked (self : t) (comment : string) : io unit :=
  _ <~ __setitem__ self "node_status" (VInt states.unchecked);;
  __setitem__ self "comment" (VStr comment).

Definition update_unchecked_default : string :=
  "no expected_outputs list for completed node".

Definition succeeded (self : t) : io bool :=
  s <~ __getitem__ self "node_status";;
  ret (py_eq_int s states.succeeded || py_eq_int s states.unchecked).

End Status.

(** ** Stage *)

Module Stage.

(** The runtime settings, attributes of the class of a stage. *)
Record klass := mk_klass {
  call_active : bool;
  check_expected_outputs_active : bool;
  remove_expected_outputs_active : bool;
  ignore_expected_outputs : bool
}.

Definition class_defaults : klass := mk_klass true true true false.

Definition deactivate_runtime_calls (cls : klass) : klass :=
  mk_klass false (check_expected_outputs_active cls)
    (remove_expected_outputs_active cls) (ignore_expected_outputs cls).

Definition deactivate_check_expected_outputs (cls : klass) : klass :=
  mk_klass (call_active cls) false
    (remove_expected_outputs_active cls) (ignore_expected_outputs cls).

Definition deactivate_remove_expected_outputs (cls : klass) : klass :=
  mk_klass (call_active cls) (check_expected_outputs_active cls)
    false (ignore_expected_outputs cls).

Definition activate_ignore_expected_outputs (cls : klass) : klass :=
  mk_klass (call_active cls) (check_expected_outputs_active cls)
    (remove_expected_outputs_active cls) true.

(** A stage object: the name of its class, its kwargs, its status and
    the entry of its class in pipeline_expected_outputs.json. The
    configuration it refers to is passed to the methods that read it. *)
Record t := mk {
  class_name : string;
  kwargs : gmap string pyval;
  status : Status.t;
  expected_outputs_spec : pyval
}.

Definition set_kwarg (self : t) (k : string) (v : pyval) : t :=
  mk (class_name self) (<[k := v]> (kwargs self)) (status self)
     (expected_outputs_spec self).

Definition kwarg (self : t) (k : string) : result pyval :=
  match kwargs self !! k with
  | Some v => Ok v
  | None => Raise (KeyError k)
  end.

Definition io_map {A B} (f : A -> io B) : list A -> io (list B) :=
  fix go l :=
    match l with
    | [] => ret []
    | x :: r => y <~ f x;; ys <~ go r;; ret (y :: ys)
    end.

Fixpoint result_map {A B} (f : A -> result B) (l : list A) : result (list B) :=
  match l with
  | [] => Ok []
  | x :: r => y <- f x;; ys <- result_map f r;; Ok (y :: ys)
  end.

(** [[f for i, f in enumerate(outputs) if keep(checklist[i])]] *)
Definition pick (keep : bool -> bool) (outputs : list string) (checklist : list bool)
  : list string :=
  map fst (List.filter (fun p => keep (snd p)) (combine outputs checklist)).

Definition mark_built (name : string) : io unit :=
  fun w => (mkWorld (fs w) (stdout w) (built w ++ [name])%list, Ok tt).

Section WithRuntime.
Context `{PyRuntime}.

(** Where pipelines.py is installed, next to its
    pipeline_expected_outputs.json. *)
Variable here : string.

Definition _get_log_dir (self_kwargs : gmap string pyval) (name : string) : io string :=
  logs <~ lift (match self_kwargs !! "logs" with
                | Some (VStr s) => Ok s
                | Some _ => Raise TypeError
                | None => Raise (KeyError "logs")
                end);;
  let log_dir := os_path_join logs name in
  d <~ os_path_isdir log_dir;;
  if negb d then
    _ <~ os_makedirs log_dir;;
    ret log_dir
  else ret log_dir.

(** [Stage.__init__] for an object of class [name]. Reading the
    parameters formats the strings of the configuration, which the
    caller gets back. *)
Definition __init__ (env : gmap string string) (name : string)
  (config : ParameterSettings.t) : io (ParameterSettings.t * t) :=
  p <~ lift (ParameterSettings.get_params env config);;
  let config := fst p in
  let self_kwargs := snd p in
  log_dir <~ _get_log_dir self_kwargs name;;
  st <~ Status.__init__ log_dir;;
  jso <~ json_load (os_path_join here "pipeline_expected_outputs.json");;
  spec <~ lift (getitem_key jso name);;
  _ <~ mark_built name;;
  ret (config, mk name self_kwargs st spec).

Definition get_conditional_expected_outputs (self : t) : list string := [].

Definition format_kwargs (self : t) (p : pyval) : result string :=
  match p with
  | VStr s => py_format (fun name => py_str <$> kwargs self !! name) s
  | _ => Raise AttributeError
  end.

Definition get_expected_outputs (self : t) : result (list string) :=
  ps <- py_iter (expected_outputs_spec self);;
  expected_outputs <- result_map (format_kwargs self) ps;;
  Ok (expected_outputs ++ get_conditional_expected_outputs self)%list.

Definition check_expected_outputs (cls : klass) (self : t) : io bool :=
  if negb (check_expected_outputs_active cls) then ret true
  else
    outputs <~ lift (get_expected_outputs self);;
    checklist <~ io_map os_path_exists outputs;;
    if negb (forallb id checklist) then
      _ <~ print ("missing expected outputs from " +:+ class_name self);;
      let dne_list := pick negb outputs checklist in
      _ <~ io_for dne_list (fun f => print ("file not found: " +:+ f));;
      if negb (ignore_expected_outputs cls) then ret false
      else ret true
    else ret true.

(** The guard of the source reads [self.remove_expected_outputs], the
    method itself, and a bound method is true; the class attribute
    [remove_expected_outputs_active] is not read. *)
Definition remove_expected_outputs (cls : klass) (self : t) : io unit :=
  let self_remove_expected_outputs := true in
  if negb self_remove_expected_outputs then ret tt
  else
    outputs <~ lift (get_expected_outputs self);;
    checklist <~ io_map os_path_isfile outputs;;
    if existsb id checklist then
      _ <~ print ("found outputs from an earlier run of " +:+ class_name self);;
      let rm_list := pick id outputs checklist in
      io_for rm_list (fun f => _ <~ print ("removing " +:+ f);; os_remove f)
    else ret tt.

Definition setup (cls : klass) (self : t) : io unit :=
  _ <~ Status.update_start_run (status self);;
  remove_expected_outputs cls self.

(** [isinstance(result, list) and all(v == 0 for v in result)] *)
Definition all_zero (result : pyval) : bool :=
  match result with
  | VList l => forallb py_eq_zero l
  | _ => false
  end.

Definition teardown (cls : klass) (self : t) (result : pyval) : io unit :=
  let result := if all_zero result then VInt 0 else result in
  _ <~ (if py_eq_zero result then Status.update_success (status self)
        else Status.update_failure (status self)
               ("stage terminated with exit code " +:+ py_str result));;
  ok <~ check_expected_outputs cls self;;
  _ <~ (if negb ok then
          Status.update_failure (status self)
            "stage terminated, some required files were not created."
        else ret tt);;
  s <~ Status.__getitem__ (status self) "node_status";;
  if negb (py_eq_int s Status.states.succeeded) then
    raise (Exception ("error caught during stage: " +:+ class_name self))
  else ret tt.
End WithRuntime.

End Stage.

(** ** The intended spin echo field maps

    [PreFreeSurfer._get_intended_sefmaps] and
    [FMRIVolume._get_intended_sefmaps] are the same two loops around a
    different test of a sidecar. *)

Module IntendedFor.

(** The [for idx, sefm in enumerate(l)] loop with its [break]. [idx] is a
    local of the method: it has no value before the first iteration of
    the first loop, and keeps its last value afterwards. The loop is left
    through [break] or by running out of items, which leads to its [else]
    clause. *)
Inductive loop_exit :=
| Broke (idx : Z)
| Exhausted (idx : option Z).

Fixpoint scan (test : pyval -> result bool) (l : list pyval) (i : Z)
  (idx : option Z) : result loop_exit :=
  match l with
  | [] => Ok (Exhausted idx)
  | sefm :: r =>
      hit <- test sefm;;
      if hit then Ok (Broke i)
      else scan test r (i + 1) (Some i)
  end.

Definition warning (direction : string) : string :=
  "WARNING: the intended " +:+ direction +:+
  " spin echo for anatomical distortion correction is not explicitly defined in the sidecar json.".

(** One turn of [for direction in ['positive', 'negative']]: the index
    for the direction and the value [idx] is left with. *)
Definition direction_index (test : pyval -> result bool)
  (config : ParameterSettings.t) (direction : string) (idx : option Z)
  : io (Z * option Z) :=
  l <~ lift (v <- ParameterSettings.get_bids config
                    [ParameterSettings.K "fmap_metadata"; ParameterSettings.K direction];;
             py_iter v);;
  r <~ lift (scan test l 0 idx);;
  match r with
  | Broke i => ret (i, Some i)
  | Exhausted None => raise (UnboundLocalError "idx")
  | Exhausted (Some i) =>
      _ <~ (if negb (i =? 0) then print (warning direction) else ret tt);;
      ret (0, Some i)
  end.

Definition intended_idx (test : pyval -> result bool)
  (config : ParameterSettings.t) : io (Z * Z) :=
  p <~ direction_index test config "positive" None;;
  n <~ direction_index test config "negative" (snd p);;
  ret (fst p, fst n).

Definition _get_intended_sefmaps (test : pyval -> result bool)
  (config : ParameterSettings.t) : io (pyval * pyval) :=
  ii <~ intended_idx test config;;
  pos <~ lift (ParameterSettings.get_bids config
                 [ParameterSettings.K "fmap"; ParameterSettings.K "positive";
                  ParameterSettings.I (fst ii)]);;
  neg <~ lift (ParameterSettings.get_bids config
                 [ParameterSettings.K "fmap"; ParameterSettings.K "negative";
                  ParameterSettings.I (snd ii)]);;
  ret (pos, neg).

End IntendedFor.

Module PreFreeSurfer.

(** ['T1w' in ' '.join(sefm.get('IntendedFor', []))] *)
Definition intended_for_T1w (sefm : pyval) : result bool :=
  intended_targets <- dict_get_default sefm "IntendedFor" (VList []);;
  joined <- py_join " " intended_targets;;
  Ok (str_contains "T1w" joined).

Definition _get_intended_sefmaps (config : ParameterSettings.t) : io (pyval * pyval) :=
  IntendedFor._get_intended_sefmaps intended_for_T1w config.

Section WithRuntime.
Context `{PyRuntime}.
Variable here : string.

Definition __init__ (env : gmap string string) (config : ParameterSettings.t)
  : io (ParameterSettings.t * Stage.t) :=
  p <~ Stage.__init__ here env "PreFreeSurfer" config;;
  let config := fst p in
  let self := snd p in
  t1 <~ lift (py_join "@" (default VNone (Stage.kwargs self !! "t1w")));;
  let self := Stage.set_kwarg self "t1" (VStr t1) in
  t2 <~ lift (py_join "@" (default (VList []) (Stage.kwargs self !! "t2w")));;
  let self := Stage.set_kwarg self "t2" (VStr t2) in
  dc <~ lift (Stage.kwarg self "dcmethod");;
  self <~ (if is_str "TOPUP" dc then
             pn <~ _get_intended_sefmaps config;;
             let self := Stage.set_kwarg self "sephasepos" (fst pn) in
             ret (Stage.set_kwarg self "sephaseneg" (snd pn))
           else
             let self := Stage.set_kwarg self "sephasepos" VNone in
             ret (Stage.set_kwarg self "sephaseneg" VNone));;
  ret (config, Stage.set_kwarg self "normalization" (VStr "true")).
End WithRuntime.

End PreFreeSurfer.

Module FMRIVolume.

Section WithHelpers.
Context `{PyRuntime} `{Helpers}.

(** [get_relpath(self.kwargs['fmritcs']) in
    ' '.join(sefm.get('IntendedFor', []))] *)
Definition intended_for_run (self : Stage.t) (sefm : pyval) : result bool :=
  intended_targets <- dict_get_default sefm "IntendedFor" (VList []);;
  fmritcs <- Stage.kwarg self "fmritcs";;
  rel <- get_relpath fmritcs;;
  joined <- py_join " " intended_targets;;
  match rel with
  | VStr r => Ok (str_contains r joined)
  | _ => Raise TypeError
  end.

Definition _get_intended_sefmaps (config : ParameterSettings.t) (self : Stage.t)
  : io (pyval * pyval) :=
  IntendedFor._get_intended_sefmaps (intended_for_run self) config.

Variable here : string.

Definition __init__ (env : gmap string string) (config : ParameterSettings.t)
  : io (ParameterSettings.t * Stage.t) :=
  Stage.__init__ here env "FMRIVolume" config.
End WithHelpers.

End FMRIVolume.

Module FreeSurfer.

Section WithRuntime.
Context `{PyRuntime}.
Variable here : string.

Definition join_kwarg (self : Stage.t) (k : string) (file : string) : result pyval :=
  d <- Stage.kwarg self k;;
  match d with
  | VStr s => Ok (VStr (os_path_join s file))
  | _ => Raise TypeError
  end.

Definition __init__ (env : gmap string string) (config : ParameterSettings.t)
  : io (ParameterSettings.t * Stage.t) :=
  p <~ Stage.__init__ here env "FreeSurfer" config;;
  let config := fst p in
  let self := snd p in
  v <~ lift (join_kwarg self "path" "T1w");;
  let self := Stage.set_kwarg self "t1w_path" v in
  v <~ lift (join_kwarg self "t1w_path" "T1w_acpc_dc_restore.nii.gz");;
  let self := Stage.set_kwarg self "t1_restore" v in
  v <~ lift (join_kwarg self "t1w_path" "T1w_acpc_dc_restore_brain.nii.gz");;
  let self := Stage.set_kwarg self "t1_restore_brain" v in
  v <~ lift (join_kwarg self "t1w_path" "T2w_acpc_dc_restore.nii.gz");;
  let self := Stage.set_kwarg self "t2_restore" v in
  aseg <~ lift (ParameterSettings.getattr config "aseg");;
  v <~ lift (if is_literal aseg "DEFAULT" then
               join_kwarg self "t1w_path" "aseg_acpc.nii.gz"
             else
               a <- ParameterSettings.getattr config "aseg";;
               match a with
               | VStr s => Ok (VStr (os_path_abspath s))
               | _ => Raise TypeError
               end);;
  let self := Stage.set_kwarg self "aseg" v in
  v <~ lift (join_kwarg self "t1w_path" "T1wN_acpc.nii.gz");;
  let self := Stage.set_kwarg self "t1n_image" v in
  v <~ lift (join_kwarg self "t1w_path" "T1wN_acpc_brain.nii.gz");;
  let self := Stage.set_kwarg self "t1n_brain" v in
  ret (config, self).
End WithRuntime.

End FreeSurfer.

(** The stages whose constructor is the one of [Stage], with the name of
    their class, and the two that keep the path of a JSON file. *)
Module OtherStages.

Section WithRuntime.
Context `{PyRuntime}.
Variable here : string.

Definition plain (name : string) (env : gmap string string)
  (config : ParameterSettings.t) : io (ParameterSettings.t * Stage.t) :=
  Stage.__init__ here env name config.

Definition with_input_json (name : string) (env : gmap string string)
  (config : ParameterSettings.t) (input_json : pyval)
  : io (ParameterSettings.t * Stage.t) :=
  p <~ Stage.__init__ here env name config;;
  ret (fst p, Stage.set_kwarg (snd p) "input_json" input_json).
End WithRuntime.

End OtherStages.

(** ** run.py: the body of the session loop of [interface]

    From the configuration of the session to the list of stages that will
    run (lines 432-557). The license check, the reading of the dataset and
    the execution of the stages are not part of the embedding. *)

Module Run.

Record Args := mk_args {
  aseg : pyval;
  atropos_mask_method : pyval;
  atropos_range : pyval;
  bandstop_params : pyval;
  dcmethod : pyval;
  hyper_norm_method : pyval;
  jlf_method : pyval;
  max_cortical_thickness : pyval;
  mc_frame : pyval;
  multi_masking_dir : pyval;
  multi_template_dir : pyval;
  no_crop : pyval;
  smoothing_iterations : pyval;
  subcortical_map_method : pyval;
  t1_brain_mask : pyval;
  t1_study_template : pyval;
  t2_study_template : pyval;
  anat_only : pyval;
  cleaning_json : pyval;
  file_mapper_json : pyval;
  stages : pyval
}.

(** The defaults of the signature of [interface]. *)
Definition default_args : Args :=
  mk_args (VStr "DEFAULT") VNone VNone VNone VNone VNone VNone (VInt 5) (VInt 17)
          VNone VNone (VBool false) (VInt 10) VNone VNone VNone VNone
          (VBool false) VNone VNone VNone.

Definition is_none := ParameterSettings.is_none.

Definition dq : string := String (ascii_of_nat 34) EmptyString.

Definition unknown_stage (name : string) : string :=
  dq +:+ name +:+ dq +:+ " is unknown, check class name and case for given stage".

(** [names.index(x)] for an [x] that is in [names] *)
Fixpoint index_of (x : string) (names : list string) : nat :=
  match names with
  | [] => 0%nat
  | n :: r => if String.eqb n x then 0%nat else S (index_of x r)
  end.

Definition name_in (x : string) (names : list string) : bool :=
  existsb (String.eqb x) names.

(** [order[start_idx:end_idx]] for two indices that are not negative *)
Definition slice {A} (order : list A) (start_idx end_idx : nat) : list A :=
  firstn (end_idx - start_idx) (skipn start_idx order).

(** Lines 523-557: the stages to run, from [start[:stop]]. *)
Definition slice_order {A} (name : A -> string) (order : list A) (stages : pyval)
  : result (list A) :=
  if py_truthy stages then
    s <- match stages with VStr s => Ok s | _ => Raise AttributeError end;;
    let start_idx := 0%nat in
    let end_idx := length order in
    let idx_colon := str_find ":" s in
    let start_stage :=
      match idx_colon with
      | Some i => str_take i s
      | None => s
      end in
    let end_stage :=
      match idx_colon with
      | Some i => Some (str_drop (S i) s)
      | None => None
      end in
    let names := map name order in
    start_idx <-
      (if negb (String.length start_stage =? 0)%nat then
         if name_in start_stage names then Ok (index_of start_stage names)
         else Raise (AssertionError (unknown_stage start_stage))
       else Ok start_idx);;
    end_idx <-
      match end_stage with
      | Some e =>
          if name_in e names then Ok (S (index_of e names))
          else Raise (AssertionError (unknown_stage e))
      | None => Ok end_idx
      end;;
    Ok (slice order start_idx end_idx)
  else Ok order.

Section WithHelpers.
Context `{PyRuntime} `{Helpers}.
Variable here : string.
Variable env : gmap string string.

Definition when_not_none (v : pyval) (f : ParameterSettings.t -> ParameterSettings.t)
  (spec : ParameterSettings.t) : ParameterSettings.t :=
  if negb (is_none v) then f spec else spec.

(** Lines 446-494: the parameters of the user, set on the
    configuration of the session. *)
Definition set_user_parameters (a : Args) (session_spec : ParameterSettings.t)
  : result ParameterSettings.t :=
  let session_spec := ParameterSettings.set_anat_only (anat_only a) session_spec in
  let session_spec :=
    when_not_none (aseg a) (ParameterSettings.set_aseg (aseg a)) session_spec in
  let session_spec :=
    when_not_none (atropos_mask_method a)
      (ParameterSettings.set_atropos_mask_method (atropos_mask_method a))
      session_spec in
  session_spec <-
    (if negb (is_none (atropos_range a)) then
       l <- py_iter (atropos_range a);;
       match l with
       | [lo; hi] => Ok (ParameterSettings.set_atropos_range lo hi session_spec)
       | _ => Raise TypeError
       end
     else Ok session_spec);;
  session_spec <-
    (if negb (is_none (bandstop_params a)) then
       l <- py_iter (bandstop_params a);;
       match l with
       | [lo; hi] =>
           Ok (ParameterSettings.set_bandstop_filter lo hi (VStr "notch") session_spec)
       | [lo; hi; ft] =>
           Ok (ParameterSettings.set_bandstop_filter lo hi ft session_spec)
       | _ => Raise TypeError
       end
     else Ok session_spec);;
  let session_spec :=
    when_not_none (dcmethod a) (ParameterSettings.set_dcmethod (dcmethod a))
      session_spec in
  let session_spec :=
    if is_none (hyper_norm_method a) then
      ParameterSettings.set_hypernormalization_method (VStr "ADULT_GM_IP") session_spec
    else
      ParameterSettings.set_hypernormalization_method (hyper_norm_method a)
        session_spec in
  let session_spec :=
    when_not_none (jlf_method a) (ParameterSettings.set_jlf_method (jlf_method a))
      session_spec in
  let session_spec :=
    match max_cortical_thickness a with
    | VInt 5 => session_spec
    | v => ParameterSettings.set_max_cortical_thickness v session_spec
    end in
  let session_spec :=
    ParameterSettings.set_smoothing_iterations (smoothing_iterations a)
      session_spec in
  let session_spec :=
    when_not_none (subcortical_map_method a)
      (ParameterSettings.set_subcortical_map_method (subcortical_map_method a))
      session_spec in
  let session_spec :=
    when_not_none (t1_brain_mask a)
      (ParameterSettings.set_t1_brain_mask (t1_brain_mask a)) session_spec in
  session_spec <-
    (t1 <- py_iter (t1_study_template a);;
     t2 <- py_iter (t2_study_template a);;
     match (t1 ++ t2 ++ [multi_template_dir a; multi_masking_dir a])%list with
     | [a1; a2; a3; a4; a5; a6] =>
         Ok (ParameterSettings.set_templates a1 a2 a3 a4 a5 a6 session_spec)
     | _ => Raise TypeError
     end);;
  let session_spec :=
    if py_truthy (no_crop a) then ParameterSettings.turn_off_cropping session_spec
    else session_spec in
  let session_spec :=
    when_not_none (mc_frame a) (ParameterSettings.set_mc_frame (mc_frame a))
      session_spec in
  Ok session_spec.

(** Lines 432-494: what can run, and the configuration. *)
Definition configure (session : pyval) (output_dir : string) (a : Args)
  : io (ParameterSettings.t * bool * bool) :=
  out_dir <~ lift
    (subject <- getitem_key session "subject";;
     ses <- getitem_key session "session";;
     Ok (os_path_join (os_path_join output_dir ("sub-" +:+ py_str subject))
           ("ses-" +:+ py_str ses)));;
  _ <~ lift (validate_config session (anat_only a));;
  modes <~ lift (getitem_key session "types");;
  run_anat <~ lift (py_in "T1w" modes);;
  run_func <~ lift (b <- py_in "bold" modes;; Ok (b && negb (py_truthy (anat_only a))));;
  session_spec <~ ParameterSettings.__init__ session out_dir;;
  session_spec <~ lift (set_user_parameters a session_spec);;
  ret (session_spec, run_anat, run_func).

Definition construct (ctor : ParameterSettings.t -> io (ParameterSettings.t * Stage.t))
  (acc : ParameterSettings.t * list Stage.t)
  : io (ParameterSettings.t * list Stage.t) :=
  p <~ ctor (fst acc);;
  ret (fst p, (snd acc ++ [snd p])%list).

(** Lines 496-521: the stage objects, in order. *)
Definition create_pipelines (a : Args) (session_spec : ParameterSettings.t)
  (run_anat run_func : bool) : io (ParameterSettings.t * list Stage.t) :=
  let acc := (session_spec, []) in
  acc <~ (if run_anat then
            acc <~ construct (PreFreeSurfer.__init__ here env) acc;;
            acc <~ construct (FreeSurfer.__init__ here env) acc;;
            construct (OtherStages.plain here "PostFreeSurfer" env) acc
          else ret acc);;
  acc <~ (if run_func then
            acc <~ construct (FMRIVolume.__init__ here env) acc;;
            acc <~ construct (OtherStages.plain here "FMRISurface" env) acc;;
            construct (OtherStages.plain here "DCANBOLDProcessing" env) acc
          else ret acc);;
  acc <~ construct (OtherStages.plain here "ExecutiveSummary" env) acc;;
  acc <~ (if py_truthy (cleaning_json a) then
            construct (fun c => OtherStages.with_input_json here "CustomClean" env c
                                  (cleaning_json a)) acc
          else ret acc);;
  if py_truthy (file_mapper_json a) then
    construct (fun c => OtherStages.with_input_json here "FileMapper" env c
                          (file_mapper_json a)) acc
  else ret acc.

Definition interface_session (session : pyval) (output_dir : string) (a : Args)
  : io (list Stage.t) :=
  c <~ configure session output_dir a;;
  let session_spec := fst (fst c) in
  p <~ create_pipelines a session_spec (snd (fst c)) (snd c);;
  lift (slice_order Stage.class_name (snd p) (stages a)).
End WithHelpers.

End Run.

(** ** The command of a stage

    [script], [spec], [args], [cmdline] and [__str__] of the classes whose
    [cmdline] is not a generator: PreFreeSurfer, FreeSurfer, PostFreeSurfer,
    ExecutiveSummary, CustomClean and FileMapper. *)

(** Whitespace, as [str.split] and [str.strip] without argument see it;
    characters are code points below 256. *)
Definition is_space (a : ascii) : bool :=
  let n := nat_of_ascii a in
  ((9 <=? n) && (n <=? 13) || (28 <=? n) && (n <=? 32) || (n =? 133) || (n =? 160))%nat.

(** [s.split()] *)
Fixpoint str_words (s : string) : list string :=
  match s with
  | EmptyString => []
  | String a s' =>
      if is_space a then str_words s'
      else match s' with
           | EmptyString => [String a EmptyString]
           | String b _ =>
               if is_space b then String a EmptyString :: str_words s'
               else match str_words s' with
                    | [] => [String a EmptyString]
                    | w :: r => String a w :: r
                    end
           end
  end.

(** [s.strip()] *)
Fixpoint str_lstrip_space (s : string) : string :=
  match s with
  | EmptyString => EmptyString
  | String a s' => if is_space a then str_lstrip_space s' else s
  end.

Fixpoint str_rstrip_space (s : string) : string :=
  match s with
  | EmptyString => EmptyString
  | String a s' =>
      match str_rstrip_space s' with
      | EmptyString => if is_space a then EmptyString else String a EmptyString
      | r => String a r
      end
  end.

Definition str_strip (s : string) : string := str_rstrip_space (str_lstrip_space s).

Module Command.

(** The [script] and the [spec] of each class, as written in pipelines.py. *)
Definition scripts : list (string * string) := [
  ("PreFreeSurfer", "{HCPPIPEDIR}/PreFreeSurfer/PreFreeSurferPipeline.sh");
  ("FreeSurfer", "{HCPPIPEDIR}/FreeSurfer/FNL_FreeInfantPipeline.sh");
  ("PostFreeSurfer", "{HCPPIPEDIR}/PostFreeSurfer/PostFreeSurferPipeline.sh");
  ("FMRIVolume", "{HCPPIPEDIR}/fMRIVolume/GenericfMRIVolumeProcessingPipeline.sh");
  ("FMRISurface", "{HCPPIPEDIR}/fMRISurface/GenericfMRISurfaceProcessingPipeline.sh");
  ("DCANBOLDProcessing", "{DCANBOLDPROCDIR}/dcan_bold_proc.py");
  ("ExecutiveSummary", "{EXECSUMDIR}/ExecutiveSummary.py");
  ("CustomClean", "{CUSTOMCLEANDIR}/cleaning_script.py");
  ("FileMapper", "{FILEMAPPERDIR}/BIDS_filemapper_wrapper.sh")
].

Definition specs : list (string * string) := [
  ("PreFreeSurfer",
   " --path={path}" +:+
   " --t1={t1}" +:+
   " --t2={t2}" +:+
   " --t1template={t1template}" +:+
   " --t1templatebrain={t1templatebrain}" +:+
   " --t1template2mm={t1template2mm}" +:+
   " --t2template={t2template}" +:+
   " --t2templatebrain={t2templatebrain}" +:+
   " --t2template2mm={t2template2mm}" +:+
   " --templatemask={templatemask}" +:+
   " --template2mmmask={template2mmmask}" +:+
   " --brainsize={brainsize}" +:+
   " --fnirtconfig={fnirtconfig}" +:+
   " --fmapmag={fmapmag}" +:+
   " --fmapphase={fmapphase}" +:+
   " --fmapgeneralelectric={fmapgeneralelectric}" +:+
   " --echodiff={echodiff}" +:+
   " --SEPhaseNeg={sephaseneg}" +:+
   " --SEPhasePos={sephasepos}" +:+
   " --echospacing={echospacing}" +:+
   " --seunwarpdir={seunwarpdir}" +:+
   " --t1samplespacing={t1samplespacing}" +:+
   " --t2samplespacing={t2samplespacing}" +:+
   " --unwarpdir={unwarpdir}" +:+
   " --gdcoeffs={gdcoeffs}" +:+
   " --avgrdcmethod={dcmethod}" +:+
   " --topupconfig={topupconfig}" +:+
   " --useT2={useT2}" +:+
   " --t1n={normalization}" +:+
   " --printcom={printcom}" +:+
   " --multitemplatedir={multitemplatedir}" +:+
   " --multimaskingdir={multimaskingdir}" +:+
   " --t1studytemplate={t1wstudytemplate}" +:+
   " --t1studytemplatebrain={t1wstudytemplatebrain}" +:+
   " --t2studytemplate={t2wstudytemplate}" +:+
   " --t2studytemplatebrain={t2wstudytemplatebrain}" +:+
   " --atroposmaskmethod={atropos_mask_method}" +:+
   " --atroposlabelmin={atropos_label_min}" +:+
   " --atroposlabelmax={atropos_label_max}" +:+
   " --jlfmethod={jlf_method}" +:+
   " --t1brainmask={t1_brain_mask}" +:+
   " --crop={crop}");
  ("FreeSurfer",
   " --subject={subject}" +:+
   " --subjectDIR={t1w_path}" +:+
   " --t1={t1_restore}" +:+
   " --t1brain={t1_restore_brain}" +:+
   " --t2={t2_restore}" +:+
   " --useT2={useT2}" +:+
   " --aseg={aseg}" +:+
   " --t1n={t1n_image}" +:+
   " --t1nbrain={t1n_brain}" +:+
   " --gca={gca}" +:+
   " --maxThickness={max_cortical_thickness}" +:+
   " --smoothingIterations={smoothing_iterations}" +:+
   " --normalizationMethod={norm_method}" +:+
   " --printcom={printcom}");
  ("PostFreeSurfer",
   " --path={path}" +:+
   " --subject={subject}" +:+
   " --surfatlasdir={surfatlasdir}" +:+
   " --grayordinatesdir={grayordinatesdir}" +:+
   " --grayordinatesres={grayordinatesres}" +:+
   " --hiresmesh={hiresmesh}" +:+
   " --lowresmesh={lowresmesh}" +:+
   " --subcortgraylabels={subcortgraylabels}" +:+
   " --freesurferlabels={freesurferlabels}" +:+
   " --refmyelinmaps={refmyelinmaps}" +:+
   " --regname={regname}" +:+
   " --useT2={useT2}" +:+
   " --printcom={printcom}");
  ("FMRIVolume",
   " --path={path}" +:+
   " --fmriname={fmriname}" +:+
   " --fmritcs={fmritcs}" +:+
   " --fmriscout={fmriscout}" +:+
   " --SEPhaseNeg={sephaseneg}" +:+
   " --SEPhasePos={sephasepos}" +:+
   " --fmapmag={fmapmag}" +:+
   " --fmapphase={fmapphase}" +:+
   " --fmapgeneralelectric={fmapgeneralelectric}" +:+
   " --echospacing={echospacing}" +:+
   " --echodiff={echodiff}" +:+
   " --unwarpdir={seunwarpdir}" +:+
   " --fmrires={fmrires}" +:+
   " --dcmethod={dcmethod}" +:+
   " --gdcoeffs={gdcoeffs}" +:+
   " --topupconfig={topupconfig}" +:+
   " --printcom={printcom}" +:+
   " --biascorrection={fmribfcmethod}" +:+
   " --mctype={mctype}" +:+
   " --mcframe={mc_frame}" +:+
   " --useT2={useT2}");
  ("FMRISurface",
   " --path={path}" +:+
   " --subject={subject}" +:+
   " --fmriname={fmriname}" +:+
   " --lowresmesh={lowresmesh}" +:+
   " --fmrires={fmrires}" +:+
   " --smoothingFWHM={smoothingFWHM}" +:+
   " --grayordinatesres={grayordinatesres}" +:+
   " --regname={regname}" +:+
   " --repetitiontime={TR}" +:+
   " --subcorticalmapmethod={subcortical_map_method}");
  ("DCANBOLDProcessing",
   " --subject={subject}" +:+
   " --output-folder={path}" +:+
   " --task={fmriname}" +:+
   " --fd-threshold={fd_threshold}" +:+
   " --filter-order={filter_order}" +:+
   " --lower-bpf={lower_bpf}" +:+
   " --upper-bpf={upper_bpf}" +:+
   " --motion-filter-type={motion_filter_type}" +:+
   " --physio={physio}" +:+
   " --motion-filter-option={motion_filter_option}" +:+
   " --motion-filter-order={motion_filter_order}" +:+
   " --band-stop-min={band_stop_min}" +:+
   " --band-stop-max={band_stop_max}" +:+
   " --brain-radius={brain_radius}" +:+
   " --skip-seconds={skip_seconds}" +:+
   " --contiguous-frames={contiguous_frames}");
  ("ExecutiveSummary",
   " --bids-input={unproc}" +:+
   " --output-dir={path}" +:+
   " --participant-label={subject}" +:+
   " --session-id={session}" +:+
   " --atlas={t1templatebrain}" +:+
   " --dcan-summary={summary_dir} ");
  ("CustomClean",
   " --dir={path}" +:+
   " --json={input_json}");
  ("FileMapper",
   "{subject} {session} {path} {input_json} ")
].

(** The class attribute, or what the property of [Stage] raises. *)
Definition class_string (table : list (string * string)) (name : string) : result string :=
  match List.find (fun p => String.eqb (fst p) name) table with
  | Some p => Ok (snd p)
  | None => Raise NotImplementedError
  end.

Definition script (self : Stage.t) : result string :=
  class_string scripts (Stage.class_name self).

Definition spec (self : Stage.t) : result string :=
  class_string specs (Stage.class_name self).

(** The classes whose [args] and [cmdline] are generators; their commands
    are outside this part of the embedding. *)
Definition generator_class (name : string) : bool :=
  String.eqb name "FMRIVolume" || String.eqb name "FMRISurface"
  || String.eqb name "DCANBOLDProcessing".

(** The classes whose [args] replace [None] by ["NONE"]. *)
Definition none_to_NONE (name : string) : bool :=
  String.eqb name "PreFreeSurfer" || String.eqb name "ExecutiveSummary".

Section WithRuntime.
Context `{PyRuntime}.

(** What [format] finds for a field: the kwargs, with [None] replaced
    where the class does so. *)
Definition kw (self : Stage.t) (name : string) : option string :=
  (fun v => if none_to_NONE (Stage.class_name self) && ParameterSettings.is_none v
            then "NONE" else py_str v) <$> Stage.kwargs self !! name.

Definition args (self : Stage.t) : result string :=
  if generator_class (Stage.class_name self) then Raise Unmodelled
  else
    spec <- spec self;;
    py_format (kw self) spec.

Definition cmdline (env : gmap string string) (self : Stage.t) : result string :=
  script <- script self;;
  script <- py_format (fun name => env !! name) script;;
  args <- args self;;
  Ok (script +:+ " " +:+ args).

(** The separator of [__str__]: a backslash at the end of the line and
    an indentation. *)
Definition continuation : string :=
  " " +:+ String (ascii_of_nat 92) EmptyString +:+ nl +:+ "    ".

Definition __str__ (env : gmap string string) (self : Stage.t) : result string :=
  cmdline <- cmdline env self;;
  Ok (str_join continuation (str_words cmdline)).
End WithRuntime.

End Command.

(** ** Running a stage

    What is taken as given: the program that [subprocess.call] starts,
    which gets its arguments, its environment and the two log files and
    may change any file before it returns its exit status or fails to
    start; and the lines of text of a file. *)
Class Processes := {
  subprocess_call : list string -> gmap string string -> string -> string ->
                    gmap string node -> gmap string node * result Z;
  text_lines : content -> result (list string)
}.

Module Runner.

(** [open(p, 'w')]: the file is created, or emptied. *)
Definition open_w (p : string) : io unit :=
  fun w => match fs w !! p with
           | Some Dir => (w, Raise (IsADirectoryError p))
           | _ => (set_fs (<[p := File Data]> (fs w)) w, Ok tt)
           end.

(** [open(p).readlines()] *)
Definition readlines `{Processes} (p : string) : io (list string) :=
  fun w => match fs w !! p with
           | Some (File c) => (w, text_lines c)
           | Some Dir => (w, Raise (IsADirectoryError p))
           | None => (w, Raise (FileNotFoundError p))
           end.

Definition tab : string := String (ascii_of_nat 9) EmptyString.

Section WithProcesses.
Context `{PyRuntime} `{Processes}.

(** [_call]: the result of [subprocess.call] is an exit status, never a
    list. *)
Definition _call (env : gmap string string) (cmd out_log err_log : string)
  (num_threads : Z) : io pyval :=
  env <~ (if 1 <? num_threads then
            let env := <["OMP_NUM_THREADS" := pretty num_threads]> env in
            let env := <["ITK_GLOBAL_DEFAULT_NUMBER_OF_THREADS" := "2"]> env in
            _ <~ print ("Keep ITK_GLOBAL_DEFAULT_NUMBER_OF_THREADS at 1 instead of "
                        +:+ pretty num_threads +:+ ".");;
            ret env
          else ret env);;
  _ <~ open_w out_log;;
  _ <~ open_w err_log;;
  fun w =>
    let r := subprocess_call (str_words cmd) env out_log err_log (fs w) in
    (set_fs (fst r) w,
     match snd r with
     | Ok status => Ok (VInt status)
     | Raise e => Raise e
     end).

Definition call (cls : Stage.klass) (env : gmap string string)
  (cmd out_log err_log : string) (num_threads : Z) : io pyval :=
  if Stage.call_active cls then _call env cmd out_log err_log num_threads
  else ret (VInt 0).

(** [identify_templates] reads the attribute of the configuration, which
    the constructors of the stages have formatted. *)
Definition identify_templates (config : ParameterSettings.t) : io unit :=
  ti <~ lift (ParameterSettings.getattr config "templatesidentifier");;
  p <~ lift (match ti with
             | VStr p => Ok p
             | VInt _ | VBool _ => Raise Unmodelled
             | _ => Raise TypeError
             end);;
  f <~ os_path_isfile p;;
  if f then
    _ <~ print "Templates information follows:";;
    rmcontent <~ readlines p;;
    io_for rmcontent (fun rmline => print (tab +:+ str_strip rmline))
  else
    print "There is no available information about the templates being used.".

(** [run], for a class whose [cmdline] is not a generator function. *)
Definition run (cls : Stage.klass) (env : gmap string string)
  (config : ParameterSettings.t) (self : Stage.t) (ncpus : Z) : io unit :=
  if Command.generator_class (Stage.class_name self) then raise Unmodelled
  else
  _ <~ identify_templates config;;
  _ <~ Stage.setup cls self;;
  cmd <~ lift (Command.cmdline env self);;
  log_dir <~ Stage._get_log_dir (Stage.kwargs self) (Stage.class_name self);;
  let out_log := os_path_join log_dir (Stage.class_name self +:+ ".out") in
  let err_log := os_path_join log_dir (Stage.class_name self +:+ ".err") in
  result <~ call cls env cmd out_log err_log ncpus;;
  Stage.teardown cls self result.
End WithProcesses.

End Runner.

(** ** run.py: the end of the session body of [interface] (lines 559-581)

    The runtime settings are attributes of the classes: a class method
    called on a stage sets the attribute on the class of that stage, and a
    class without a setting of its own reads the one of [Stage]. *)

Module Interface.

Definition settings := gmap string Stage.klass.

Definition settings_of (m : settings) (stage : Stage.t) : Stage.klass :=
  default Stage.class_defaults (m !! Stage.class_name stage).

Definition class_call (f : Stage.klass -> Stage.klass) (m : settings) (stage : Stage.t)
  : settings :=
  <[Stage.class_name stage := f (settings_of m stage)]> m.

(** [try: m except AssertionError: pass] *)
Definition except_AssertionError {A} (m : io A) : io unit :=
  fun w => match m w with
           | (w', Ok _) => (w', Ok tt)
           | (w', Raise (AssertionError _)) => (w', Ok tt)
           | (w', Raise e) => (w', Raise e)
           end.

(** [if print_commands:] and [if ignore_expected_outputs:], one loop
    over the stages each. *)
Definition print_commands_mode (order : list Stage.t) (m : settings) : settings :=
  foldl (fun m stage =>
           let m := class_call Stage.deactivate_runtime_calls m stage in
           let m := class_call Stage.deactivate_check_expected_outputs m stage in
           class_call Stage.deactivate_remove_expected_outputs m stage)
        m order.

Definition ignore_mode (order : list Stage.t) (m : settings) : settings :=
  foldl (fun m stage => class_call Stage.activate_ignore_expected_outputs m stage) m order.

Section WithProcesses.
Context `{PyRuntime} `{Processes}.

Definition check_only_loop (m : settings) (order : list Stage.t) : io unit :=
  io_for order (fun stage =>
    _ <~ print ("checking outputs for " +:+ Stage.class_name stage);;
    except_AssertionError (Stage.check_expected_outputs (settings_of m stage) stage)).

Definition run_stages (m : settings) (env : gmap string string)
  (config : ParameterSettings.t) (order : list Stage.t) (ncpus : Z) : io unit :=
  io_for order (fun stage =>
    _ <~ print ("running " +:+ Stage.class_name stage);;
    s <~ lift (Command.__str__ env stage);;
    _ <~ print s;;
    Runner.run (settings_of m stage) env config stage ncpus).

(** The end of the body: the settings of the classes are what a later
    session starts from. With [check_only] the function returns. *)
Definition session_end (check_only print_commands ignore_expected_outputs : bool)
  (m : settings) (env : gmap string string) (config : ParameterSettings.t)
  (order : list Stage.t) (ncpus : Z) : io settings :=
  if check_only then
    _ <~ check_only_loop m order;;
    ret m
  else
    let m := if print_commands then print_commands_mode order m else m in
    m <~ (if ignore_expected_outputs then
            _ <~ print "ignoring checks for expected outputs.";;
            ret (ignore_mode order m)
          else ret m);;
    _ <~ run_stages m env config order ncpus;;
    ret m.
End WithProcesses.

End Interface.

(** * The vocabulary of the properties *)

Section Vocabulary.
Context `{PyRuntime} `{Helpers}.
Import ParameterSettings IntendedFor.

(** A call of a setter, with its arguments. *)
Inductive setter_call :=
| Set_anat_only (v : pyval)
| Set_atropos_mask_method (v : pyval)
| Set_bandstop_filter (lo hi ft : pyval)
| Set_hypernormalization_method (v : pyval)
| Set_mc_frame (v : pyval)
| Set_templates (a b c d e f : pyval)
| Turn_off_cropping
| Set_dcmethod (v : pyval)
| Set_atropos_range (lo hi : pyval)
| Set_max_cortical_thickness (v : pyval)
| Set_jlf_method (v : pyval)
| Set_smoothing_iterations (v : pyval)
| Set_subcortical_map_method (v : pyval)
| Set_t1_brain_mask (v : pyval)
| Set_aseg (v : pyval).

Definition run_setter (c : setter_call) : t -> t :=
  match c with
  | Set_anat_only v => set_anat_only v
  | Set_atropos_mask_method v => set_atropos_mask_method v
  | Set_bandstop_filter lo hi ft => set_bandstop_filter lo hi ft
  | Set_hypernormalization_method v => set_hypernormalization_method v
  | Set_mc_frame v => set_mc_frame v
  | Set_templates a b c d e f => set_templates a b c d e f
  | Turn_off_cropping => turn_off_cropping
  | Set_dcmethod v => set_dcmethod v
  | Set_atropos_range lo hi => set_atropos_range lo hi
  | Set_max_cortical_thickness v => set_max_cortical_thickness v
  | Set_jlf_method v => set_jlf_method v
  | Set_smoothing_iterations v => set_smoothing_iterations v
  | Set_subcortical_map_method v => set_subcortical_map_method v
  | Set_t1_brain_mask v => set_t1_brain_mask v
  | Set_aseg v => set_aseg v
  end.

(** The status file of [st] holds the record [d]. *)
Definition status_at (w : World) (st : Status.t) (d : list (string * pyval)) : Prop :=
  fs w !! Status.file_path st = Some (File (Json (VDict d))).

(** An assignment rewrites the file and nothing else. *)
Definition wrote (w w' : World) (st : Status.t) (d' : list (string * pyval)) : Prop :=
  status_at w' st d' /\
  stdout w' = stdout w /\
  built w' = built w /\
  forall p, p <> Status.file_path st -> fs w' !! p = fs w !! p.

(** Which of the paths exist. *)
Definition existing (w : World) (outputs : list string) : list bool :=
  map (fun p => bool_decide (is_Some (fs w !! p))) outputs.

(** The verdict of [check_expected_outputs]. *)
Definition outputs_ok (cls : Stage.klass) (w : World) (outputs : list string) : bool :=
  negb (Stage.check_expected_outputs_active cls)
  || forallb id (existing w outputs)
  || Stage.ignore_expected_outputs cls.

(** What a teardown can end in: the stage raises its error and the record
    says failed, or it returns and the record says succeeded. *)
Inductive teardown_end (self : Stage.t) (w' : World) : result unit -> Prop :=
| Teardown_passed d :
    status_at w' (Stage.status self) d ->
    getitem_key (VDict d) "node_status" = Ok (VInt Status.states.succeeded) ->
    teardown_end self w' (Ok tt)
| Teardown_failed d :
    status_at w' (Stage.status self) d ->
    getitem_key (VDict d) "node_status" = Ok (VInt Status.states.failed) ->
    teardown_end self w'
      (Raise (Exception ("error caught during stage: " +:+ Stage.class_name self))).

(** No sidecar of [l] passes the test. *)
Definition none_intended (test : pyval -> result bool) (l : list pyval) : Prop :=
  Forall (fun sefm => test sefm = Ok false) l.

(** The metadata list of a direction. *)
Definition sidecars (config : ParameterSettings.t) (direction : string)
  (l : list pyval) : Prop :=
  exists v, get_bids config [K "fmap_metadata"; K direction] = Ok v /\ py_iter v = Ok l.

Definition warned (w : World) (direction : string) : World :=
  mkWorld (fs w) (stdout w ++ [warning direction]) (built w).

Definition is_brace (a : ascii) : bool := Ascii.eqb a "{" || Ascii.eqb a "}".













(** The paths and flags that [__init__] sets last leave the fields of the
    distortion correction as they are. *)
Definition dc_fields : list string :=
  ["dcmethod"; "fmapmag"; "fmapphase"; "fmapgeneralelectric"; "echodiff"; "gdcoeffs";
   "seunwarpdir"; "echospacing"].

(** The world [w'] is [w] but for what was printed. *)
Definition only_printed (w w' : World) : Prop :=
  fs w' = fs w /\ built w' = built w.

Definition T2w_error : pyerr :=
  Exception "The infant pipeline is not able to run without T2w data".

Definition T2w_message : string :=
  nl +:+ "ERROR: The infant pipeline is not able to run without T2w data." +:+ nl.

(** The record of [st] cannot be read as a dict. *)
Definition unreadable (w : World) (st : Status.t) : Prop :=
  forall d, fs w !! Status.file_path st <> Some (File (Json (VDict d))).

(** The expected outputs that do not exist, and those that are regular
    files. *)
Definition missing (w : World) (outputs : list string) : list string :=
  List.filter (fun p => negb (bool_decide (is_Some (fs w !! p)))) outputs.

Definition present_files (w : World) (outputs : list string) : list string :=
  List.filter (fun p => is_file (fs w !! p)) outputs.

(** The exit status, or every exit status of the list, is 0. *)
Definition exit_ok (result : pyval) : bool :=
  Stage.all_zero result || py_eq_zero result.

Definition not_created : string :=
  "stage terminated, some required files were not created.".

(** The loop that removes the files of [rm_list]. *)
Definition remove_loop (rm_list : list string) : io unit :=
  io_for rm_list (fun f => _ <~ print ("removing " +:+ f);; os_remove f).

(** A path component: a string without a slash. *)
Definition plain (s : string) : bool :=
  negb (has_char (fun a => Ascii.eqb a "/") s).

(** [c * k] *)
Fixpoint str_repeat (c : ascii) (k : nat) : string :=
  match k with
  | O => EmptyString
  | S k' => String c (str_repeat c k')
  end.

(** [self'] is [self] but for the attributes of [names] on the instance. *)
Definition same_but (names : list string) (self self' : t) : Prop :=
  klass self' = klass self /\
  forall name, name ∉ names -> inst self' !! name = inst self !! name.

(** The attributes that the parameters of the user are stored in: the
    method of distortion correction, and the others. *)
Definition other_settable : list string :=
  ["unproc"; "summary_dir"; "aseg"; "atropos_mask_method"; "atropos_label_min";
   "atropos_label_max"; "motion_filter_type"; "band_stop_min"; "band_stop_max";
   "norm_method"; "jlf_method"; "max_cortical_thickness";
   "smoothing_iterations"; "subcortical_map_method"; "t1_brain_mask";
   "t1wstudytemplate"; "t1wstudytemplatebrain"; "t2wstudytemplate";
   "t2wstudytemplatebrain"; "multitemplatedir"; "multimaskingdir"; "crop"; "mc_frame"].

Definition user_settable : list string := "dcmethod" :: other_settable.

(** The distortion correction fields other than the method. *)
Definition dc_inferred : list string :=
  ["fmapmag"; "fmapphase"; "fmapgeneralelectric"; "echodiff"; "gdcoeffs";
   "seunwarpdir"; "echospacing"].

(** The classes of the stages of a session, in the order of the pipeline. *)
Definition stage_names (a : Run.Args) (run_anat run_func : bool) : list string :=
  ((if run_anat then ["PreFreeSurfer"; "FreeSurfer"; "PostFreeSurfer"] else []) ++
   (if run_func then ["FMRIVolume"; "FMRISurface"; "DCANBOLDProcessing"] else []) ++
   ["ExecutiveSummary"] ++
   (if py_truthy (Run.cleaning_json a) then ["CustomClean"] else []) ++
   (if py_truthy (Run.file_mapper_json a) then ["FileMapper"] else []))%list.

(** An action that leaves the list of constructed stages as it is; a
    constructor of a stage of class [n]. *)
Definition keeps_built {A} (m : io A) : Prop :=
  forall w, built (fst (m w)) = built w.

Definition quiet_io {A} (m : io A) : Prop :=
  forall w, only_printed w (fst (m w)).

Definition constructs (n : string) (ctor : t -> io (t * Stage.t)) : Prop :=
  forall c w w' c' s, ctor c w = (w', Ok (c', s)) ->
    Stage.class_name s = n /\ built w' = (built w ++ [n])%list.

(** The classes whose command is a single string. *)
Definition single_command : list string :=
  ["PreFreeSurfer"; "FreeSurfer"; "PostFreeSurfer"; "ExecutiveSummary"; "CustomClean";
   "FileMapper"].

(** The environment that [_call] gives to the program. *)
Definition threads_env (env : gmap string string) (num_threads : Z) : gmap string string :=
  if 1 <? num_threads then
    <["ITK_GLOBAL_DEFAULT_NUMBER_OF_THREADS" := "2"]>
      (<["OMP_NUM_THREADS" := pretty num_threads]> env)
  else env.

(** The files, with the two logs opened for writing. *)
Definition with_logs (f : gmap string node) (out_log err_log : string) : gmap string node :=
  <[err_log := File Data]> (<[out_log := File Data]> f).

(** The log directory of a stage and its two logs. *)
Definition log_dir_of (logs : string) (self : Stage.t) : string :=
  os_path_join logs (Stage.class_name self).

Definition out_log_of (logs : string) (self : Stage.t) : string :=
  os_path_join (log_dir_of logs self) (Stage.class_name self +:+ ".out").

Definition err_log_of (logs : string) (self : Stage.t) : string :=
  os_path_join (log_dir_of logs self) (Stage.class_name self +:+ ".err").

(** The files after the removal of the expected outputs that were
    regular files. *)
Definition cleared (w : World) (outputs : list string) (p : string) : option node :=
  if bool_decide (p ∈ outputs) && is_file (fs w !! p) then None else fs w !! p.

(** A world with the files [f] and nothing printed. *)
Definition world_of (f : gmap string node) : World := mkWorld f [] [].

(** A template of [format], cut into its text and its fields. *)
Inductive part :=
| Lit (s : string)
| Field (name : string).

Fixpoint template (ps : list part) : string :=
  match ps with
  | [] => EmptyString
  | Lit s :: r => s +:+ template r
  | Field n :: r => "{" +:+ n +:+ "}" +:+ template r
  end.

Fixpoint field_names (ps : list part) : list string :=
  match ps with
  | [] => []
  | Lit _ :: r => field_names r
  | Field n :: r => n :: field_names r
  end.

(** The text has no brace; the name of a field is a plain keyword. *)
Definition name_ok (n : string) : bool :=
  negb (has_char field_special n) && negb (has_char is_brace n) && negb (all_digits n).

Definition part_ok (p : part) : bool :=
  match p with
  | Lit s => negb (has_char is_brace s)
  | Field n => name_ok n
  end.

(** The template with the value of each field in its place; the first
    field without a value is a [KeyError]. *)
Fixpoint fill (lookup : string -> option string) (ps : list part) : result string :=
  match ps with
  | [] => Ok EmptyString
  | Lit s :: r => rest <- fill lookup r;; Ok (s +:+ rest)
  | Field n :: r =>
      v <- match lookup n with
           | Some v => Ok v
           | None => Raise (KeyError n)
           end;;
      rest <- fill lookup r;;
      Ok (v +:+ rest)
  end.

(** What the check of a stage prints in check-only mode. *)
Definition check_report (m : Interface.settings) (w : World) (stage : Stage.t)
  : list string :=
  ("checking outputs for " +:+ Stage.class_name stage) ::
  match Stage.get_expected_outputs stage with
  | Ok outputs =>
      if Stage.check_expected_outputs_active (Interface.settings_of m stage) then
        match missing w outputs with
        | [] => []
        | dne_list =>
            ("missing expected outputs from " +:+ Stage.class_name stage)
              :: map (fun f => "file not found: " +:+ f) dne_list
        end
      else []
  | Raise _ => []
  end.

(** The expected outputs of a stage can be listed, or are not asked for. *)
Definition checkable (m : Interface.settings) (stage : Stage.t) : bool :=
  negb (Stage.check_expected_outputs_active (Interface.settings_of m stage))
  || is_ok (Stage.get_expected_outputs stage).

End Vocabulary.

(** * Sample inputs *)

Definition ABCD : list string := ["A"; "B"; "C"; "D"].

(** A configuration with an aseg of the user, and one as [__init__]
    leaves the mask method. *)
Definition with_user_aseg : ParameterSettings.t :=
  ParameterSettings.set_aseg (VStr "/data/aseg.nii.gz")
    (ParameterSettings.mk ParameterSettings.class_attrs ∅).

Definition with_refine : ParameterSettings.t :=
  ParameterSettings.setattr (ParameterSettings.mk ParameterSettings.class_attrs ∅)
    "atropos_mask_method" (VStr "REFINE").

(** A runtime and a helpers module for the closed examples. The two
    renderings of numbers are those of the numbers of the samples: an
    echo spacing of 0.00051 and an echo time difference of 2.46 ms. *)
#[local] Instance sample_runtime : PyRuntime := {|
  fmt_12f := fun _ => "0.000510000000";
  fmt_g := fun _ => "2.46";
  float_repr := fun _ => "0.0";
  str_repr := fun s => "'" +:+ s +:+ "'";
  os_path_abspath := fun s => s;
  is_literal := fun v s => is_str s v
|}.

#[local] Instance sample_helpers : Helpers := {|
  get_realdwelltime := fun _ => Ok (VStr "0.000002");
  get_readoutdir := fun _ => Ok (VStr "z");
  ijk_to_xyz := fun v => Ok v;
  get_relpath := fun v => Ok v;
  validate_config := fun _ _ => Ok tt
|}.

Definition sample_status : Status.t :=
  Status.mk "/out/logs/PreFreeSurfer/status.json".

Definition sample_output : string := "/out/files/T1w/T1w_acpc.nii.gz".

(** A stage with one expected output, and a world where that file is left
    from an earlier run and the status record is new. *)
Definition sample_stage : Stage.t :=
  Stage.mk "PreFreeSurfer" {["path" := VStr "/out/files"]} sample_status
    (VList [VStr "{path}/T1w/T1w_acpc.nii.gz"]).

Definition sample_world : World :=
  mkWorld (<[sample_output := File Data]>
             {[Status.file_path sample_status := File (Json (VDict Status.defaults))]})
          [] [].

(** A stage whose entry in pipeline_expected_outputs.json is the empty
    list, and one whose entry is null. *)
Definition stage_without_outputs : Stage.t :=
  Stage.mk "ExecutiveSummary" {["path" := VStr "/out/files"]} sample_status (VList []).

Definition stage_with_null_outputs : Stage.t :=
  Stage.mk "ExecutiveSummary" {["path" := VStr "/out/files"]} sample_status VNone.

(** Sample sessions with spin echo field maps. The sidecars name a
    functional run, never the anatomical image. *)
Definition sefm_for (targets : list string) : pyval :=
  VDict [("IntendedFor", VList (map VStr targets))].

Definition sefm_func : pyval := sefm_for ["ses-1/func/sub-01_ses-1_task-rest_run-01_bold.nii.gz"].

Definition sefm_anat : pyval := sefm_for ["ses-1/anat/sub-01_ses-1_T1w.nii.gz"].

Definition session_with_fmaps (pos neg pos_meta neg_meta : list pyval) : ParameterSettings.t :=
  ParameterSettings.mk ParameterSettings.class_attrs
    {["bids_data" :=
        VDict [("fmap", VDict [("positive", VList pos); ("negative", VList neg)]);
               ("fmap_metadata",
                VDict [("positive", VList pos_meta); ("negative", VList neg_meta)])]]}.

Definition AP1 : pyval := VStr "fmap/sub-01_ses-1_dir-AP_run-01_epi.nii.gz".
Definition AP2 : pyval := VStr "fmap/sub-01_ses-1_dir-AP_run-02_epi.nii.gz".
Definition PA1 : pyval := VStr "fmap/sub-01_ses-1_dir-PA_run-01_epi.nii.gz".
Definition PA2 : pyval := VStr "fmap/sub-01_ses-1_dir-PA_run-02_epi.nii.gz".

(** One pair, not intended for the anatomical image. *)
Definition one_pair : ParameterSettings.t :=
  session_with_fmaps [AP1] [PA1] [sefm_func] [sefm_func].

(** Two pairs, the second one intended for the anatomical image. *)
Definition two_pairs_second_intended : ParameterSettings.t :=
  session_with_fmaps [AP1; AP2] [PA1; PA2] [sefm_func; sefm_anat] [sefm_func; sefm_anat].

(** Two pairs, none intended for the anatomical image. *)
Definition two_pairs : ParameterSettings.t :=
  session_with_fmaps [AP1; AP2] [PA1; PA2] [sefm_func; sefm_func] [sefm_func; sefm_func].

(** Two positive field maps; no negative sidecar, with and without a
    negative file. *)
Definition no_negative_sidecar : ParameterSettings.t :=
  session_with_fmaps [AP1; AP2] [PA1] [sefm_func; sefm_func] [].

Definition no_negative : ParameterSettings.t :=
  session_with_fmaps [AP1; AP2] [] [sefm_func; sefm_func] [].

Definition no_positive : ParameterSettings.t :=
  session_with_fmaps [] [] [] [].

Definition quiet : World := mkWorld ∅ [] [].

Definition types_of (l : list string) : pyval := VList (map VStr l).

(** A session with anatomical images, one functional run and one pair of
    spin echo field maps. *)
Definition session_with (types : list string) (fmap fmap_metadata : pyval) : pyval :=
  VDict [("subject", VStr "01");
         ("session", VStr "1");
         ("types", types_of types);
         ("t1w", VList [VStr "/bids/sub-01/ses-1/anat/sub-01_ses-1_T1w.nii.gz"]);
         ("t1w_metadata", VDict []);
         ("t2w", VList [VStr "/bids/sub-01/ses-1/anat/sub-01_ses-1_T2w.nii.gz"]);
         ("t2w_metadata", VDict []);
         ("func", VList [VStr "/bids/sub-01/ses-1/func/sub-01_ses-1_task-rest_run-01_bold.nii.gz"]);
         ("func_metadata", VList [VDict [("PhaseEncodingDirection", VStr "j")]]);
         ("fmap", fmap);
         ("fmap_metadata", fmap_metadata)].

Definition spin_echo_fmap : pyval :=
  VDict [("positive", VList [AP1]); ("negative", VList [PA1])].

Definition spin_echo_metadata : pyval :=
  VDict [("positive", VList [VDict [("EffectiveEchoSpacing", VFloat 0.00051%float);
                                    ("IntendedFor", VList [])]]);
         ("negative", VList [VDict [("EffectiveEchoSpacing", VFloat 0.00051%float);
                                    ("IntendedFor", VList [])]])].

Definition gradient_fmap (keys : list string) : pyval :=
  VDict (map (fun k => (k, VStr ("fmap/sub-01_ses-1_" +:+ k +:+ ".nii.gz"))) keys).

Definition gradient_metadata : pyval :=
  VDict [("magnitude1", VDict [("EchoTime", VFloat 0.00492%float)]);
         ("magnitude2", VDict [("EchoTime", VFloat 0.00738%float)]);
         ("phasediff", VDict [])].

Definition topup_session : pyval :=
  session_with ["T1w"; "T2w"; "bold"; "epi"] spin_echo_fmap spin_echo_metadata.


Definition fieldmap_session : pyval :=
  session_with ["T1w"; "T2w"; "bold"; "magnitude1"; "magnitude2"; "phasediff"]
    (gradient_fmap ["magnitude1"; "magnitude2"; "phasediff"]) gradient_metadata.

Definition plain_session : pyval :=
  session_with ["T1w"; "T2w"; "bold"] (VDict []) (VDict []).

Definition no_T2w_session : pyval :=
  session_with ["T1w"; "bold"] (VDict []) (VDict []).

Definition constructed (session : pyval) : ParameterSettings.t :=
  match snd (ParameterSettings.__init__ session "/out/sub-01/ses-1" quiet) with
  | Ok self => self
  | Raise _ => ParameterSettings.mk ParameterSettings.class_attrs ∅
  end.

Definition env_a : gmap string string :=
  {["DCANBOLDPROCVER" := "DCANBOLDProc_v4.0.0";
    "HCPPIPEDIR_Templates" := "/opt/pipeline/global/templates";
    "HCPPIPEDIR_Config" := "/opt/pipeline/global/config";
    "FREESURFER_HOME" := "/opt/freesurfer"]}.




Definition fresh : ParameterSettings.t :=
  ParameterSettings.mk ParameterSettings.class_attrs ∅.

(** The catalog of expected outputs, installed next to pipelines.py, and
    the arguments the command line gives to [interface]. *)
Definition expected_outputs_catalog : pyval :=
  VDict (map (fun name => (name, VList [VStr "{path}/done"]))
           ["PreFreeSurfer"; "FreeSurfer"; "PostFreeSurfer"; "FMRIVolume"; "FMRISurface";
            "DCANBOLDProcessing"; "ExecutiveSummary"]).

Definition installed : World :=
  mkWorld {["/opt/pipeline/app/pipeline_expected_outputs.json" :=
              File (Json expected_outputs_catalog)]} [] [].

Definition command_line_args : Run.Args :=
  Run.mk_args (VStr "DEFAULT") (VStr "REFINE") (VList [VInt 4; VInt 5]) VNone VNone
    (VStr "ADULT_GM_IP") (VStr "T1W") (VInt 5) (VInt 17) VNone VNone (VBool false)
    (VInt 10) (VStr "ROI_MAP") VNone (VList [VNone; VNone]) (VList [VNone; VNone])
    (VBool false) VNone VNone (VStr "FreeSurfer:FMRIVolume").

(** An FMRIVolume stage at work on the functional run of the samples. *)
Definition volume_stage : Stage.t :=
  Stage.mk "FMRIVolume"
    {["fmritcs" := VStr "ses-1/func/sub-01_ses-1_task-rest_run-01_bold.nii.gz"]}
    (Status.mk "/out/logs/FMRIVolume/status.json") (VList []).

(** A stage whose catalog entry lists the same output twice. *)
Definition stage_with_repeated_output : Stage.t :=
  Stage.mk "PreFreeSurfer" {["path" := VStr "/out/files"]} sample_status
    (VList [VStr "{path}/T1w/T1w_acpc.nii.gz"; VStr "{path}/T1w/T1w_acpc.nii.gz"]).

(** The arguments of the command line with a method of distortion
    correction given by the user. *)
Definition fieldmap_by_user : Run.Args :=
  Run.mk_args (VStr "DEFAULT") VNone VNone VNone (VStr "FIELDMAP") VNone VNone
    (VInt 5) (VInt 17) VNone VNone (VBool false) (VInt 10) VNone VNone
    (VList [VNone; VNone]) (VList [VNone; VNone]) (VBool false) VNone VNone VNone.

(** A program that writes the expected output of the sample stage and
    exits with status 0, and a README of one line. *)
#[local] Instance sample_processes : Processes := {
  subprocess_call := fun _ _ _ _ f => (<[sample_output := File Data]> f, Ok 0);
  text_lines := fun _ => Ok ["DCAN infant templates"]
}.

(** A FileMapper stage with the kwargs of its command, its log directory
    and its status record; the output of an earlier run is there. *)
Definition mapper_status : Status.t := Status.mk "/out/logs/FileMapper/status.json".

Definition mapper_stage : Stage.t :=
  Stage.mk "FileMapper"
    {["subject" := VStr "01"; "session" := VStr "1"; "path" := VStr "/out/files";
      "logs" := VStr "/out/logs"; "input_json" := VStr "/in/map.json"]}
    mapper_status (VList [VStr "{path}/T1w/T1w_acpc.nii.gz"]).

Definition mapper_env : gmap string string := {["FILEMAPPERDIR" := "/opt/filemapper"]}.

Definition mapper_world : World :=
  mkWorld (<[sample_output := File Data]>
             (<["/out/logs/FileMapper" := Dir]>
                {[Status.file_path mapper_status := File (Json (VDict Status.defaults))]}))
          [] [].

(** The settings of the classes when commands are only printed. *)
Definition print_commands_settings : Stage.klass :=
  Stage.deactivate_remove_expected_outputs
    (Stage.deactivate_check_expected_outputs
       (Stage.deactivate_runtime_calls Stage.class_defaults)).

(** The spec of PreFreeSurfer, cut into its text and its fields. *)
Definition pre_free_surfer_parts : list part :=
  [Lit " --path="; Field "path";
   Lit " --t1="; Field "t1";
   Lit " --t2="; Field "t2";
   Lit " --t1template="; Field "t1template";
   Lit " --t1templatebrain="; Field "t1templatebrain";
   Lit " --t1template2mm="; Field "t1template2mm";
   Lit " --t2template="; Field "t2template";
   Lit " --t2templatebrain="; Field "t2templatebrain";
   Lit " --t2template2mm="; Field "t2template2mm";
   Lit " --templatemask="; Field "templatemask";
   Lit " --template2mmmask="; Field "template2mmmask";
   Lit " --brainsize="; Field "brainsize";
   Lit " --fnirtconfig="; Field "fnirtconfig";
   Lit " --fmapmag="; Field "fmapmag";
   Lit " --fmapphase="; Field "fmapphase";
   Lit " --fmapgeneralelectric="; Field "fmapgeneralelectric";
   Lit " --echodiff="; Field "echodiff";
   Lit " --SEPhaseNeg="; Field "sephaseneg";
   Lit " --SEPhasePos="; Field "sephasepos";
   Lit " --echospacing="; Field "echospacing";
   Lit " --seunwarpdir="; Field "seunwarpdir";
   Lit " --t1samplespacing="; Field "t1samplespacing";
   Lit " --t2samplespacing="; Field "t2samplespacing";
   Lit " --unwarpdir="; Field "unwarpdir";
   Lit " --gdcoeffs="; Field "gdcoeffs";
   Lit " --avgrdcmethod="; Field "dcmethod";
   Lit " --topupconfig="; Field "topupconfig";
   Lit " --useT2="; Field "useT2";
   Lit " --t1n="; Field "normalization";
   Lit " --printcom="; Field "printcom";
   Lit " --multitemplatedir="; Field "multitemplatedir";
   Lit " --multimaskingdir="; Field "multimaskingdir";
   Lit " --t1studytemplate="; Field "t1wstudytemplate";
   Lit " --t1studytemplatebrain="; Field "t1wstudytemplatebrain";
   Lit " --t2studytemplate="; Field "t2wstudytemplate";
   Lit " --t2studytemplatebrain="; Field "t2wstudytemplatebrain";
   Lit " --atroposmaskmethod="; Field "atropos_mask_method";
   Lit " --atroposlabelmin="; Field "atropos_label_min";
   Lit " --atroposlabelmax="; Field "atropos_label_max";
   Lit " --jlfmethod="; Field "jlf_method";
   Lit " --t1brainmask="; Field "t1_brain_mask";
   Lit " --crop="; Field "crop"].

(** A PreFreeSurfer stage for which no range of Atropos labels was
    given: its kwargs hold every field of the spec up to the label
    range. *)
Definition stage_without_label_range : Stage.t :=
  Stage.mk "PreFreeSurfer"
    (list_to_map
       (map (fun name => (name, VStr "x"))
          ["path"; "t1"; "t2"; "t1template";
           "t1templatebrain"; "t1template2mm"; "t2template"; "t2templatebrain";
           "t2template2mm"; "templatemask"; "template2mmmask"; "brainsize";
           "fnirtconfig"; "fmapmag"; "fmapphase"; "fmapgeneralelectric";
           "echodiff"; "sephaseneg"; "sephasepos"; "echospacing";
           "seunwarpdir"; "t1samplespacing"; "t2samplespacing"; "unwarpdir";
           "gdcoeffs"; "dcmethod"; "topupconfig"; "useT2";
           "normalization"; "printcom"; "multitemplatedir"; "multimaskingdir";
           "t1wstudytemplate"; "t1wstudytemplatebrain"; "t2wstudytemplate"; "t2wstudytemplatebrain";
           "atropos_mask_method"]))
    sample_status (VList []).

(** * Properties *)

(** ** Stage-range slicing *)

Section Slicing.

(** The selectors with a named stop, or without a colon, give the lists
    of the specification. *)
Lemma slice_order_named_ranges :
  Run.slice_order id ABCD (VStr "B:C") = Ok ["B"; "C"] /\
  Run.slice_order id ABCD (VStr ":C") = Ok ["A"; "B"; "C"] /\
  Run.slice_order id ABCD (VStr "B") = Ok ["B"; "C"; "D"].
Proof. repeat split; reflexivity. Qed.

(** A name that is not in the list fails the assertion, at either end. *)
Lemma slice_order_unknown_start {A} (name : A -> string) order s :
  str_find ":" s = None ->
  s <> "" ->
  Run.name_in s (map name order) = false ->
  Run.slice_order name order (VStr s) = Raise (AssertionError (Run.unknown_stage s)).
Proof.
  intros Hc Hs Hn. unfold Run.slice_order.
  assert (Hl : (String.length s =? 0)%nat = false) by (destruct s; [congruence|reflexivity]).
  unfold py_truthy. rewrite Hl. cbn [rbind negb]. rewrite Hc, Hl.
  cbn [negb]. rewrite Hn. reflexivity.
Qed.

Lemma slice_order_unknown_examples :
  Run.slice_order id ABCD (VStr "E") = Raise (AssertionError (Run.unknown_stage "E")) /\
  Run.slice_order id ABCD (VStr "B:E") = Raise (AssertionError (Run.unknown_stage "E")) /\
  Run.slice_order id ABCD (VStr "E:C") = Raise (AssertionError (Run.unknown_stage "E")).
Proof. repeat split; reflexivity. Qed.

(** Without a selector the list is the whole list. *)
Lemma slice_order_no_selector {A} (name : A -> string) order :
  Run.slice_order name order VNone = Ok order /\
  Run.slice_order name order (VStr "") = Ok order.
Proof. split; reflexivity. Qed.

(** C2. A colon with an empty stop: the text after the colon is the empty
    string, which is not [None], so the stop is looked up among the names
    and the assertion fails; the selector does not give [B; C; D]. The
    same holds whatever the names are, as no class has an empty name. *)
Theorem slice_order_empty_stop_fails :
  Run.slice_order id ABCD (VStr "B:") = Raise (AssertionError (Run.unknown_stage "")) /\
  Run.slice_order id ABCD (VStr "B:") <> Ok ["B"; "C"; "D"].
Proof. split; [reflexivity | discriminate]. Qed.

Lemma slice_order_empty_stop_general {A} (name : A -> string) order start :
  str_find ":" start = None ->
  Run.name_in "" (map name order) = false ->
  (start = "" \/ Run.name_in start (map name order) = true) ->
  Run.slice_order name order (VStr (start +:+ ":")) =
    Raise (AssertionError (Run.unknown_stage "")).
Proof.
  intros Hc He Hs. unfold Run.slice_order.
  assert (Hf : str_find ":" (start +:+ ":") = Some (String.length start)).
  { clear Hs. induction start as [|a s IH]; [reflexivity|].
    simpl in *. destruct (Ascii.eqb a ":"); [discriminate|].
    destruct (str_find ":" s); [discriminate|]. rewrite IH; auto. }
  assert (Ht : str_take (String.length start) (start +:+ ":") = start).
  { clear. induction start as [|a s IH]; [reflexivity|]. simpl. by rewrite IH. }
  assert (Hd : str_drop (S (String.length start)) (start +:+ ":") = "").
  { clear. induction start as [|a s IH]; [reflexivity|]. simpl in *. by rewrite IH. }
  replace (py_truthy (VStr (start +:+ ":"))) with true.
  2:{ clear. destruct start; reflexivity. }
  cbn [rbind]. rewrite Hf, Ht, Hd.
  destruct Hs as [-> | Hs].
  - simpl. rewrite He. reflexivity.
  - destruct (negb (String.length start =? 0)%nat); rewrite ?Hs; simpl;
      rewrite He; reflexivity.
Qed.

End Slicing.

(** ** The setters of the configuration *)

Section Setters.
Import ParameterSettings.

Lemma getattr_setattr self k v : getattr (setattr self k v) k = Ok v.
Proof. unfold getattr, setattr. simpl. by rewrite lookup_insert_eq. Qed.

Lemma getattr_setattr_ne self k k' v :
  k <> k' -> getattr (setattr self k v) k' = getattr self k'.
Proof. intros. unfold getattr, setattr. simpl. by rewrite lookup_insert_ne. Qed.

Ltac same_instance :=
  unfold setattr; simpl; f_equal; apply map_eq; intros i;
  rewrite ?lookup_insert; repeat case_decide; congruence.

Lemma setattr_twice self k v : setattr (setattr self k v) k v = setattr self k v.
Proof. same_instance. Qed.

Lemma run_setter_idempotent c self :
  run_setter c (run_setter c self) = run_setter c self.
Proof.
  destruct self as [kl ins].
  destruct c; simpl;
    unfold set_anat_only, set_atropos_mask_method, set_bandstop_filter,
      set_hypernormalization_method, set_mc_frame, set_templates,
      turn_off_cropping, set_dcmethod, set_atropos_range, __setitem__,
      set_max_cortical_thickness, set_jlf_method, set_smoothing_iterations,
      set_subcortical_map_method, set_t1_brain_mask, set_aseg;
    repeat match goal with
           | |- context [py_truthy ?v] => destruct (py_truthy v)
           | |- context [is_none ?v] => destruct (is_none v)
           end; simpl; try reflexivity; same_instance.
Qed.

(** C7, as stated, fails: [set_aseg] with an empty value puts the default
    back in place of the value the field had, and
    [set_atropos_mask_method] stores the empty value it is given. *)
Lemma setter_empty_value_changes_field :
  py_truthy (VStr "") = false /\
  getattr with_user_aseg "aseg" = Ok (VStr "/data/aseg.nii.gz") /\
  getattr (set_aseg (VStr "") with_user_aseg) "aseg" = Ok (VStr "DEFAULT") /\
  py_truthy VNone = false /\
  getattr with_refine "atropos_mask_method" = Ok (VStr "REFINE") /\
  getattr (set_atropos_mask_method VNone with_refine) "atropos_mask_method" = Ok VNone.
Proof.
  unfold with_user_aseg, with_refine, set_aseg, set_atropos_mask_method. simpl.
  rewrite !getattr_setattr. repeat split; reflexivity.
Qed.

(** C7, amended. Every setter is idempotent. On an empty value the
    guarded setters leave the configuration as it is, the setters with a
    default store that default, and the others store what they are given. *)
Theorem setters_idempotent_and_empty_value :
  (forall c self, run_setter c (run_setter c self) = run_setter c self) /\
  (forall v self, py_truthy v = false ->
     set_dcmethod v self = self /\
     set_t1_brain_mask v self = self /\
     set_anat_only v self = self /\
     (forall b d, set_templates v b v d v v self = self)) /\
  (forall v self, py_truthy v = false ->
     set_aseg v self = setattr self "aseg" (VStr "DEFAULT") /\
     set_jlf_method v self = setattr self "jlf_method" (VStr "T1W") /\
     set_max_cortical_thickness v self = setattr self "max_cortical_thickness" (VInt 5) /\
     set_smoothing_iterations v self = setattr self "smoothing_iterations" (VInt 10) /\
     set_subcortical_map_method v self =
       setattr self "subcortical_map_method" (VStr "ROI_MAP")) /\
  (forall v self,
     getattr (set_atropos_mask_method v self) "atropos_mask_method" = Ok v /\
     getattr (set_hypernormalization_method v self) "norm_method" = Ok v /\
     getattr (set_mc_frame v self) "mc_frame" = Ok v /\
     (forall hi, getattr (set_atropos_range v hi self) "atropos_label_min" = Ok v) /\
     (forall lo, getattr (set_atropos_range lo v self) "atropos_label_max" = Ok v) /\
     (forall hi ft, getattr (set_bandstop_filter v hi ft self) "band_stop_min" = Ok v) /\
     (forall lo ft, getattr (set_bandstop_filter lo v ft self) "band_stop_max" = Ok v)).
Proof.
  split; [exact run_setter_idempotent|].
  split; [|split].
  - intros v self Hv.
    unfold set_dcmethod, set_t1_brain_mask, set_anat_only, set_templates.
    rewrite Hv. auto.
  - intros v self Hv.
    unfold set_aseg, set_jlf_method, set_max_cortical_thickness,
      set_smoothing_iterations, set_subcortical_map_method.
    rewrite Hv. simpl. auto.
  - intros v self.
    unfold set_atropos_mask_method, set_hypernormalization_method, set_mc_frame,
      set_atropos_range, set_bandstop_filter, __setitem__.
    repeat split; intros;
      repeat first [ apply getattr_setattr
                   | rewrite getattr_setattr_ne by discriminate ].
Qed.

Lemma setters_idempotent_and_empty_value_witness :
  py_truthy (VStr "") = false /\
  set_dcmethod (VStr "") with_user_aseg = with_user_aseg /\
  set_aseg (VStr "") with_user_aseg = setattr with_user_aseg "aseg" (VStr "DEFAULT").
Proof.
  destruct setters_idempotent_and_empty_value as (_ & Hg & Hd & _).
  split; [reflexivity|]. split.
  - apply (Hg (VStr "") with_user_aseg). reflexivity.
  - apply (Hd (VStr "") with_user_aseg). reflexivity.
Defined.

End Setters.

(** ** The status record and the teardown of a stage *)

Section StatusFacts.

Lemma dict_get_set_eq d k v : dict_get (Status.dict_set d k v) k = Some v.
Proof.
  induction d as [|[k' v'] d IH]; simpl.
  - by rewrite String.eqb_refl.
  - destruct (String.eqb k' k) eqn:E; simpl.
    + by rewrite String.eqb_refl.
    + by rewrite E.
Qed.

Lemma dict_get_set_ne d k k' v :
  k <> k' -> dict_get (Status.dict_set d k v) k' = dict_get d k'.
Proof.
  intros Hne. induction d as [|[k0 v0] d IH]; simpl.
  - destruct (String.eqb k k') eqn:E; [apply String.eqb_eq in E; congruence | done].
  - destruct (String.eqb k0 k) eqn:E; simpl.
    + apply String.eqb_eq in E. subst k0.
      destruct (String.eqb k k') eqn:E'; [apply String.eqb_eq in E'; congruence | done].
    + destruct (String.eqb k0 k'); [done | apply IH].
Qed.

Lemma getitem_at w st d k :
  status_at w st d ->
  Status.__getitem__ st k w = (w, getitem_key (VDict d) k).
Proof.
  unfold status_at, Status.__getitem__, io_bind, json_load, lift. by intros ->.
Qed.

Lemma setitem_at w st d k v :
  status_at w st d ->
  exists w', Status.__setitem__ st k v w = (w', Ok tt) /\
             wrote w w' st (Status.dict_set d k v).
Proof.
  unfold status_at, Status.__setitem__, io_bind, json_load, Status._write_dict, json_dump.
  intros Hd. rewrite Hd. simpl. rewrite Hd. eexists. split; [reflexivity|].
  unfold wrote, status_at, set_fs. simpl. rewrite lookup_insert_eq.
  repeat split; auto. intros p Hp. by rewrite lookup_insert_ne.
Qed.

Lemma wrote_trans w1 w2 w3 st d2 d3 :
  wrote w1 w2 st d2 -> wrote w2 w3 st d3 -> wrote w1 w3 st d3.
Proof.
  intros (_ & Ho & Hb & Hf) (Hs & Ho' & Hb' & Hf').
  repeat split; auto; try congruence.
  intros p Hp. rewrite Hf', Hf; auto.
Qed.

Lemma update_success_at w st d :
  status_at w st d ->
  exists w', Status.update_success st w = (w', Ok tt) /\
    wrote w w' st
      (Status.dict_set (Status.dict_set d "node_status" (VInt Status.states.succeeded))
         "comment" (VStr "")).
Proof.
  intros Hd. unfold Status.update_success, io_bind.
  destruct (setitem_at w st d "node_status" (VInt Status.states.succeeded) Hd)
    as (w1 & -> & H1).
  destruct (setitem_at w1 st _ "comment" (VStr "") (proj1 H1)) as (w2 & -> & H2).
  exists w2. split; [reflexivity | eapply wrote_trans; eauto].
Qed.

Lemma update_failure_at w st d comment :
  status_at w st d ->
  exists w', Status.update_failure st comment w = (w', Ok tt) /\
    wrote w w' st
      (Status.dict_set (Status.dict_set d "node_status" (VInt Status.states.failed))
         "comment" (VStr comment)).
Proof.
  intros Hd. unfold Status.update_failure, io_bind.
  destruct (setitem_at w st d "node_status" (VInt Status.states.failed) Hd)
    as (w1 & -> & H1).
  destruct (setitem_at w1 st _ "comment" (VStr comment) (proj1 H1)) as (w2 & -> & H2).
  exists w2. split; [reflexivity | eapply wrote_trans; eauto].
Qed.

Lemma node_status_after_update d s c :
  getitem_key (VDict (Status.dict_set (Status.dict_set d "node_status" s) "comment" c))
    "node_status" = Ok s.
Proof.
  unfold getitem_key. rewrite dict_get_set_ne by discriminate.
  by rewrite dict_get_set_eq.
Qed.

Lemma succeeded_at w st d s :
  status_at w st d ->
  getitem_key (VDict d) "node_status" = Ok s ->
  Status.succeeded st w =
    (w, Ok (py_eq_int s Status.states.succeeded || py_eq_int s Status.states.unchecked)).
Proof.
  intros Hd Hs. unfold Status.succeeded, io_bind.
  rewrite (getitem_at _ _ _ _ Hd), Hs. reflexivity.
Qed.

End StatusFacts.

Section StageFacts.
Context `{PyRuntime}.

Lemma io_map_exists w outputs :
  Stage.io_map os_path_exists outputs w = (w, Ok (existing w outputs)).
Proof.
  induction outputs as [|p r IH]; [reflexivity|].
  simpl. unfold io_bind at 1. unfold os_path_exists at 1.
  unfold io_bind at 1. rewrite IH. reflexivity.
Qed.

Lemma io_for_print w (g : string -> string) l :
  io_for l (fun f => print (g f)) w =
    (mkWorld (fs w) (stdout w ++ map g l) (built w), Ok tt).
Proof.
  revert w. induction l as [|x r IH]; intros w; simpl.
  - rewrite app_nil_r. by destruct w.
  - unfold io_bind, print at 1. rewrite IH. simpl.
    by rewrite <- app_assoc.
Qed.

(** The check prints and answers; it leaves the files alone. *)
Lemma check_expected_outputs_spec cls self w outputs :
  Stage.get_expected_outputs self = Ok outputs ->
  exists out,
    Stage.check_expected_outputs cls self w =
      (mkWorld (fs w) out (built w), Ok (outputs_ok cls w outputs)).
Proof.
  intros Ho. unfold Stage.check_expected_outputs, outputs_ok.
  destruct (Stage.check_expected_outputs_active cls); simpl.
  2:{ exists (stdout w). by destruct w. }
  unfold io_bind at 1. unfold lift at 1. rewrite Ho.
  unfold io_bind at 1. rewrite io_map_exists.
  destruct (forallb id (existing w outputs)); simpl.
  { exists (stdout w). by destruct w. }
  unfold io_bind at 1. unfold print at 1.
  unfold io_bind at 1. rewrite io_for_print. simpl.
  destruct (Stage.ignore_expected_outputs cls); simpl; eexists; reflexivity.
Qed.

Lemma wrote_status_other w w' st d : wrote w w' st d -> status_at w' st d.
Proof. by intros (? & _). Qed.

Lemma status_at_same_fs w w' st d :
  fs w' = fs w -> status_at w st d -> status_at w' st d.
Proof. unfold status_at. by intros ->. Qed.

Lemma teardown_ends cls self result w d outputs :
  status_at w (Stage.status self) d ->
  Stage.get_expected_outputs self = Ok outputs ->
  exists w' r, Stage.teardown cls self result w = (w', r) /\ teardown_end self w' r.
Proof.
  intros Hd Ho. unfold Stage.teardown.
  set (res := if Stage.all_zero result then VInt 0 else result).
  assert (Hfirst : exists w1 d1 s1,
    (if py_eq_zero res then Status.update_success (Stage.status self)
     else Status.update_failure (Stage.status self)
            ("stage terminated with exit code " +:+ py_str res)) w = (w1, Ok tt) /\
    status_at w1 (Stage.status self) d1 /\
    getitem_key (VDict d1) "node_status" = Ok (VInt s1) /\
    (s1 = Status.states.succeeded \/ s1 = Status.states.failed)).
  { destruct (py_eq_zero res).
    - destruct (update_success_at w _ d Hd) as (w1 & E & Hw).
      exists w1; do 2 eexists. split; [exact E|]. split; [exact (proj1 Hw)|].
      split; [apply node_status_after_update | auto].
    - destruct (update_failure_at w _ d ("stage terminated with exit code " +:+ py_str res) Hd)
        as (w1 & E & Hw).
      exists w1; do 2 eexists. split; [exact E|]. split; [exact (proj1 Hw)|].
      split; [apply node_status_after_update | auto]. }
  destruct Hfirst as (w1 & d1 & s1 & E1 & Hd1 & Hs1 & Hcase).
  destruct (check_expected_outputs_spec cls self w1 outputs Ho) as (out & E2).
  set (w2 := mkWorld (fs w1) out (built w1)) in *.
  assert (Hd2 : status_at w2 (Stage.status self) d1) by exact Hd1.
  unfold io_bind. rewrite E1, E2.
  destruct (outputs_ok cls w1 outputs); cbn [negb]; cbv iota.
  - unfold ret at 1. cbv beta iota. rewrite (getitem_at _ _ _ _ Hd2), Hs1.
    destruct Hcase as [-> | ->]; simpl; do 2 eexists; (split; [reflexivity|]).
    + eapply Teardown_passed; eauto.
    + eapply Teardown_failed; eauto.
  - destruct (update_failure_at w2 _ d1
                "stage terminated, some required files were not created." Hd2)
      as (w3 & E3 & Hw3).
    rewrite E3, (getitem_at _ _ _ _ (proj1 Hw3)), node_status_after_update. simpl.
    do 2 eexists. split; [reflexivity|].
    eapply Teardown_failed; [exact (proj1 Hw3) | apply node_status_after_update].
Qed.

End StageFacts.

Section Teardown.
Context `{PyRuntime}.


(** No teardown leaves the record unchecked. *)
Lemma teardown_never_unchecked cls self result w d outputs :
  status_at w (Stage.status self) d ->
  Stage.get_expected_outputs self = Ok outputs ->
  exists w' r s,
    Stage.teardown cls self result w = (w', r) /\
    Status.__getitem__ (Stage.status self) "node_status" w' = (w', Ok (VInt s)) /\
    s <> Status.states.unchecked.
Proof.
  intros Hd Ho.
  destruct (teardown_ends cls self result w d outputs Hd Ho) as (w' & r & E & Hend).
  exists w', r.
  destruct Hend as [d' Hd' Hs | d' Hd' Hs]; eexists; (split; [exact E|]);
    rewrite (getitem_at _ _ _ _ Hd'), Hs; split; [reflexivity | discriminate
                                                  | reflexivity | discriminate].
Qed.

(** C4. The stage declares no expected output and its command returns 0:
    teardown returns, and the record says succeeded (1), not unchecked
    (999). With a null entry teardown stops on a TypeError, the record
    saying succeeded. *)
Theorem teardown_without_expected_outputs_succeeded :
  let end_ := Stage.teardown Stage.class_defaults stage_without_outputs (VInt 0)
                sample_world in
  snd end_ = Ok tt /\
  snd (Status.__getitem__ sample_status "node_status" (fst end_))
    = Ok (VInt Status.states.succeeded) /\
  snd (Status.__getitem__ sample_status "comment" (fst end_)) = Ok (VStr "") /\
  Status.states.succeeded <> Status.states.unchecked /\
  let null_end := Stage.teardown Stage.class_defaults stage_with_null_outputs (VInt 0)
                    sample_world in
  snd null_end = Raise TypeError /\
  snd (Status.__getitem__ sample_status "node_status" (fst null_end))
    = Ok (VInt Status.states.succeeded).
Proof. vm_compute. repeat split; congruence. Qed.

(** The guard of [remove_expected_outputs] does not read the settings of
    the class: whatever they are, setup does the same. *)
Lemma setup_ignores_class_settings cls cls' self w :
  Stage.setup cls self w = Stage.setup cls' self w.
Proof. reflexivity. Qed.

(** C8. After [deactivate_remove_expected_outputs], setup still removes the
    expected output that an earlier run left. *)
Theorem setup_removes_outputs_when_deactivated :
  let cls := Stage.deactivate_remove_expected_outputs Stage.class_defaults in
  let end_ := Stage.setup cls sample_stage sample_world in
  Stage.remove_expected_outputs_active cls = false /\
  Stage.get_expected_outputs sample_stage = Ok [sample_output] /\
  fs sample_world !! sample_output = Some (File Data) /\
  snd end_ = Ok tt /\
  fs (fst end_) !! sample_output = None /\
  stdout (fst end_) =
    ["found outputs from an earlier run of PreFreeSurfer"; "removing " +:+ sample_output].
Proof. vm_compute. repeat split; congruence. Qed.

End Teardown.


(** ** Intended field maps *)

Section Intended.
Import ParameterSettings IntendedFor.

Lemma scan_first_match test l1 x l2 i idx :
  none_intended test l1 ->
  test x = Ok true ->
  scan test (l1 ++ x :: l2) i idx = Ok (Broke (i + Z.of_nat (length l1))).
Proof.
  intros Hn Hx. revert i idx.
  induction Hn as [|y l1 Hy Hn IH]; intros i idx; simpl.
  - rewrite Hx. simpl. f_equal. f_equal. lia.
  - rewrite Hy. simpl. rewrite IH. f_equal. f_equal. lia.
Qed.

Lemma scan_no_match test l i idx :
  none_intended test l ->
  scan test l i idx =
    Ok (Exhausted (match l with
                   | [] => idx
                   | _ => Some (i + Z.of_nat (length l) - 1)
                   end)).
Proof.
  intros Hn. revert i idx.
  induction Hn as [|y l Hy Hn IH]; intros i idx; simpl; [reflexivity|].
  rewrite Hy. simpl. rewrite IH. destruct l; do 3 f_equal; simpl length; lia.
Qed.

Lemma direction_index_unfold test config direction idx w l :
  sidecars config direction l ->
  direction_index test config direction idx w =
    match scan test l 0 idx with
    | Ok (Broke i) => (w, Ok (i, Some i))
    | Ok (Exhausted None) => (w, Raise (UnboundLocalError "idx"))
    | Ok (Exhausted (Some i)) =>
        (if negb (i =? 0) then warned w direction else w, Ok (0, Some i))
    | Raise e => (w, Raise e)
    end.
Proof.
  intros (v & Hv & Hl). unfold direction_index, io_bind, lift.
  rewrite Hv. simpl. rewrite Hl. simpl.
  destruct (scan test l 0 idx) as [[i | [i|]] | e]; try reflexivity.
  destruct (negb (i =? 0)); reflexivity.
Qed.

End Intended.

Section IntendedClaims.
Import ParameterSettings IntendedFor.

(** C5, as stated, fails: the only sidecar of each direction does not
    name the anatomical image, index 0 is taken, and nothing is printed. *)
Lemma single_unintended_sidecar_no_warning :
  get_bids one_pair [K "fmap_metadata"; K "positive"] = Ok (VList [sefm_func]) /\
  get_bids one_pair [K "fmap_metadata"; K "negative"] = Ok (VList [sefm_func]) /\
  PreFreeSurfer.intended_for_T1w sefm_func = Ok false /\
  intended_idx PreFreeSurfer.intended_for_T1w one_pair quiet = (quiet, Ok (0, 0)) /\
  PreFreeSurfer._get_intended_sefmaps one_pair quiet = (quiet, Ok (AP1, PA1)) /\
  stdout (fst (PreFreeSurfer._get_intended_sefmaps one_pair quiet)) = [].
Proof. vm_compute. repeat split; reflexivity. Qed.

(** C5, amended. For a direction with the sidecars [l], whatever [idx]
    was before: the first sidecar that passes the test gives its index and
    no warning (so does the only one that passes); when none passes, the
    index is 0, with the warning when [l] has two sidecars or more and
    without it when [l] has one. *)
Theorem intended_index_of_direction test config direction idx w l :
  sidecars config direction l ->
  (forall l1 x l2, l = (l1 ++ x :: l2)%list -> none_intended test l1 -> test x = Ok true ->
     direction_index test config direction idx w =
       (w, Ok (Z.of_nat (length l1), Some (Z.of_nat (length l1))))) /\
  (none_intended test l -> (2 <= length l)%nat ->
     direction_index test config direction idx w =
       (warned w direction, Ok (0, Some (Z.of_nat (length l) - 1)))) /\
  (none_intended test l -> length l = 1%nat ->
     direction_index test config direction idx w = (w, Ok (0, Some 0))).
Proof.
  intros Hl. rewrite (direction_index_unfold _ _ _ _ _ _ Hl).
  split; [|split].
  - intros l1 x l2 -> Hn Hx. rewrite (scan_first_match _ _ _ _ _ _ Hn Hx).
    rewrite Z.add_0_l. reflexivity.
  - intros Hn Hlen. rewrite (scan_no_match _ _ _ _ Hn).
    destruct l as [|a [|b r]]; simpl in Hlen; try lia.
    rewrite Z.add_0_l.
    replace (negb (Z.of_nat (length (a :: b :: r)) - 1 =? 0)) with true; [reflexivity|].
    symmetry. apply negb_true_iff, Z.eqb_neq. simpl length. lia.
  - intros Hn Hlen. rewrite (scan_no_match _ _ _ _ Hn).
    destruct l as [|a [|b r]]; simpl in Hlen; try lia. reflexivity.
Qed.

Lemma intended_index_of_direction_witness :
  direction_index PreFreeSurfer.intended_for_T1w two_pairs_second_intended "negative"
    (Some 1) quiet = (quiet, Ok (1, Some 1)) /\
  direction_index PreFreeSurfer.intended_for_T1w two_pairs "positive" None quiet =
    (warned quiet "positive", Ok (0, Some 1)) /\
  direction_index PreFreeSurfer.intended_for_T1w one_pair "positive" None quiet =
    (quiet, Ok (0, Some 0)).
Proof.
  split; [|split].
  - apply (proj1 (intended_index_of_direction PreFreeSurfer.intended_for_T1w
                    two_pairs_second_intended "negative" (Some 1) quiet
                    [sefm_func; sefm_anat]
                    (ex_intro _ (VList [sefm_func; sefm_anat]) (conj eq_refl eq_refl)))
             [sefm_func] sefm_anat []).
    + reflexivity.
    + repeat constructor.
    + reflexivity.
  - apply (proj1 (proj2 (intended_index_of_direction PreFreeSurfer.intended_for_T1w
                    two_pairs "positive" None quiet [sefm_func; sefm_func]
                    (ex_intro _ (VList [sefm_func; sefm_func]) (conj eq_refl eq_refl))))).
    + repeat constructor.
    + simpl. lia.
  - apply (proj2 (proj2 (intended_index_of_direction PreFreeSurfer.intended_for_T1w
                    one_pair "positive" None quiet [sefm_func]
                    (ex_intro _ (VList [sefm_func]) (conj eq_refl eq_refl))))).
    + repeat constructor.
    + reflexivity.
Defined.

(** C10, as stated, fails: the negative metadata list is empty, the loop
    index is the one the positive loop left, the fallback runs (the
    warning for the negative direction is printed) and a pair is returned.
    When there is no negative file either, the error is the IndexError of
    the last lookup, raised after the same fallback. *)
Lemma empty_negative_sidecars_fall_back :
  get_bids no_negative_sidecar [K "fmap_metadata"; K "negative"] = Ok (VList []) /\
  PreFreeSurfer._get_intended_sefmaps no_negative_sidecar quiet =
    (warned (warned quiet "positive") "negative", Ok (AP1, PA1)) /\
  get_bids no_negative [K "fmap_metadata"; K "negative"] = Ok (VList []) /\
  intended_idx PreFreeSurfer.intended_for_T1w no_negative quiet =
    (warned (warned quiet "positive") "negative", Ok (0, 0)) /\
  PreFreeSurfer._get_intended_sefmaps no_negative quiet =
    (warned (warned quiet "positive") "negative", Raise IndexError).
Proof. vm_compute. repeat split; reflexivity. Qed.

(** C10, amended. With no positive sidecar the loop index has no value
    and the method raises. With positive sidecars and no negative one, the
    fallback of the negative direction runs on the index the positive loop
    left: it warns when that index is not 0 and takes 0; the method then
    raises exactly when one of the two lookups of the files does. *)
Theorem empty_sidecar_lists test config w :
  (sidecars config "positive" [] ->
     _get_intended_sefmaps test config w = (w, Raise (UnboundLocalError "idx"))) /\
  (forall w1 ip j,
     direction_index test config "positive" None w = (w1, Ok (ip, Some j)) ->
     sidecars config "negative" [] ->
     let w2 := if negb (j =? 0) then warned w1 "negative" else w1 in
     intended_idx test config w = (w2, Ok (ip, 0)) /\
     _get_intended_sefmaps test config w =
       (w2, pos <- get_bids config [K "fmap"; K "positive"; I ip];;
            neg <- get_bids config [K "fmap"; K "negative"; I 0];;
            Ok (pos, neg))).
Proof.
  split.
  - intros Hl. unfold _get_intended_sefmaps, intended_idx.
    unfold io_bind. rewrite (direction_index_unfold _ _ _ _ _ _ Hl). reflexivity.
  - intros w1 ip j Hp Hn w2.
    assert (Hi : intended_idx test config w = (w2, Ok (ip, 0))).
    { unfold intended_idx, io_bind. rewrite Hp. simpl.
      rewrite (direction_index_unfold _ _ _ _ _ _ Hn). simpl. reflexivity. }
    split; [exact Hi|].
    unfold _get_intended_sefmaps, io_bind. rewrite Hi. unfold lift. simpl.
    destruct (get_bids config [K "fmap"; K "positive"; I ip]); simpl; [|reflexivity].
    destruct (get_bids config [K "fmap"; K "negative"; I 0]); reflexivity.
Qed.

Lemma empty_sidecar_lists_witness :
  _get_intended_sefmaps PreFreeSurfer.intended_for_T1w no_positive quiet =
    (quiet, Raise (UnboundLocalError "idx")) /\
  intended_idx PreFreeSurfer.intended_for_T1w no_negative quiet =
    (warned (warned quiet "positive") "negative", Ok (0, 0)).
Proof.
  split.
  - apply (proj1 (empty_sidecar_lists PreFreeSurfer.intended_for_T1w no_positive quiet)).
    exists (VList []). split; reflexivity.
  - apply (proj2 (empty_sidecar_lists PreFreeSurfer.intended_for_T1w no_negative quiet)
             (warned quiet "positive") 0 1).
    + reflexivity.
    + exists (VList []). split; reflexivity.
Defined.

End IntendedClaims.

Lemma samples_are_constructed :
  snd (ParameterSettings.__init__ topup_session "/out/sub-01/ses-1" quiet)
    = Ok (constructed topup_session) /\
  snd (ParameterSettings.__init__ fieldmap_session "/out/sub-01/ses-1" quiet)
    = Ok (constructed fieldmap_session) /\
  snd (ParameterSettings.__init__ plain_session "/out/sub-01/ses-1" quiet)
    = Ok (constructed plain_session) /\
  ParameterSettings.getattr (constructed topup_session) "dcmethod" = Ok (VStr "TOPUP") /\
  ParameterSettings.getattr (constructed topup_session) "echospacing" = Ok (VStr "0.00051") /\
  ParameterSettings.getattr (constructed fieldmap_session) "dcmethod" = Ok (VStr "FIELDMAP") /\
  ParameterSettings.getattr (constructed fieldmap_session) "echodiff" = Ok (VStr "2.46") /\
  ParameterSettings.getattr (constructed plain_session) "dcmethod" = Ok VNone /\
  ParameterSettings.getattr (constructed topup_session) "unproc"
    = Ok (VStr "/bids/sub-01/ses-1/func") /\
  ParameterSettings.getattr (constructed topup_session) "sourcedata_root"
    = Ok (VStr "/bids/sourcedata").
Proof. split; [reflexivity|]. split; [reflexivity|]. split; [reflexivity|].
  repeat split; vm_compute; reflexivity.
Qed.

(** ** Environment resolution *)

Section Resolution.
Import ParameterSettings.













End Resolution.


(** ** Distortion correction *)

Section DistortionCorrection.
Context `{PyRuntime} `{Helpers}.
Import ParameterSettings.

Ltac bind_ok H x E :=
  match type of H with
  | rbind ?m _ = Ok _ =>
      destruct m as [x|] eqn:E; cbn [rbind] in H; [|discriminate H]
  end.






Lemma init_paths_keeps bids_data out self self' name :
  init_paths bids_data out self = Ok self' ->
  name ∈ dc_fields ->
  getattr self' name = getattr self name.
Proof.
  intros Hi Hn. unfold init_paths in Hi. cbv zeta in Hi.
  bind_ok Hi subject Es. bind_ok Hi session Ese. bind_ok Hi t1w Et.
  bind_ok Hi f0 Ef. bind_ok Hi f1 Ef'. injection Hi as <-.
  unfold dc_fields in Hn.
  repeat (apply elem_of_cons in Hn as [-> | Hn]);
    [.. | inversion Hn];
    (destruct (hasattr self "fmribfcmethod");
     repeat rewrite getattr_setattr_ne by discriminate; reflexivity).
Qed.

Lemma init_ok bids_data out w w' self' :
  __init__ bids_data out w = (w', Ok self') ->
  exists s0 s1, infer_distortion_correction bids_data s0 = Ok s1 /\
                init_paths bids_data out s1 = Ok self'.
Proof.
  unfold __init__, io_bind, lift. intros Hi.
  destruct (init_anatomical bids_data (mk class_attrs ∅) w) as [w1 [s0|e]];
    [|discriminate Hi].
  destruct (infer_distortion_correction bids_data s0) as [s1|e] eqn:E;
    [|discriminate Hi].
  exists s0, s1. split; [exact E|]. by injection Hi.
Qed.






End DistortionCorrection.


(** ** A session without T2w *)

Section MissingT2w.
Context `{PyRuntime} `{Helpers}.

Lemma io_bind_lift {A B} (r : result A) (k : A -> io B) w :
  io_bind (lift r) k w = match r with Ok a => k a w | Raise e => (w, Raise e) end.
Proof. unfold io_bind, lift. by destruct r. Qed.

Lemma only_printed_refl w : only_printed w w.
Proof. by split. Qed.

Lemma init_anatomical_without_T2w bids_data self w types :
  getitem_key bids_data "types" = Ok types ->
  py_in "T2w" types = Ok false ->
  (exists w' e, ParameterSettings.init_anatomical bids_data self w = (w', Raise e) /\
                only_printed w w') /\
  (forall t1w md sp,
     getitem_key bids_data "t1w" = Ok t1w ->
     getitem_key bids_data "t1w_metadata" = Ok md ->
     get_realdwelltime md = Ok sp ->
     ParameterSettings.init_anatomical bids_data self w =
       (mkWorld (fs w) (stdout w ++ [T2w_message]) (built w), Raise T2w_error)).
Proof.
  intros Ht Hn. unfold ParameterSettings.init_anatomical. cbv zeta.
  split.
  - rewrite io_bind_lift.
    destruct (getitem_key bids_data "t1w") as [t1w|e];
      [|do 2 eexists; split; [reflexivity | apply only_printed_refl]].
    rewrite io_bind_lift.
    destruct (md <- getitem_key bids_data "t1w_metadata";; get_realdwelltime md) as [sp|e];
      [|do 2 eexists; split; [reflexivity | apply only_printed_refl]].
    rewrite io_bind_lift, Ht. cbn [rbind]. rewrite Hn.
    do 2 eexists. split; [reflexivity | by split].
  - intros t1w md sp Ht1 Hmd Hsp.
    rewrite io_bind_lift, Ht1, io_bind_lift, Hmd. cbn [rbind]. rewrite Hsp.
    rewrite io_bind_lift, Ht. cbn [rbind]. rewrite Hn. reflexivity.
Qed.

Lemma init_without_T2w bids_data out w types :
  getitem_key bids_data "types" = Ok types ->
  py_in "T2w" types = Ok false ->
  exists w' e, ParameterSettings.__init__ bids_data out w = (w', Raise e) /\
               only_printed w w'.
Proof.
  intros Ht Hn. unfold ParameterSettings.__init__.
  destruct (proj1 (init_anatomical_without_T2w bids_data
                     (ParameterSettings.mk ParameterSettings.class_attrs ∅) w types Ht Hn))
    as (w' & e & E & Hw).
  exists w', e. unfold io_bind at 1. rewrite E. auto.
Qed.

Variable here : string.
Variable env : gmap string string.

Lemma configure_without_T2w session output_dir a w types :
  getitem_key session "types" = Ok types ->
  py_in "T2w" types = Ok false ->
  exists w' e, Run.configure session output_dir a w = (w', Raise e) /\
               only_printed w w'.
Proof.
  intros Ht Hn. unfold Run.configure.
  rewrite io_bind_lift.
  destruct (subject <- getitem_key session "subject";; _) as [out_dir|e];
    [|do 2 eexists; split; [reflexivity | apply only_printed_refl]].
  rewrite io_bind_lift.
  destruct (validate_config session (Run.anat_only a)) as [[]|e];
    [|do 2 eexists; split; [reflexivity | apply only_printed_refl]].
  rewrite io_bind_lift, Ht. rewrite io_bind_lift.
  destruct (py_in "T1w" types) as [run_anat|e];
    [|do 2 eexists; split; [reflexivity | apply only_printed_refl]].
  rewrite io_bind_lift.
  destruct (b <- py_in "bold" types;; _) as [run_func|e];
    [|do 2 eexists; split; [reflexivity | apply only_printed_refl]].
  destruct (init_without_T2w session out_dir w types Ht Hn) as (w' & e & E & Hw).
  exists w', e. unfold io_bind at 1. rewrite E. auto.
Qed.

(** C9. When the types of the session do not include T2w, the
    constructor of the configuration raises, with its own error when the
    T1w inputs can be read, and the session stops there: no Stage has been
    constructed and no file has been touched. *)
Theorem missing_T2w_fails_before_stages session output_dir a w types :
  getitem_key session "types" = Ok types ->
  py_in "T2w" types = Ok false ->
  (forall out w0,
     exists w' e, ParameterSettings.__init__ session out w0 = (w', Raise e)) /\
  (forall out w0 t1w md sp,
     getitem_key session "t1w" = Ok t1w ->
     getitem_key session "t1w_metadata" = Ok md ->
     get_realdwelltime md = Ok sp ->
     ParameterSettings.__init__ session out w0 =
       (mkWorld (fs w0) (stdout w0 ++ [T2w_message]) (built w0), Raise T2w_error)) /\
  exists w' e,
    Run.interface_session here env session output_dir a w = (w', Raise e) /\
    built w' = built w /\
    fs w' = fs w.
Proof.
  intros Ht Hn. split; [|split].
  - intros out w0. destruct (init_without_T2w session out w0 types Ht Hn)
      as (w' & e & E & _). eauto.
  - intros out w0 t1w md sp Ht1 Hmd Hsp. unfold ParameterSettings.__init__.
    unfold io_bind at 1.
    rewrite (proj2 (init_anatomical_without_T2w session _ w0 types Ht Hn)
               t1w md sp Ht1 Hmd Hsp). reflexivity.
  - destruct (configure_without_T2w session output_dir a w types Ht Hn)
      as (w' & e & E & Hfs & Hb).
    exists w', e. unfold Run.interface_session. unfold io_bind at 1.
    rewrite E. auto.
Qed.

End MissingT2w.

Lemma missing_T2w_fails_before_stages_witness :
  ParameterSettings.__init__ no_T2w_session "/out/sub-01/ses-1" quiet =
    (mkWorld ∅ [T2w_message] [], Raise T2w_error) /\
  exists w' e,
    Run.interface_session "/opt/pipeline/app" env_a no_T2w_session "/out" Run.default_args
      quiet = (w', Raise e) /\
    built w' = built quiet /\
    fs w' = fs quiet.
Proof.
  destruct (missing_T2w_fails_before_stages "/opt/pipeline/app" env_a no_T2w_session
              "/out" Run.default_args quiet (types_of ["T1w"; "bold"])
              eq_refl eq_refl) as (_ & Hinit & Hrun).
  split; [|exact Hrun].
  apply (Hinit "/out/sub-01/ses-1" quiet
           (VList [VStr "/bids/sub-01/ses-1/anat/sub-01_ses-1_T1w.nii.gz"])
           (VDict []) (VStr "0.000002")); reflexivity.
Defined.

(** The method of FMRIVolume, on the functional run of the samples: of
    two pairs, the second is intended for the run and is the one taken;
    the single pair intended for the anatomical image only is taken
    without a warning. *)
Lemma fmri_volume_intended_sefmaps_example :
  FMRIVolume._get_intended_sefmaps
    (session_with_fmaps [AP1; AP2] [PA1; PA2] [sefm_anat; sefm_func] [sefm_anat; sefm_func])
    volume_stage quiet = (quiet, Ok (AP2, PA2)) /\
  FMRIVolume._get_intended_sefmaps
    (session_with_fmaps [AP1] [PA1] [sefm_anat] [sefm_anat])
    volume_stage quiet = (quiet, Ok (AP1, PA1)).
Proof. vm_compute. split; reflexivity. Qed.

(** ** A whole session, as a check of the embedding

    With spin echo field maps, functional data and the selector
    [FreeSurfer:FMRIVolume], seven stages are constructed, in the order of
    the pipeline, each with its log directory and status record; three of
    them are kept. With the defaults of the signature of [interface] the
    templates are [None], which cannot be unpacked. *)
Lemma interface_session_example :
  let r := Run.interface_session "/opt/pipeline/app" env_a topup_session "/out"
             command_line_args installed in
  (match snd r with
   | Ok order => Ok (map Stage.class_name order)
   | Raise e => Raise e
   end) = Ok ["FreeSurfer"; "PostFreeSurfer"; "FMRIVolume"] /\
  built (fst r) = ["PreFreeSurfer"; "FreeSurfer"; "PostFreeSurfer"; "FMRIVolume";
                   "FMRISurface"; "DCANBOLDProcessing"; "ExecutiveSummary"] /\
  fs (fst r) !! "/out/sub-01/ses-1/logs/FreeSurfer/status.json"
    = Some (File (Json (VDict Status.defaults))) /\
  snd (Run.interface_session "/opt/pipeline/app" env_a topup_session "/out"
         Run.default_args installed) = Raise TypeError.
Proof. vm_compute. repeat split; reflexivity. Qed.

(** * Further properties *)

(** ** The status record: creation, run counter, outcomes *)

Section StatusRecord.



Lemma update_start_run_at w st d n :
  status_at w st d ->
  dict_get d "num_runs" = Some (VInt n) ->
  exists w',
    Status.update_start_run st w = (w', Ok tt) /\
    wrote w w' st
      (Status.dict_set (Status.dict_set d "num_runs" (VInt (n + 1)))
         "node_status" (VInt Status.states.incomplete)).
Proof.
  intros Hd Hn.
  assert (Hg : getitem_key (VDict d) "num_runs" = Ok (VInt n))
    by (unfold getitem_key; by rewrite Hn).
  unfold Status.update_start_run, Status.increment_run, io_bind.
  rewrite (getitem_at _ _ _ _ Hd), Hg. unfold lift.
  change (py_add1 (VInt n)) with (Ok (VInt (n + 1))). cbv beta iota.
  destruct (setitem_at w st d "num_runs" (VInt (n + 1)) Hd) as (w1 & -> & H1).
  destruct (setitem_at w1 st _ "node_status" (VInt Status.states.incomplete) (proj1 H1))
    as (w2 & -> & H2).
  exists w2. split; [reflexivity | eapply wrote_trans; eauto].
Qed.

(** The reads after the start of a run. *)
Lemma reads_after_start w st d n :
  status_at w st
    (Status.dict_set (Status.dict_set d "num_runs" (VInt n))
       "node_status" (VInt Status.states.incomplete)) ->
  Status.__getitem__ st "num_runs" w = (w, Ok (VInt n)) /\
  Status.__getitem__ st "node_status" w = (w, Ok (VInt Status.states.incomplete)) /\
  Status.__getitem__ st "comment" w = (w, getitem_key (VDict d) "comment").
Proof.
  intros Hat. rewrite !(getitem_at _ _ _ _ Hat). unfold getitem_key.
  rewrite dict_get_set_eq.
  rewrite !(dict_get_set_ne _ "node_status") by discriminate.
  rewrite dict_get_set_eq.
  rewrite (dict_get_set_ne _ "num_runs" "comment") by discriminate.
  repeat split; reflexivity.
Qed.



(** The reads after an update of the outcome to [s] with comment [c]. *)
Lemma reads_after_outcome w st d s c :
  status_at w st
    (Status.dict_set (Status.dict_set d "node_status" (VInt s)) "comment" (VStr c)) ->
  Status.__getitem__ st "node_status" w = (w, Ok (VInt s)) /\
  Status.__getitem__ st "comment" w = (w, Ok (VStr c)) /\
  Status.__getitem__ st "num_runs" w = (w, getitem_key (VDict d) "num_runs") /\
  Status.succeeded st w =
    (w, Ok ((s =? Status.states.succeeded) || (s =? Status.states.unchecked))).
Proof.
  intros Hat. rewrite !(getitem_at _ _ _ _ Hat).
  rewrite (succeeded_at _ _ _ (VInt s) Hat (node_status_after_update _ _ _)).
  unfold getitem_key. rewrite dict_get_set_eq.
  rewrite !(dict_get_set_ne _ "comment") by discriminate.
  rewrite dict_get_set_eq.
  rewrite (dict_get_set_ne _ "node_status" "num_runs") by discriminate.
  repeat split; reflexivity.
Qed.


Lemma unreadable_load w st :
  unreadable w st ->
  (exists e, json_load (Status.file_path st) w = (w, Raise e)) \/
  (exists v, json_load (Status.file_path st) w = (w, Ok v) /\
             forall d, v <> VDict d).
Proof.
  intros Hu. unfold json_load.
  destruct (fs w !! Status.file_path st) as [[|[v|]]|] eqn:E; eauto.
  right. exists v. split; [reflexivity|]. intros d ->. by apply (Hu d).
Qed.

Lemma unreadable_getitem w st k :
  unreadable w st -> exists e, Status.__getitem__ st k w = (w, Raise e).
Proof.
  intros Hu. unfold Status.__getitem__, io_bind.
  destruct (unreadable_load w st Hu) as [(e & ->) | (v & -> & Hv)]; [eauto|].
  unfold lift. destruct v; simpl; eauto. by destruct (Hv d).
Qed.

Lemma unreadable_setitem w st k v :
  unreadable w st -> exists e, Status.__setitem__ st k v w = (w, Raise e).
Proof.
  intros Hu. unfold Status.__setitem__, io_bind.
  destruct (unreadable_load w st Hu) as [(e & ->) | (x & -> & Hx)]; [eauto|].
  destruct x; unfold raise; eauto. by destruct (Hx d).
Qed.

(** X4. Nothing but the constructor creates the record: when the file is
    missing, is a directory, is not JSON or holds something else than an
    object, every operation raises and leaves the world as it is. *)
Theorem unreadable_record_raises st w comment :
  unreadable w st ->
  (exists e, Status.update_start_run st w = (w, Raise e)) /\
  (exists e, Status.update_success st w = (w, Raise e)) /\
  (exists e, Status.update_failure st comment w = (w, Raise e)) /\
  (exists e, Status.update_unchecked st comment w = (w, Raise e)) /\
  (exists e, Status.succeeded st w = (w, Raise e)).
Proof.
  intros Hu. repeat split.
  - unfold Status.update_start_run, Status.increment_run, io_bind.
    destruct (unreadable_getitem w st "num_runs" Hu) as (e & ->). eauto.
  - unfold Status.update_success, io_bind.
    destruct (unreadable_setitem w st "node_status" (VInt Status.states.succeeded) Hu)
      as (e & ->). eauto.
  - unfold Status.update_failure, io_bind.
    destruct (unreadable_setitem w st "node_status" (VInt Status.states.failed) Hu)
      as (e & ->). eauto.
  - unfold Status.update_unchecked, io_bind.
    destruct (unreadable_setitem w st "node_status" (VInt Status.states.unchecked) Hu)
      as (e & ->). eauto.
  - unfold Status.succeeded, io_bind.
    destruct (unreadable_getitem w st "node_status" Hu) as (e & ->). eauto.
Qed.

End StatusRecord.




Lemma unreadable_record_raises_witness :
  exists e, Status.succeeded sample_status quiet = (quiet, Raise e).
Proof.
  apply (unreadable_record_raises sample_status quiet "").
  intros d Hd. vm_compute in Hd. discriminate Hd.
Defined.

(** ** The expected outputs of a stage *)

Section ExpectedOutputs.
Context `{PyRuntime}.

Lemma pick_filter keep (f : string -> bool) outputs :
  Stage.pick keep outputs (map f outputs) = List.filter (fun p => keep (f p)) outputs.
Proof.
  unfold Stage.pick. induction outputs as [|p r IH]; [reflexivity|].
  simpl. destruct (keep (f p)); simpl; by rewrite IH.
Qed.

Lemma all_exist_missing w outputs :
  forallb id (existing w outputs) = match missing w outputs with [] => true | _ => false end.
Proof.
  unfold existing, missing. induction outputs as [|p r IH]; [reflexivity|].
  simpl. destruct (bool_decide (is_Some (fs w !! p))); simpl; [exact IH | reflexivity].
Qed.

(** X5. The check of the expected outputs. Deactivated, it answers True
    without formatting a template. Active, it raises what the formatting
    raises; it answers True and prints nothing when every path exists;
    otherwise it prints a header and one line for each missing path, in
    the order of the list, and answers whether missing outputs are
    ignored. It never changes a file. *)
Theorem check_expected_outputs_reports cls self w :
  (Stage.check_expected_outputs_active cls = false ->
     Stage.check_expected_outputs cls self w = (w, Ok true)) /\
  (forall e, Stage.check_expected_outputs_active cls = true ->
     Stage.get_expected_outputs self = Raise e ->
     Stage.check_expected_outputs cls self w = (w, Raise e)) /\
  (forall outputs, Stage.check_expected_outputs_active cls = true ->
     Stage.get_expected_outputs self = Ok outputs ->
     Stage.check_expected_outputs cls self w =
       match missing w outputs with
       | [] => (w, Ok true)
       | dne_list =>
           (mkWorld (fs w)
              (stdout w ++ ("missing expected outputs from " +:+ Stage.class_name self)
                 :: map (fun f => "file not found: " +:+ f) dne_list)
              (built w),
            Ok (Stage.ignore_expected_outputs cls))
       end).
Proof.
  unfold Stage.check_expected_outputs. split; [|split].
  - intros ->. reflexivity.
  - intros e -> He. simpl. unfold io_bind, lift. rewrite He. reflexivity.
  - intros outputs -> Ho. simpl. unfold io_bind at 1. unfold lift at 1. rewrite Ho.
    unfold io_bind at 1. rewrite io_map_exists.
    rewrite all_exist_missing. unfold existing. rewrite pick_filter.
    fold (missing w outputs).
    destruct (missing w outputs) as [|m ms] eqn:Em; cbn [negb]; cbv iota.
    + reflexivity.
    + unfold io_bind at 1. unfold print at 1. unfold io_bind at 1.
      rewrite (io_for_print _ (fun f => "file not found: " +:+ f)).
      cbn [fs stdout built]. rewrite <- app_assoc. simpl app.
      destruct (Stage.ignore_expected_outputs cls); reflexivity.
Qed.

Lemma io_map_isfile w outputs :
  Stage.io_map os_path_isfile outputs w = (w, Ok (map (fun p => is_file (fs w !! p)) outputs)).
Proof.
  induction outputs as [|p r IH]; [reflexivity|].
  simpl. unfold io_bind at 1. unfold os_path_isfile at 1.
  unfold io_bind at 1. rewrite IH. reflexivity.
Qed.

Lemma existsb_isfile w outputs :
  existsb id (map (fun p => is_file (fs w !! p)) outputs) =
    match present_files w outputs with [] => false | _ => true end.
Proof.
  unfold present_files. induction outputs as [|p r IH]; [reflexivity|].
  simpl. destruct (is_file (fs w !! p)); simpl; [reflexivity | exact IH].
Qed.

Lemma remove_loop_all rm_list w :
  NoDup rm_list ->
  (forall p, p ∈ rm_list -> is_file (fs w !! p) = true) ->
  exists w', remove_loop rm_list w = (w', Ok tt) /\
    built w' = built w /\
    stdout w' = (stdout w ++ map (fun f => "removing " +:+ f) rm_list)%list /\
    forall p, fs w' !! p = if bool_decide (p ∈ rm_list) then None else fs w !! p.
Proof.
  unfold remove_loop. revert w.
  induction rm_list as [|x r IH]; intros w Hnd Hf.
  - exists w. simpl. unfold ret. rewrite app_nil_r. repeat split; auto.
  - apply NoDup_cons in Hnd as [Hx Hnd].
    assert (Hfx : is_file (fs w !! x) = true) by (apply Hf; left).
    simpl. unfold io_bind at 1. unfold io_bind at 1. unfold print at 1.
    unfold os_remove at 1. cbn [fs stdout built].
    destruct (fs w !! x) as [[|c]|] eqn:Ex; try discriminate Hfx.
    set (w1 := set_fs (delete x (fs w)) _).
    destruct (IH w1 Hnd) as (w' & E & Hb & Ho & Hfs).
    { intros p Hp. unfold w1, set_fs. simpl.
      rewrite lookup_delete_ne by (intros ->; contradiction). apply Hf. by right. }
    exists w'. split; [exact E|]. split; [rewrite Hb; reflexivity|]. split.
    + rewrite Ho. unfold w1, set_fs. simpl. by rewrite <- app_assoc.
    + intros p. rewrite Hfs. unfold w1, set_fs. simpl.
      destruct (decide (p = x)) as [->|Hne].
      * rewrite (bool_decide_eq_false_2 (x ∈ r)) by exact Hx.
        rewrite (bool_decide_eq_true_2 (x ∈ x :: r)) by left.
        apply lookup_delete_eq.
      * rewrite lookup_delete_ne by congruence.
        destruct (decide (p ∈ r)) as [Hin|Hnin].
        -- rewrite !bool_decide_eq_true_2; [reflexivity | by right | exact Hin].
        -- rewrite !bool_decide_eq_false_2; [reflexivity | | exact Hnin].
           intros Hin. apply elem_of_cons in Hin as [? | ?]; contradiction.
Qed.

Lemma remove_loop_twice rm_list w :
  (forall p, p ∈ rm_list -> is_dir (fs w !! p) = false) ->
  (exists p, p ∈ rm_list /\ fs w !! p = None) \/ ~ NoDup rm_list ->
  exists p w', p ∈ rm_list /\ remove_loop rm_list w = (w', Raise (FileNotFoundError p)).
Proof.
  unfold remove_loop. revert w.
  induction rm_list as [|x r IH]; intros w Hd Hc.
  - destruct Hc as [(p & Hp & _) | Hn]; [inversion Hp | destruct Hn; constructor].
  - simpl. unfold io_bind at 1. unfold io_bind at 1. unfold print at 1.
    unfold os_remove at 1. cbn [fs stdout built].
    assert (Hdx : is_dir (fs w !! x) = false) by (apply Hd; left).
    destruct (fs w !! x) as [[|c]|] eqn:Ex; try discriminate Hdx.
    2:{ exists x. eexists. split; [left | reflexivity]. }
    set (w1 := set_fs (delete x (fs w)) _).
    destruct (IH w1) as (p & w' & Hp & E).
    + intros p Hp. unfold w1, set_fs. simpl.
      destruct (decide (p = x)) as [->|Hne]; [by rewrite lookup_delete_eq|].
      rewrite lookup_delete_ne by congruence. apply Hd. by right.
    + destruct Hc as [(p & Hp & Hnone) | Hn].
      * left. exists p. apply elem_of_cons in Hp as [-> | Hp]; [congruence|].
        split; [exact Hp|]. unfold w1, set_fs. simpl.
        destruct (decide (p = x)) as [->|Hne]; [apply lookup_delete_eq|].
        by rewrite lookup_delete_ne by congruence.
      * destruct (decide (x ∈ r)) as [Hin|Hnin].
        -- left. exists x. split; [exact Hin|]. unfold w1, set_fs. simpl.
           apply lookup_delete_eq.
        -- right. intros Hnd. apply Hn. by apply NoDup_cons.
    + exists p, w'. split; [by right | exact E].
Qed.

Lemma remove_expected_outputs_unfold cls self w outputs :
  Stage.get_expected_outputs self = Ok outputs ->
  Stage.remove_expected_outputs cls self w =
    match present_files w outputs with
    | [] => (w, Ok tt)
    | rm_list =>
        remove_loop rm_list
          (mkWorld (fs w)
             (stdout w ++ ["found outputs from an earlier run of " +:+ Stage.class_name self])
             (built w))
    end.
Proof.
  intros Ho. unfold Stage.remove_expected_outputs. cbv zeta. cbn [negb].
  unfold io_bind at 1. unfold lift at 1. rewrite Ho.
  unfold io_bind at 1. rewrite io_map_isfile, existsb_isfile, pick_filter.
  cbv [id]. fold (present_files w outputs).
  destruct (present_files w outputs) as [|m ms]; [reflexivity|].
  unfold io_bind at 1. unfold print at 1. reflexivity.
Qed.

Lemma present_files_are_files w outputs p :
  p ∈ present_files w outputs <-> p ∈ outputs /\ is_file (fs w !! p) = true.
Proof.
  unfold present_files. rewrite !list_elem_of_In, filter_In. tauto.
Qed.

Lemma remove_expected_outputs_clears cls self w outputs :
  Stage.get_expected_outputs self = Ok outputs ->
  NoDup (present_files w outputs) ->
  exists w',
    Stage.remove_expected_outputs cls self w = (w', Ok tt) /\
    built w' = built w /\
    (present_files w outputs = [] -> w' = w) /\
    forall p, fs w' !! p =
              if bool_decide (p ∈ outputs) && is_file (fs w !! p) then None
              else fs w !! p.
Proof.
  intros Ho Hnd. rewrite (remove_expected_outputs_unfold _ _ _ _ Ho).
  assert (Hspec : forall p,
            bool_decide (p ∈ present_files w outputs) =
            bool_decide (p ∈ outputs) && is_file (fs w !! p)).
  { intros p. destruct (is_file (fs w !! p)) eqn:Ef.
    - rewrite andb_true_r. apply bool_decide_ext.
      rewrite present_files_are_files. tauto.
    - rewrite andb_false_r. apply bool_decide_eq_false_2.
      rewrite present_files_are_files. intros [_ ?]. congruence. }
  destruct (present_files w outputs) as [|m ms] eqn:Ep.
  - exists w. repeat split; auto. intros p. rewrite <- Hspec.
    rewrite bool_decide_eq_false_2; [reflexivity | intros Hin; inversion Hin].
  - set (w0 := mkWorld (fs w) _ (built w)).
    destruct (remove_loop_all (m :: ms) w0 Hnd) as (w' & E & Hb & _ & Hfs).
    { intros p Hp. rewrite <- Ep in Hp. apply present_files_are_files in Hp. tauto. }
    exists w'. split; [exact E|]. split; [exact Hb|]. split; [discriminate|].
    intros p. rewrite Hfs, <- Hspec. reflexivity.
Qed.


(** X7. When a path that is a regular file appears twice among the
    expected outputs, the second removal finds it gone:
    [remove_expected_outputs], and with it setup, stops on a
    FileNotFoundError for a path of the list. *)
Theorem remove_expected_outputs_twice cls self w outputs :
  Stage.get_expected_outputs self = Ok outputs ->
  ~ NoDup (present_files w outputs) ->
  exists p w', p ∈ outputs /\
    Stage.remove_expected_outputs cls self w = (w', Raise (FileNotFoundError p)).
Proof.
  intros Ho Hnd. rewrite (remove_expected_outputs_unfold _ _ _ _ Ho).
  destruct (present_files w outputs) as [|m ms] eqn:Ep.
  - destruct Hnd. constructor.
  - set (w0 := mkWorld (fs w) _ (built w)).
    destruct (remove_loop_twice (m :: ms) w0) as (p & w' & Hp & E).
    + intros p Hp. rewrite <- Ep in Hp. apply present_files_are_files in Hp as [_ Hf].
      unfold w0. simpl. destruct (fs w !! p) as [[|]|]; simpl in *; congruence.
    + by right.
    + exists p, w'. split; [|exact E].
      rewrite <- Ep in Hp. apply present_files_are_files in Hp. tauto.
Qed.

End ExpectedOutputs.

Lemma check_expected_outputs_reports_witness :
  Stage.check_expected_outputs Stage.class_defaults sample_stage quiet =
    (mkWorld ∅ ["missing expected outputs from PreFreeSurfer";
                "file not found: /out/files/T1w/T1w_acpc.nii.gz"] [],
     Ok false) /\
  Stage.check_expected_outputs
    (Stage.deactivate_check_expected_outputs Stage.class_defaults)
    stage_with_null_outputs quiet = (quiet, Ok true) /\
  Stage.check_expected_outputs Stage.class_defaults stage_with_null_outputs quiet
    = (quiet, Raise TypeError).
Proof.
  split; [|split].
  - apply (proj2 (proj2 (check_expected_outputs_reports Stage.class_defaults
                           sample_stage quiet)) [sample_output]); reflexivity.
  - apply (proj1 (check_expected_outputs_reports
                    (Stage.deactivate_check_expected_outputs Stage.class_defaults)
                    stage_with_null_outputs quiet)). reflexivity.
  - apply (proj1 (proj2 (check_expected_outputs_reports Stage.class_defaults
                           stage_with_null_outputs quiet))); reflexivity.
Defined.


Lemma remove_expected_outputs_twice_witness :
  exists p w',
    p ∈ [sample_output; sample_output] /\
    Stage.remove_expected_outputs Stage.class_defaults stage_with_repeated_output
      sample_world = (w', Raise (FileNotFoundError p)).
Proof.
  apply (remove_expected_outputs_twice Stage.class_defaults stage_with_repeated_output
           sample_world [sample_output; sample_output]).
  - reflexivity.
  - vm_compute. intros Hnd. inversion Hnd as [|x l Hx Hl]. apply Hx. left.
Defined.

(** ** Setup and teardown *)

Section SetupTeardown.
Context `{PyRuntime}.

Lemma present_files_same w w' outputs :
  (forall p, p ∈ outputs -> fs w' !! p = fs w !! p) ->
  present_files w' outputs = present_files w outputs.
Proof.
  unfold present_files. induction outputs as [|p r IH]; intros Hs; [reflexivity|].
  simpl. rewrite Hs by left. rewrite IH; [reflexivity|].
  intros q Hq. apply Hs. by right.
Qed.

Lemma setup_at cls self w d n outputs :
  status_at w (Stage.status self) d ->
  dict_get d "num_runs" = Some (VInt n) ->
  Stage.get_expected_outputs self = Ok outputs ->
  Status.file_path (Stage.status self) ∉ outputs ->
  NoDup (present_files w outputs) ->
  exists w',
    Stage.setup cls self w = (w', Ok tt) /\
    status_at w' (Stage.status self)
      (Status.dict_set (Status.dict_set d "num_runs" (VInt (n + 1)))
         "node_status" (VInt Status.states.incomplete)) /\
    built w' = built w /\
    forall p, p <> Status.file_path (Stage.status self) ->
      fs w' !! p = if bool_decide (p ∈ outputs) && is_file (fs w !! p) then None
                   else fs w !! p.
Proof.
  intros Hd Hn Ho Hst Hnd.
  destruct (update_start_run_at _ _ _ _ Hd Hn) as (w1 & E1 & Hat1 & _ & Hb1 & Hfs1).
  assert (Hsame : forall p, p ∈ outputs -> fs w1 !! p = fs w !! p).
  { intros p Hp. apply Hfs1. intros ->. contradiction. }
  assert (Hnd1 : NoDup (present_files w1 outputs))
    by (rewrite (present_files_same _ _ _ Hsame); exact Hnd).
  destruct (remove_expected_outputs_clears cls self w1 outputs Ho Hnd1)
    as (w2 & E2 & Hb2 & _ & Hfs2).
  exists w2. unfold Stage.setup, io_bind. rewrite E1, E2.
  split; [reflexivity|]. split; [|split].
  - unfold status_at. rewrite Hfs2.
    rewrite (bool_decide_eq_false_2 _ Hst). simpl. exact Hat1.
  - congruence.
  - intros p Hp. rewrite Hfs2, (Hfs1 p Hp). reflexivity.
Qed.


Lemma existing_same w w' outputs :
  (forall p, is_Some (fs w' !! p) <-> is_Some (fs w !! p)) ->
  existing w' outputs = existing w outputs.
Proof.
  intros Hs. unfold existing. apply map_ext. intros p.
  apply bool_decide_ext, Hs.
Qed.

Lemma existing_after_write w w' st d d' outputs :
  status_at w st d -> wrote w w' st d' ->
  existing w' outputs = existing w outputs.
Proof.
  intros Hd (Hat & _ & _ & Hfs). apply existing_same. intros p.
  destruct (decide (p = Status.file_path st)) as [->|Hne].
  - unfold status_at in *. rewrite Hd, Hat. split; eauto.
  - by rewrite Hfs.
Qed.

Lemma exit_ok_zero result :
  py_eq_zero (if Stage.all_zero result then VInt 0 else result) = exit_ok result.
Proof. unfold exit_ok. destruct (Stage.all_zero result); reflexivity. Qed.

Lemma teardown_at cls self result w d outputs :
  status_at w (Stage.status self) d ->
  Stage.get_expected_outputs self = Ok outputs ->
  let checked := outputs_ok cls w outputs in
  let passed := exit_ok result && checked in
  exists w',
    Stage.teardown cls self result w =
      (w', if passed then Ok tt
           else Raise (Exception ("error caught during stage: " +:+ Stage.class_name self))) /\
    Status.__getitem__ (Stage.status self) "node_status" w' =
      (w', Ok (VInt (if passed then Status.states.succeeded else Status.states.failed))) /\
    Status.__getitem__ (Stage.status self) "comment" w' =
      (w', Ok (VStr (if checked then
                       if exit_ok result then ""
                       else "stage terminated with exit code " +:+ py_str result
                     else not_created))) /\
    Status.__getitem__ (Stage.status self) "num_runs" w' =
      (w', getitem_key (VDict d) "num_runs") /\
    built w' = built w /\
    forall p, p <> Status.file_path (Stage.status self) -> fs w' !! p = fs w !! p.
Proof.
  intros Hd Ho checked passed. unfold Stage.teardown. cbv zeta.
  rewrite exit_ok_zero.
  set (st := Stage.status self) in *.
  set (s1 := if exit_ok result then Status.states.succeeded else Status.states.failed).
  set (c1 := if exit_ok result then ""
             else "stage terminated with exit code " +:+ py_str result).
  set (d1 := Status.dict_set (Status.dict_set d "node_status" (VInt s1)) "comment" (VStr c1)).
  assert (Hfirst : exists w1,
    (if exit_ok result then Status.update_success st
     else Status.update_failure st
            ("stage terminated with exit code " +:+
             py_str (if Stage.all_zero result then VInt 0 else result))) w = (w1, Ok tt) /\
    wrote w w1 st d1).
  { unfold d1, s1, c1. destruct (exit_ok result) eqn:Ee.
    - apply update_success_at, Hd.
    - assert (Stage.all_zero result = false) as ->
        by (unfold exit_ok in Ee; by apply orb_false_iff in Ee as [? _]).
      apply update_failure_at, Hd. }
  destruct Hfirst as (w1 & E1 & Hw1).
  pose proof (existing_after_write _ _ _ _ _ outputs Hd Hw1) as Hex.
  destruct (check_expected_outputs_spec cls self w1 outputs Ho) as (out & E2).
  assert (Hok : outputs_ok cls w1 outputs = checked)
    by (unfold checked, outputs_ok; by rewrite Hex).
  rewrite Hok in E2.
  set (w2 := mkWorld (fs w1) out (built w1)) in *.
  destruct Hw1 as (Hat1 & _ & Hb1 & Hfs1).
  assert (Hat2 : status_at w2 st d1) by exact Hat1.
  assert (Hnum : getitem_key (VDict d1) "num_runs" = getitem_key (VDict d) "num_runs").
  { unfold d1, getitem_key.
    rewrite (dict_get_set_ne _ "comment" "num_runs") by discriminate.
    by rewrite (dict_get_set_ne _ "node_status" "num_runs") by discriminate. }
  unfold io_bind. rewrite E1, E2.
  destruct checked; cbn [negb]; cbv iota.
  - unfold ret at 1. cbv beta iota.
    destruct (reads_after_outcome _ _ _ _ _ Hat2) as (Hs & Hc & Hn & _).
    rewrite Hs. exists w2. unfold passed. rewrite andb_true_r.
    split.
    + unfold s1. destruct (exit_ok result); reflexivity.
    + rewrite Hs, Hc, Hn. unfold s1, c1.
      repeat split; auto; destruct (exit_ok result); reflexivity.
  - destruct (update_failure_at w2 st d1 not_created Hat2) as (w3 & E3 & Hw3).
    unfold not_created in E3 at 1. rewrite E3.
    destruct Hw3 as (Hat3 & _ & Hb3 & Hfs3).
    destruct (reads_after_outcome _ _ _ _ _ Hat3) as (Hs & Hc & Hn & _).
    rewrite Hs. exists w3. unfold passed. rewrite andb_false_r.
    split; [reflexivity|]. rewrite Hs, Hc, Hn, Hnum.
    split; [reflexivity|]. split; [reflexivity|]. split; [reflexivity|].
    split; [exact (eq_trans Hb3 Hb1)|].
    intros p Hp. rewrite Hfs3 by exact Hp. apply Hfs1, Hp.
Qed.


End SetupTeardown.



(** ** The configuration of a session *)

Section Configuration.
Context `{PyRuntime} `{Helpers}.
Import ParameterSettings.

Ltac bind_ok H x E :=
  match type of H with
  | rbind ?m _ = Ok _ =>
      destruct m as [x|] eqn:E; cbn [rbind] in H; [|discriminate H]
  end.

Ltac in_list :=
  repeat first [ apply list_elem_of_here | apply list_elem_of_further ].


(** *** Splitting and joining paths *)

Lemma str_app_assoc (p q r : string) : (p +:+ q) +:+ r = p +:+ (q +:+ r).
Proof.
  induction p as [|a p IH]; [reflexivity|].
  change (String a ((p +:+ q) +:+ r) = String a (p +:+ (q +:+ r))). by rewrite IH.
Qed.

Lemma fold_join_app sep r p q :
  fold_left (fun acc y => acc +:+ sep +:+ y) r (p +:+ q) =
  p +:+ fold_left (fun acc y => acc +:+ sep +:+ y) r q.
Proof.
  revert q. induction r as [|z r IH]; intros q; [reflexivity|].
  cbn [fold_left]. rewrite (str_app_assoc p q). apply IH.
Qed.

Lemma str_join_cons sep x y r :
  str_join sep (x :: y :: r) = x +:+ sep +:+ str_join sep (y :: r).
Proof.
  unfold str_join. cbn [fold_left]. rewrite fold_join_app.
  f_equal. apply fold_join_app.
Qed.

Lemma plain_cons a s :
  plain (String a s) = true -> Ascii.eqb a "/" = false /\ plain s = true.
Proof.
  unfold plain. simpl. destruct (Ascii.eqb a "/"); simpl; [discriminate|].
  auto.
Qed.

Lemma str_split_plain s : plain s = true -> str_split "/" s = [s].
Proof.
  induction s as [|a s IH]; [reflexivity|].
  intros Hp. apply plain_cons in Hp as [Ha Hs]. simpl. rewrite Ha, (IH Hs).
  reflexivity.
Qed.

Lemma str_split_app s rest :
  plain s = true -> str_split "/" (s +:+ "/" +:+ rest) = s :: str_split "/" rest.
Proof.
  induction s as [|a s IH]; [reflexivity|].
  intros Hp. apply plain_cons in Hp as [Ha Hs].
  change (String a s +:+ "/" +:+ rest) with (String a (s +:+ "/" +:+ rest)).
  cbn [str_split]. rewrite Ha, (IH Hs). reflexivity.
Qed.

Lemma str_split_join l :
  l <> [] -> Forall (fun s => plain s = true) l ->
  str_split "/" (str_join "/" l) = l.
Proof.
  induction l as [|x [|y r] IH]; intros Hne Hp; [congruence| |].
  - apply Forall_inv in Hp. simpl. by apply str_split_plain.
  - rewrite str_join_cons. rewrite str_split_app by (by apply Forall_inv in Hp).
    rewrite IH; [reflexivity | discriminate | by apply Forall_inv_tail in Hp].
Qed.

Lemma drop_last2_app {A} (l : list A) a b : drop_last2 (l ++ [a; b]) = l.
Proof.
  unfold drop_last2. rewrite length_app. simpl.
  replace (length l + 2 - 2)%nat with (length l) by lia.
  apply take_app_length.
Qed.

Lemma init_anatomical_t1w bids_data self w w' self' :
  init_anatomical bids_data self w = (w', Ok self') ->
  getattr self' "t1w" = getitem_key bids_data "t1w".
Proof.
  unfold init_anatomical. cbv zeta. rewrite io_bind_lift.
  destruct (getitem_key bids_data "t1w") as [t1w|]; [|discriminate].
  rewrite io_bind_lift.
  destruct (md <- getitem_key bids_data "t1w_metadata";; get_realdwelltime md)
    as [sp|]; [|discriminate].
  rewrite io_bind_lift.
  destruct (types <- getitem_key bids_data "types";; py_in "T2w" types)
    as [[|]|]; [| |discriminate].
  - rewrite io_bind_lift.
    destruct (getitem_key bids_data "t2w") as [t2w|]; [|discriminate].
    rewrite io_bind_lift.
    destruct (md <- getitem_key bids_data "t2w_metadata";; get_realdwelltime md)
      as [sp2|]; [|discriminate].
    unfold ret. intros [= _ <-].
    repeat rewrite getattr_setattr_ne by discriminate.
    apply getattr_setattr.
  - unfold io_bind, print, raise. discriminate.
Qed.

(** The inference of the distortion correction writes the readout
    direction and the distortion correction fields, nothing else. *)
Lemma infer_frame bids_data self self' name :
  infer_distortion_correction bids_data self = Ok self' ->
  name ∉ "unwarpdir" :: dc_fields ->
  getattr self' name = getattr self name.
Proof.
  intros Hi Hn.
  assert (Hne : forall k, k ∈ "unwarpdir" :: dc_fields -> k <> name)
    by (intros k Hk ->; contradiction).
  unfold dc_fields in Hne.
  unfold infer_distortion_correction in Hi.
  bind_ok Hi md Emd. bind_ok Hi ud Eud. cbv zeta in Hi.
  bind_ok Hi types Et. bind_ok Hi has_epi Eepi. destruct has_epi.
  - bind_ok Hi fm Efm. bind_ok Hi pos Epos. bind_ok Hi pos0 Epos0.
    bind_ok Hi es Ees. bind_ok Hi es' Ees'. bind_ok Hi fn Efn.
    bind_ok Hi fn0 Efn0. bind_ok Hi ped Eped. bind_ok Hi sd Esd.
    injection Hi as <-.
    repeat rewrite getattr_setattr_ne by (apply Hne; in_list). reflexivity.
  - bind_ok Hi grad Egrad. destruct grad.
    + bind_ok Hi fmap0 Efmap. bind_ok Hi keys Ekeys.
      bind_ok Hi m1 Em1. bind_ok Hi m2 Em2.
      bind_ok Hi s1 Es1.
      destruct m2; [|destruct (py_in "magnitude" keys) as [[|]|]; discriminate Es1].
      bind_ok Es1 mag Emag. bind_ok Es1 fm Efm. bind_ok Es1 e2 Ee2.
      bind_ok Es1 e1 Ee1. bind_ok Es1 d Ed. bind_ok Es1 ms Ems. bind_ok Es1 g Eg.
      injection Es1 as <-.
      bind_ok Hi pd Epd. bind_ok Hi s2 Es2.
      destruct pd;
        [|destruct (py_in "phase1" keys) as [[|]|]; try discriminate Es2;
          destruct (py_in "phase2" keys) as [[|]|]; discriminate Es2].
      bind_ok Es2 ph Eph. injection Es2 as <-.
      injection Hi as <-.
      repeat rewrite getattr_setattr_ne by (apply Hne; in_list). reflexivity.
    + injection Hi as <-.
      repeat rewrite getattr_setattr_ne by (apply Hne; in_list). reflexivity.
Qed.

Lemma init_steps bids_data out w w' self' :
  __init__ bids_data out w = (w', Ok self') ->
  exists s0 s1,
    getattr s0 "t1w" = getitem_key bids_data "t1w" /\
    infer_distortion_correction bids_data s0 = Ok s1 /\
    init_paths bids_data out s1 = Ok self'.
Proof.
  unfold __init__, io_bind, lift. intros Hi.
  destruct (init_anatomical bids_data (mk class_attrs ∅) w) as [w1 [s0|e]] eqn:E0;
    [|discriminate Hi].
  destruct (infer_distortion_correction bids_data s0) as [s1|e] eqn:E;
    [|discriminate Hi].
  exists s0, s1. split; [exact (init_anatomical_t1w _ _ _ _ _ E0)|].
  split; [exact E|]. by injection Hi.
Qed.

Lemma init_paths_of bids_data out self self' p :
  init_paths bids_data out self = Ok self' ->
  (t1w <- getattr self "t1w";; getitem_idx t1w 0) = Ok (VStr p) ->
  let session_root := str_join "/" (drop_last2 (str_split "/" p)) in
  getattr self' "path" = Ok (VStr (os_path_join out "files")) /\
  getattr self' "logs" = Ok (VStr (os_path_join out "logs")) /\
  getattr self' "unproc" = Ok (VStr (os_path_join session_root "func")) /\
  getattr self' "sourcedata_root" =
    Ok (VStr (os_path_join (str_join "/" (drop_last2 (str_split "/" session_root)))
                "sourcedata")).
Proof.
  intros Hi Hp. unfold init_paths in Hi. cbv zeta in Hi.
  bind_ok Hi subject Es. bind_ok Hi session Ese. bind_ok Hi t1w Et.
  bind_ok Hi f0 Ef. bind_ok Hi f1 Ef'. injection Hi as <-.
  assert (f1 = p) as ->.
  { repeat rewrite getattr_setattr_ne in Et by discriminate.
    assert (Et' : getattr self "t1w" = Ok t1w).
    { destruct (hasattr self "fmribfcmethod"); [exact Et|].
      by rewrite getattr_setattr_ne in Et by discriminate. }
    rewrite Et' in Hp. cbn [rbind] in Hp. rewrite Ef in Hp.
    injection Hp as ->. by injection Ef'. }
  cbv zeta.
  repeat split;
    repeat first [ apply getattr_setattr
                 | rewrite getattr_setattr_ne by discriminate ].
Qed.

(** X11. Where the inputs and outputs of a session are. The outputs go
    to [files] and [logs] under the output directory. With the first T1w
    image at [root/sub/ses/anat/file], the functional inputs are taken
    from [root/sub/ses/func] and the source data from [root/sourcedata];
    a T1w path without a directory gives the relative paths [func] and
    [sourcedata]. *)
Theorem init_derives_paths bids_data out w w' self' t1w p :
  __init__ bids_data out w = (w', Ok self') ->
  getitem_key bids_data "t1w" = Ok t1w ->
  getitem_idx t1w 0 = Ok (VStr p) ->
  getattr self' "path" = Ok (VStr (os_path_join out "files")) /\
  getattr self' "logs" = Ok (VStr (os_path_join out "logs")) /\
  (forall root sub ses anat file,
     Forall (fun s => plain s = true) (root ++ [sub; ses; anat; file]) ->
     p = str_join "/" (root ++ [sub; ses; anat; file]) ->
     getattr self' "unproc" =
       Ok (VStr (os_path_join (str_join "/" (root ++ [sub; ses])) "func")) /\
     getattr self' "sourcedata_root" =
       Ok (VStr (os_path_join (str_join "/" root) "sourcedata"))) /\
  (plain p = true ->
     getattr self' "unproc" = Ok (VStr "func") /\
     getattr self' "sourcedata_root" = Ok (VStr "sourcedata")).
Proof.
  intros Hi Ht Hp.
  destruct (init_steps _ _ _ _ _ Hi) as (s0 & s1 & Ha & Hb & Hc).
  assert (Hfirst : (t1w <- getattr s1 "t1w";; getitem_idx t1w 0) = Ok (VStr p)).
  { rewrite (infer_frame _ _ _ "t1w" Hb), Ha, Ht; [exact Hp|].
    unfold dc_fields. intros Hin.
    repeat (apply elem_of_cons in Hin as [Hin | Hin]; [discriminate Hin|]).
    inversion Hin. }
  destruct (init_paths_of _ _ _ _ _ Hc Hfirst) as (Hpath & Hlogs & Hu & Hs).
  split; [exact Hpath|]. split; [exact Hlogs|]. split.
  - intros root sub ses anat file Hpl ->.
    assert (Hsplit : drop_last2 (str_split "/" (str_join "/" (root ++ [sub; ses; anat; file])))
                     = (root ++ [sub; ses])%list).
    { rewrite str_split_join; [| by destruct root | exact Hpl].
      replace (root ++ [sub; ses; anat; file])%list
        with ((root ++ [sub; ses]) ++ [anat; file])%list by (by rewrite <- app_assoc).
      apply drop_last2_app. }
    rewrite Hsplit in Hu, Hs. split; [exact Hu|].
    rewrite str_split_join in Hs.
    + by rewrite drop_last2_app in Hs.
    + by destruct root.
    + replace (root ++ [sub; ses; anat; file])%list
        with ((root ++ [sub; ses]) ++ [anat; file])%list in Hpl
        by (by rewrite <- app_assoc).
      by apply Forall_app in Hpl as [? _].
  - intros Hpl. rewrite (str_split_plain _ Hpl) in Hu, Hs. split; [exact Hu | exact Hs].
Qed.

End Configuration.


Lemma init_derives_paths_witness :
  ParameterSettings.getattr (constructed topup_session) "unproc"
    = Ok (VStr "/bids/sub-01/ses-1/func") /\
  ParameterSettings.getattr (constructed topup_session) "sourcedata_root"
    = Ok (VStr "/bids/sourcedata").
Proof.
  assert (Hi : exists w', ParameterSettings.__init__ topup_session "/out/sub-01/ses-1" quiet
                 = (w', Ok (constructed topup_session))).
  { exists (fst (ParameterSettings.__init__ topup_session "/out/sub-01/ses-1" quiet)).
    rewrite <- (proj1 samples_are_constructed). apply surjective_pairing. }
  destruct Hi as (w' & Hi).
  destruct (init_derives_paths topup_session "/out/sub-01/ses-1" quiet w'
              (constructed topup_session)
              (VList [VStr "/bids/sub-01/ses-1/anat/sub-01_ses-1_T1w.nii.gz"])
              "/bids/sub-01/ses-1/anat/sub-01_ses-1_T1w.nii.gz" Hi eq_refl eq_refl)
    as (_ & _ & Hroot & _).
  apply (Hroot [""; "bids"] "sub-01" "ses-1" "anat" "sub-01_ses-1_T1w.nii.gz").
  - repeat constructor.
  - reflexivity.
Defined.

(** ** The parameters of the user *)

Section UserParameters.
Context `{PyRuntime} `{Helpers}.
Import ParameterSettings.

Ltac bind_ok H x E :=
  match type of H with
  | rbind ?m _ = Ok _ =>
      destruct m as [x|] eqn:E; cbn [rbind] in H; [|discriminate H]
  end.

Ltac in_list :=
  repeat first [ apply list_elem_of_here | apply list_elem_of_further ].

Ltac not_in_list :=
  let Hin := fresh "Hin" in
  intros Hin;
  repeat (apply elem_of_cons in Hin as [Hin | Hin]; [discriminate Hin|]);
  inversion Hin.

(** *** The echo spacing *)

Lemma str_rstrip_suffix c s : exists k, s = str_rstrip c s +:+ str_repeat c k.
Proof.
  induction s as [|a s [k IH]]; [by exists 0%nat|].
  cbn [str_rstrip]. destruct (str_rstrip c s) as [|b r] eqn:E.
  - destruct (Ascii.eqb a c) eqn:Ea.
    + apply Ascii.eqb_eq in Ea as ->. exists (S k). rewrite IH at 1. reflexivity.
    + exists k. rewrite IH at 1. reflexivity.
  - exists k. rewrite IH at 1. reflexivity.
Qed.

Lemma str_endswith_char_cons c a b r :
  str_endswith_char c (String a (String b r)) = str_endswith_char c (String b r).
Proof.
  unfold str_endswith_char. cbn [String.length].
  rewrite !Nat.sub_succ, !Nat.sub_0_r. reflexivity.
Qed.

Lemma str_rstrip_end c s : str_endswith_char c (str_rstrip c s) = false.
Proof.
  induction s as [|a s IH]; [reflexivity|].
  cbn [str_rstrip]. destruct (str_rstrip c s) as [|b r] eqn:E.
  - destruct (Ascii.eqb a c) eqn:Ea; [reflexivity|].
    unfold str_endswith_char. simpl. by rewrite Ea.
  - by rewrite str_endswith_char_cons.
Qed.

(** X12. The echo spacing of a session with spin echo field maps is the
    effective echo spacing of the first positive field map, written with
    twelve decimals and then without its trailing zeros. *)
Theorem echospacing_without_trailing_zeros bids_data out w w' self' types es :
  __init__ bids_data out w = (w', Ok self') ->
  getitem_key bids_data "types" = Ok types ->
  py_in "epi" types = Ok true ->
  get_from bids_data [K "fmap_metadata"; K "positive"; I 0; K "EffectiveEchoSpacing"]
    = Ok es ->
  exists x s k,
    to_float es = Ok x /\
    getattr self' "echospacing" = Ok (VStr s) /\
    fmt_12f x = s +:+ str_repeat "0" k /\
    str_endswith_char "0" s = false.
Proof.
  intros Hi Ht Hepi Hes.
  destruct (init_ok _ _ _ _ _ Hi) as (s0 & s1 & Hinf & Hpaths).
  rewrite (init_paths_keeps _ _ _ _ "echospacing" Hpaths)
    by (unfold dc_fields; in_list).
  unfold infer_distortion_correction in Hinf.
  bind_ok Hinf md Emd. bind_ok Hinf ud Eud. cbv zeta in Hinf.
  rewrite Ht in Hinf. cbn [rbind] in Hinf. rewrite Hepi in Hinf. cbn [rbind] in Hinf.
  bind_ok Hinf fm Efm. bind_ok Hinf pos Epos. bind_ok Hinf pos0 Epos0.
  bind_ok Hinf es0 Ees. bind_ok Hinf es' Ees'. bind_ok Hinf fn Efn.
  bind_ok Hinf fn0 Efn0. bind_ok Hinf ped Eped. bind_ok Hinf sd Esd.
  injection Hinf as <-.
  unfold get_from, getitem in Hes. rewrite Efm in Hes. cbn [rbind] in Hes.
  rewrite Epos in Hes. cbn [rbind] in Hes. rewrite Epos0 in Hes. cbn [rbind] in Hes.
  rewrite Ees in Hes. cbn [rbind] in Hes. injection Hes as ->.
  unfold py_fmt_12f in Ees'. destruct (to_float es) as [x|] eqn:Ex; [|discriminate Ees'].
  cbn [rbind] in Ees'. injection Ees' as <-.
  destruct (str_rstrip_suffix "0" (fmt_12f x)) as [k Hk].
  exists x, (str_rstrip "0" (fmt_12f x)), k.
  split; [reflexivity|]. split; [|split; [exact Hk | apply str_rstrip_end]].
  repeat rewrite getattr_setattr_ne by discriminate.
  apply getattr_setattr.
Qed.

(** *** What the parameters of the user can change *)

Lemma same_but_refl names self : same_but names self self.
Proof. by split. Qed.

Lemma same_but_trans names s1 s2 s3 :
  same_but names s1 s2 -> same_but names s2 s3 -> same_but names s1 s3.
Proof.
  intros [Hk1 Hi1] [Hk2 Hi2]. split; [congruence|].
  intros name Hn. rewrite Hi2, Hi1; auto.
Qed.

Lemma same_but_setattr names self self' k v :
  k ∈ names -> same_but names self self' -> same_but names self (setattr self' k v).
Proof.
  intros Hk [Hkl Hin]. split; [exact Hkl|].
  intros name Hn. unfold setattr. simpl.
  rewrite lookup_insert_ne by (intros ->; contradiction). by apply Hin.
Qed.

Lemma same_but_weaken names names' self self' :
  (forall x, x ∈ names -> x ∈ names') ->
  same_but names self self' -> same_but names' self self'.
Proof.
  intros Hs [Hk Hi]. split; [exact Hk|]. intros name Hn. apply Hi.
  intros Hin. apply Hn, Hs, Hin.
Qed.

Lemma same_but_getattr names self self' name :
  same_but names self self' -> name ∉ names -> getattr self' name = getattr self name.
Proof. intros [Hk Hi] Hn. unfold getattr. by rewrite Hk, (Hi _ Hn). Qed.

Ltac frame :=
  repeat first
    [ apply same_but_refl
    | apply same_but_setattr; [unfold other_settable; in_list|]
    | match goal with
      | |- same_but _ _ (if ?b then _ else _) => destruct b
      | |- same_but _ _ (match ?v with _ => _ end) => destruct v
      end
    | progress cbv beta iota
    | progress unfold Run.when_not_none, set_anat_only, set_aseg,
        set_atropos_mask_method, set_atropos_range, set_bandstop_filter,
        set_hypernormalization_method, set_jlf_method, set_max_cortical_thickness,
        set_smoothing_iterations, set_subcortical_map_method, set_t1_brain_mask,
        set_templates, turn_off_cropping, set_mc_frame, __setitem__ ].

(** One step of the sequence: the next value is named and shown to
    differ from the current one on the attributes of the user only. *)
Ltac step_let H s Hs cur :=
  lazymatch type of H with
  | (let x := ?v in @?b x) = ?r =>
      pose (s := v); change (b s = r) in H; cbv beta in H;
      assert (Hs : same_but other_settable cur s) by (subst s; frame);
      clearbody s
  end.

(** The same for a step that may raise. *)
Ltac step_bind H x E :=
  lazymatch type of H with
  | rbind ?m ?k = ?r =>
      destruct m as [x|] eqn:E; [change (k x = r) in H; cbv beta in H | discriminate H]
  end.

Lemma set_user_parameters_steps a spec spec' :
  Run.set_user_parameters a spec = Ok spec' ->
  exists s5,
    same_but other_settable spec s5 /\
    same_but other_settable
      (Run.when_not_none (Run.dcmethod a) (set_dcmethod (Run.dcmethod a)) s5) spec'.
Proof.
  intros Hi. cbv beta delta [Run.set_user_parameters] in Hi.
  step_let Hi s1 Hs1 spec.
  step_let Hi s2 Hs2 s1.
  step_let Hi s3 Hs3 s2.
  step_bind Hi s4 E4.
  assert (Hs4 : same_but other_settable s3 s4).
  { destruct (negb (Run.is_none (Run.atropos_range a))); [|injection E4 as <-; frame].
    bind_ok E4 l El. destruct l as [|lo [|hi [|? ?]]]; try discriminate E4.
    injection E4 as <-. frame. }
  step_bind Hi s5 E5.
  assert (Hs5 : same_but other_settable s4 s5).
  { destruct (negb (Run.is_none (Run.bandstop_params a))); [|injection E5 as <-; frame].
    bind_ok E5 l El. destruct l as [|lo [|hi [|ft [|? ?]]]]; try discriminate E5;
      injection E5 as <-; frame. }
  exists s5. split.
  { eapply same_but_trans; [|exact Hs5]. eapply same_but_trans; [|exact Hs4].
    eapply same_but_trans; [|exact Hs3]. eapply same_but_trans; [exact Hs1 | exact Hs2]. }
  lazymatch type of Hi with
  | (let x := ?v in @?b x) = ?r =>
      pose (s6 := v); change (b s6 = r) in Hi; cbv beta in Hi
  end.
  fold s6. clearbody s6.
  step_let Hi s7 Hs7 s6.
  step_let Hi s8 Hs8 s7.
  step_let Hi s9 Hs9 s8.
  step_let Hi s10 Hs10 s9.
  step_let Hi s11 Hs11 s10.
  step_let Hi s12 Hs12 s11.
  step_bind Hi s13 E13.
  assert (Hs13 : same_but other_settable s12 s13).
  { bind_ok E13 t1 Et1. bind_ok E13 t2 Et2.
    destruct (t1 ++ t2 ++ [Run.multi_template_dir a; Run.multi_masking_dir a])%list
      as [|a1 [|a2 [|a3 [|a4 [|a5 [|a6 [|? ?]]]]]]]; try discriminate E13.
    injection E13 as <-. frame. }
  step_let Hi s14 Hs14 s13.
  step_let Hi s15 Hs15 s14.
  injection Hi as <-.
  eapply same_but_trans; [exact Hs7|]. eapply same_but_trans; [exact Hs8|].
  eapply same_but_trans; [exact Hs9|]. eapply same_but_trans; [exact Hs10|].
  eapply same_but_trans; [exact Hs11|]. eapply same_but_trans; [exact Hs12|].
  eapply same_but_trans; [exact Hs13|]. eapply same_but_trans; [exact Hs14 | exact Hs15].
Qed.

(** X13. The parameters of the user never change the defaults of the
    class, and on the instance only the attributes they are stored in. A
    method of distortion correction given by the user replaces the one
    inferred from the files and nothing else: the field maps, the echo
    spacing and the other fields stay those of the inferred method. *)
Theorem user_parameters_frame a spec spec' :
  Run.set_user_parameters a spec = Ok spec' ->
  same_but user_settable spec spec' /\
  getattr spec' "dcmethod" =
    (if py_truthy (Run.dcmethod a) then Ok (Run.dcmethod a)
     else getattr spec "dcmethod") /\
  forall name, name ∈ dc_inferred -> getattr spec' name = getattr spec name.
Proof.
  intros Hi. destruct (set_user_parameters_steps _ _ _ Hi) as (s5 & H5 & H6).
  assert (Hdc : same_but user_settable s5
                  (Run.when_not_none (Run.dcmethod a) (set_dcmethod (Run.dcmethod a)) s5)).
  { unfold Run.when_not_none, set_dcmethod.
    destruct (negb (Run.is_none (Run.dcmethod a))); [|apply same_but_refl].
    destruct (py_truthy (Run.dcmethod a)); [|apply same_but_refl].
    apply same_but_setattr; [left | apply same_but_refl]. }
  assert (Hsub : forall x, x ∈ other_settable -> x ∈ user_settable)
    by (intros x Hx; by right).
  assert (Hall : same_but user_settable spec spec').
  { eapply same_but_trans; [exact (same_but_weaken _ _ _ _ Hsub H5)|].
    eapply same_but_trans; [exact Hdc | exact (same_but_weaken _ _ _ _ Hsub H6)]. }
  split; [exact Hall|]. split.
  - rewrite (same_but_getattr _ _ _ "dcmethod" H6)
      by (unfold other_settable; not_in_list).
    unfold Run.when_not_none, set_dcmethod.
    assert (Hsame : getattr s5 "dcmethod" = getattr spec "dcmethod")
      by (apply (same_but_getattr _ _ _ _ H5); unfold other_settable; not_in_list).
    destruct (Run.dcmethod a) as [| | | | | |] eqn:Ed; cbn [Run.is_none is_none negb];
      try (destruct (py_truthy _); [apply getattr_setattr | exact Hsame]).
    exact Hsame.
  - intros name Hn. apply (same_but_getattr _ _ _ _ Hall).
    unfold dc_inferred in Hn.
    repeat (apply elem_of_cons in Hn as [-> | Hn];
            [unfold user_settable, other_settable; not_in_list|]).
    inversion Hn.
Qed.

(** *** The templates *)

Lemma py_iter_raises v e : py_iter v = Raise e -> e = TypeError.
Proof. destruct v; simpl; congruence. Qed.

Lemma set_user_parameters_templates a spec :
  Run.t1_study_template a = VNone \/ Run.t2_study_template a = VNone ->
  Run.set_user_parameters a spec = Raise TypeError.
Proof.
  intros Hn. unfold Run.set_user_parameters. cbv zeta.
  match goal with
  | |- rbind ?m _ = _ => destruct m as [s4|e] eqn:E4
  end; cbn [rbind].
  2:{ destruct (negb (Run.is_none (Run.atropos_range a))); [|discriminate E4].
      destruct (py_iter (Run.atropos_range a)) as [l|e'] eqn:El; cbn [rbind] in E4.
      - destruct l as [|lo [|hi [|? ?]]]; congruence.
      - apply py_iter_raises in El. congruence. }
  match goal with
  | |- rbind ?m _ = _ => destruct m as [s5|e] eqn:E5
  end; cbn [rbind].
  2:{ destruct (negb (Run.is_none (Run.bandstop_params a))); [|discriminate E5].
      destruct (py_iter (Run.bandstop_params a)) as [l|e'] eqn:El; cbn [rbind] in E5.
      - destruct l as [|lo [|hi [|ft [|? ?]]]]; congruence.
      - apply py_iter_raises in El. congruence. }
  match goal with
  | |- rbind (rbind ?m _) _ = _ => destruct m as [t1|e] eqn:E1
  end; cbn [rbind].
  2:{ apply py_iter_raises in E1. by subst. }
  destruct Hn as [Hn | Hn]; [rewrite Hn in E1; discriminate E1|].
  rewrite Hn. reflexivity.
Qed.

(** *** Actions that only print *)

Lemma only_printed_trans w1 w2 w3 :
  only_printed w1 w2 -> only_printed w2 w3 -> only_printed w1 w3.
Proof. intros [? ?] [? ?]. split; congruence. Qed.

Lemma quiet_bind {A B} (m : io A) (k : A -> io B) :
  quiet_io m -> (forall x, quiet_io (k x)) -> quiet_io (io_bind m k).
Proof.
  intros Hm Hk w. unfold io_bind. specialize (Hm w).
  destruct (m w) as [w1 [x|e]]; simpl in *; [|exact Hm].
  eapply only_printed_trans; [exact Hm | apply Hk].
Qed.

Lemma quiet_lift {A} (r : result A) : quiet_io (lift r).
Proof. intros w. apply only_printed_refl. Qed.

Lemma quiet_ret {A} (x : A) : quiet_io (ret x).
Proof. intros w. apply only_printed_refl. Qed.

Lemma quiet_raise {A} e : quiet_io (@raise A e).
Proof. intros w. apply only_printed_refl. Qed.

Lemma quiet_print s : quiet_io (print s).
Proof. intros w. by split. Qed.

Ltac quiet :=
  repeat first
    [ apply quiet_lift | apply quiet_ret | apply quiet_raise | apply quiet_print
    | apply quiet_bind; [|intros ?]
    | match goal with
      | |- quiet_io (if ?b then _ else _) => destruct b
      | |- quiet_io (match ?v with _ => _ end) => destruct v
      end
    | progress cbv beta iota zeta ].

Lemma quiet_init bids_data out : quiet_io (__init__ bids_data out).
Proof. unfold __init__, init_anatomical. quiet. Qed.

Variable here : string.
Variable env : gmap string string.

Lemma quiet_configure session output_dir a : quiet_io (Run.configure session output_dir a).
Proof. unfold Run.configure. quiet. Qed.

Lemma configure_raises session output_dir a w :
  (forall spec, Run.set_user_parameters a spec = Raise TypeError) ->
  exists w' e, Run.configure session output_dir a w = (w', Raise e) /\
               only_printed w w'.
Proof.
  intros Hr. pose proof (quiet_configure session output_dir a w) as Hq.
  destruct (Run.configure session output_dir a w) as [w' [c|e]] eqn:E;
    [|exists w', e; auto].
  exfalso. clear Hq. unfold Run.configure in E. rewrite !io_bind_lift in E.
  destruct (subject <- getitem_key session "subject";; _) as [out_dir|]; [|discriminate E].
  rewrite io_bind_lift in E.
  destruct (validate_config session (Run.anat_only a)) as [[]|]; [|discriminate E].
  rewrite io_bind_lift in E.
  destruct (getitem_key session "types") as [modes|]; [|discriminate E].
  rewrite io_bind_lift in E.
  destruct (py_in "T1w" modes) as [run_anat|]; [|discriminate E].
  rewrite io_bind_lift in E.
  destruct (b <- py_in "bold" modes;; _) as [run_func|]; [|discriminate E].
  unfold io_bind at 1 in E.
  destruct (__init__ session out_dir w) as [w1 [s|]]; [|discriminate E].
  rewrite io_bind_lift, Hr in E. discriminate E.
Qed.

(** X14. The templates of the signature of [interface] are [None],
    which cannot be unpacked: with either study template left at [None]
    the parameters cannot be set, and the session fails before a stage is
    constructed or a file touched. The command line gives a pair
    instead. *)
Theorem study_template_none_fails session output_dir a w :
  Run.t1_study_template a = VNone \/ Run.t2_study_template a = VNone ->
  (forall spec, Run.set_user_parameters a spec = Raise TypeError) /\
  exists w' e,
    Run.interface_session here env session output_dir a w = (w', Raise e) /\
    built w' = built w /\
    fs w' = fs w.
Proof.
  intros Hn.
  assert (Hr : forall spec, Run.set_user_parameters a spec = Raise TypeError)
    by (intros spec; by apply set_user_parameters_templates).
  split; [exact Hr|].
  destruct (configure_raises session output_dir a w Hr) as (w' & e & E & Hfs & Hb).
  exists w', e. unfold Run.interface_session. unfold io_bind at 1. rewrite E. auto.
Qed.

End UserParameters.

Lemma echospacing_without_trailing_zeros_witness :
  exists x s k,
    to_float (VFloat 0.00051%float) = Ok x /\
    ParameterSettings.getattr (constructed topup_session) "echospacing" = Ok (VStr s) /\
    fmt_12f x = s +:+ str_repeat "0" k /\
    str_endswith_char "0" s = false.
Proof.
  assert (Hi : exists w', ParameterSettings.__init__ topup_session "/out/sub-01/ses-1" quiet
                 = (w', Ok (constructed topup_session))).
  { exists (fst (ParameterSettings.__init__ topup_session "/out/sub-01/ses-1" quiet)).
    rewrite <- (proj1 samples_are_constructed). apply surjective_pairing. }
  destruct Hi as (w' & Hi).
  apply (echospacing_without_trailing_zeros topup_session "/out/sub-01/ses-1" quiet w'
           (constructed topup_session) (types_of ["T1w"; "T2w"; "bold"; "epi"])
           (VFloat 0.00051%float) Hi); reflexivity.
Defined.

Lemma user_parameters_frame_witness :
  exists spec',
    Run.set_user_parameters fieldmap_by_user (constructed topup_session) = Ok spec' /\
    ParameterSettings.getattr spec' "dcmethod" = Ok (VStr "FIELDMAP") /\
    ParameterSettings.getattr spec' "fmapmag"
      = ParameterSettings.getattr (constructed topup_session) "fmapmag".
Proof.
  assert (E : is_ok (Run.set_user_parameters fieldmap_by_user (constructed topup_session))
              = true) by (vm_compute; reflexivity).
  destruct (Run.set_user_parameters fieldmap_by_user (constructed topup_session))
    as [spec'|] eqn:E'; [|discriminate E].
  destruct (user_parameters_frame _ _ _ E') as (_ & Hd & Hk).
  exists spec'. split; [reflexivity|]. split; [exact Hd|].
  apply Hk. left.
Defined.

Lemma study_template_none_fails_witness :
  Run.set_user_parameters Run.default_args fresh = Raise TypeError /\
  exists w' e,
    Run.interface_session "/opt/pipeline/app" env_a topup_session "/out" Run.default_args
      installed = (w', Raise e) /\
    built w' = built installed /\
    fs w' = fs installed.
Proof.
  destruct (study_template_none_fails "/opt/pipeline/app" env_a topup_session "/out"
              Run.default_args installed (or_introl eq_refl)) as (Hr & Hrun).
  split; [apply Hr | exact Hrun].
Defined.

(** ** The stages that run *)

Section Selection.
Context {A : Type} (name : A -> string).

Ltac bind_ok H x E :=
  match type of H with
  | rbind ?m _ = Ok _ =>
      destruct m as [x|] eqn:E; cbn [rbind] in H; [|discriminate H]
  end.

(** X15. The stages that run are a run of consecutive stages of the
    pipeline, in its order: whatever the selector, nothing is reordered,
    repeated or added. Without a selector they are all the stages. *)
Theorem slice_order_keeps_pipeline_order order stages l :
  Run.slice_order name order stages = Ok l ->
  (exists before after, order = (before ++ l ++ after)%list) /\
  (py_truthy stages = false -> l = order).
Proof.
  intros Hs. unfold Run.slice_order in Hs.
  destruct (py_truthy stages).
  - split; [|discriminate].
    bind_ok Hs s Es. bind_ok Hs i Ei. bind_ok Hs j Ej. injection Hs as <-.
    unfold Run.slice.
    exists (firstn i order), (skipn (j - i) (skipn i order)).
    by rewrite firstn_skipn, firstn_skipn.
  - injection Hs as <-. split; [|reflexivity].
    exists [], []. by rewrite app_nil_r.
Qed.

Lemma str_find_app start rest :
  str_find ":" start = None ->
  str_find ":" (start +:+ ":" +:+ rest) = Some (String.length start).
Proof.
  induction start as [|a s IH]; [reflexivity|].
  change (String a s +:+ ":" +:+ rest) with (String a (s +:+ ":" +:+ rest)).
  cbn [str_find String.length]. destruct (Ascii.eqb a ":"); [discriminate|].
  destruct (str_find ":" s); [discriminate|]. intros _. by rewrite IH.
Qed.

Lemma str_take_app start rest : str_take (String.length start) (start +:+ rest) = start.
Proof.
  induction start as [|a s IH]; [by destruct rest|].
  change (String a s +:+ rest) with (String a (s +:+ rest)).
  cbn [str_take String.length]. by rewrite IH.
Qed.

Lemma str_drop_app start rest :
  str_drop (S (String.length start)) (start +:+ ":" +:+ rest) = rest.
Proof.
  induction start as [|a s IH]; [by destruct rest|].
  change (String a s +:+ ":" +:+ rest) with (String a (s +:+ ":" +:+ rest)).
  cbn [String.length]. change (str_drop (S (S (String.length s))) (String a (s +:+ ":" +:+ rest)))
    with (str_drop (S (String.length s)) (s +:+ ":" +:+ rest)). exact IH.
Qed.

Lemma index_of_lookup x names :
  Run.name_in x names = true -> names !! Run.index_of x names = Some x.
Proof.
  unfold Run.name_in. induction names as [|n r IH]; [discriminate|].
  cbn [existsb Run.index_of]. rewrite (String.eqb_sym x n).
  destruct (String.eqb n x) eqn:E.
  - apply String.eqb_eq in E as ->. reflexivity.
  - intros Hr. apply IH, Hr.
Qed.

Lemma slice_lookup {B} (l : list B) i j k :
  (i + k <= j)%nat -> Run.slice l i (S j) !! k = l !! (i + k)%nat.
Proof.
  intros Hk. unfold Run.slice.
  rewrite lookup_take_lt by lia. apply lookup_drop.
Qed.

Lemma slice_length {B} (l : list B) i j x :
  l !! j = Some x -> (i <= j)%nat -> length (Run.slice l i (S j)) = (S j - i)%nat.
Proof.
  intros Hj Hij. apply lookup_lt_Some in Hj. unfold Run.slice.
  rewrite length_take, length_drop. lia.
Qed.

(** X16. A selector [start:stop] of two names of the pipeline gives the
    stages from the first stage called [start] to the first stage called
    [stop], both included. When [stop] comes before [start] it gives no
    stage at all, and no error. *)
Theorem slice_order_range order start stop :
  str_find ":" start = None ->
  start <> "" ->
  Run.name_in start (map name order) = true ->
  Run.name_in stop (map name order) = true ->
  let i := Run.index_of start (map name order) in
  let j := Run.index_of stop (map name order) in
  let l := Run.slice order i (S j) in
  Run.slice_order name order (VStr (start +:+ ":" +:+ stop)) = Ok l /\
  ((j < i)%nat -> l = []) /\
  ((i <= j)%nat ->
     length l = (S j - i)%nat /\
     head (map name l) = Some start /\
     last (map name l) = Some stop).
Proof.
  intros Hc Hne Hi Hj i j l.
  assert (Hlen : (String.length start =? 0)%nat = false)
    by (destruct start; [congruence | reflexivity]).
  split; [|split].
  - unfold Run.slice_order.
    replace (py_truthy (VStr (start +:+ ":" +:+ stop))) with true
      by (destruct start; [congruence | reflexivity]).
    cbn [rbind]. rewrite (str_find_app _ _ Hc), str_take_app, str_drop_app.
    rewrite Hlen. cbn [negb]. rewrite Hi. cbn [rbind]. rewrite Hj. reflexivity.
  - intros Hlt. unfold l, Run.slice.
    replace (S j - i)%nat with 0%nat by lia. reflexivity.
  - intros Hle.
    pose proof (index_of_lookup _ _ Hi) as Hli. fold i in Hli.
    pose proof (index_of_lookup _ _ Hj) as Hlj. fold j in Hlj.
    assert (Hmap : map name l = Run.slice (map name order) i (S j)).
    { unfold l, Run.slice. by rewrite skipn_map, firstn_map. }
    assert (Hl : length (map name l) = (S j - i)%nat)
      by (rewrite Hmap; exact (slice_length _ _ _ _ Hlj Hle)).
    split; [by rewrite length_map in Hl|]. split.
    + rewrite head_lookup, Hmap, slice_lookup by lia.
      by rewrite Nat.add_0_r.
    + rewrite last_lookup, Hl, Hmap, slice_lookup by lia.
      replace (i + pred (S j - i))%nat with j by lia. exact Hlj.
Qed.

End Selection.

Lemma slice_order_keeps_pipeline_order_witness :
  exists before after, ABCD = (before ++ ["B"; "C"] ++ after)%list.
Proof.
  apply (slice_order_keeps_pipeline_order id ABCD (VStr "B:C") ["B"; "C"]).
  reflexivity.
Defined.

Lemma slice_order_range_witness :
  Run.slice_order id ABCD (VStr "C:B") = Ok [] /\
  Run.slice_order id ABCD (VStr "B:C") = Ok ["B"; "C"].
Proof.
  split.
  - apply (slice_order_range id ABCD "C" "B"); [reflexivity | discriminate | reflexivity..].
  - apply (slice_order_range id ABCD "B" "C"); [reflexivity | discriminate | reflexivity..].
Defined.

(** ** The stage objects of a session *)

Section Construction.
Context `{PyRuntime} `{Helpers}.
Variable here : string.
Variable env : gmap string string.

Lemma bind_inv {A B} (m : io A) (k : A -> io B) w w' b :
  io_bind m k w = (w', Ok b) ->
  exists w1 a, m w = (w1, Ok a) /\ k a w1 = (w', Ok b).
Proof.
  unfold io_bind. destruct (m w) as [w1 [a|e]]; [|discriminate]. eauto.
Qed.

Lemma keeps_built_bind {A B} (m : io A) (k : A -> io B) :
  keeps_built m -> (forall x, keeps_built (k x)) -> keeps_built (io_bind m k).
Proof.
  intros Hm Hk w. unfold io_bind. specialize (Hm w).
  destruct (m w) as [w1 [x|e]]; simpl in *; [|exact Hm].
  by rewrite Hk.
Qed.

Lemma keeps_built_lift {A} (r : result A) : keeps_built (lift r).
Proof. by intros w. Qed.

Lemma keeps_built_ret {A} (x : A) : keeps_built (ret x).
Proof. by intros w. Qed.

Lemma keeps_built_raise {A} e : keeps_built (@raise A e).
Proof. by intros w. Qed.

Lemma keeps_built_print s : keeps_built (print s).
Proof. by intros w. Qed.

Lemma keeps_built_exists p : keeps_built (os_path_exists p).
Proof. by intros w. Qed.

Lemma keeps_built_isdir p : keeps_built (os_path_isdir p).
Proof. by intros w. Qed.

Lemma keeps_built_makedirs p : keeps_built (os_makedirs p).
Proof. intros w. unfold os_makedirs. by destruct (fs w !! p). Qed.

Lemma keeps_built_load p : keeps_built (json_load p).
Proof. intros w. unfold json_load. by destruct (fs w !! p) as [[|[|]]|]. Qed.

Lemma keeps_built_dump p v : keeps_built (json_dump p v).
Proof. intros w. unfold json_dump. by destruct (fs w !! p) as [[|]|]. Qed.

Ltac keeps :=
  repeat first
    [ apply keeps_built_lift | apply keeps_built_ret | apply keeps_built_raise
    | apply keeps_built_print | apply keeps_built_exists | apply keeps_built_isdir
    | apply keeps_built_makedirs | apply keeps_built_load | apply keeps_built_dump
    | apply keeps_built_bind; [|intros ?]
    | match goal with
      | |- keeps_built (if ?b then _ else _) => destruct b
      | |- keeps_built (match ?v with _ => _ end) => destruct v
      end
    | progress cbv beta iota zeta ].

Lemma keeps_built_log_dir kw n : keeps_built (Stage._get_log_dir kw n).
Proof. unfold Stage._get_log_dir. keeps. Qed.

Lemma keeps_built_status folder : keeps_built (Status.__init__ folder).
Proof. unfold Status.__init__, Status._write_dict. keeps. Qed.

Lemma keeps_built_direction test config direction idx :
  keeps_built (IntendedFor.direction_index test config direction idx).
Proof. unfold IntendedFor.direction_index. keeps. Qed.

Lemma keeps_built_sefmaps test config :
  keeps_built (IntendedFor._get_intended_sefmaps test config).
Proof.
  unfold IntendedFor._get_intended_sefmaps, IntendedFor.intended_idx.
  repeat first [ apply keeps_built_direction | apply keeps_built_lift
               | apply keeps_built_ret | apply keeps_built_bind; [|intros ?] ].
Qed.

Lemma keeps_built_eq {A} (m : io A) w w' r :
  keeps_built m -> m w = (w', r) -> built w' = built w.
Proof. intros Hk E. specialize (Hk w). by rewrite E in Hk. Qed.

(** The constructor of [Stage] builds one object, of the class named. *)
Lemma stage_init_constructs n : constructs n (Stage.__init__ here env n).
Proof.
  intros c w w' c' s Hc. unfold Stage.__init__ in Hc.
  apply bind_inv in Hc as (w1 & p & E1 & Hc).
  apply bind_inv in Hc as (w2 & log_dir & E2 & Hc).
  apply bind_inv in Hc as (w3 & st & E3 & Hc).
  apply bind_inv in Hc as (w4 & jso & E4 & Hc).
  apply bind_inv in Hc as (w5 & spec & E5 & Hc).
  apply bind_inv in Hc as (w6 & [] & E6 & Hc).
  unfold ret in Hc. injection Hc as <- _ <-.
  split; [reflexivity|].
  unfold Stage.mark_built in E6. injection E6 as <-. simpl.
  rewrite (keeps_built_eq _ _ _ _ (keeps_built_lift _) E5).
  rewrite (keeps_built_eq _ _ _ _ (keeps_built_load _) E4).
  rewrite (keeps_built_eq _ _ _ _ (keeps_built_status _) E3).
  rewrite (keeps_built_eq _ _ _ _ (keeps_built_log_dir _ _) E2).
  rewrite (keeps_built_eq _ _ _ _ (keeps_built_lift _) E1).
  reflexivity.
Qed.

(** What follows the constructor of [Stage] in the constructor of a
    subclass sets items of the kwargs. *)
Lemma constructs_then n (ctor : ParameterSettings.t -> io (ParameterSettings.t * Stage.t))
    (rest : ParameterSettings.t * Stage.t -> io (ParameterSettings.t * Stage.t)) :
  constructs n ctor ->
  (forall p, keeps_built (rest p)) ->
  (forall p w w' c' s, rest p w = (w', Ok (c', s)) ->
     Stage.class_name s = Stage.class_name (snd p)) ->
  constructs n (fun c => io_bind (ctor c) rest).
Proof.
  intros Hc Hk Hn c w w' c' s E.
  apply bind_inv in E as (w1 & [c1 s1] & E1 & E2).
  destruct (Hc _ _ _ _ _ E1) as [Hname Hb].
  split.
  - rewrite (Hn _ _ _ _ _ E2). exact Hname.
  - by rewrite (keeps_built_eq _ _ _ _ (Hk _) E2).
Qed.

Lemma pre_free_surfer_constructs :
  constructs "PreFreeSurfer" (PreFreeSurfer.__init__ here env).
Proof.
  apply (constructs_then "PreFreeSurfer" (Stage.__init__ here env "PreFreeSurfer")).
  - apply stage_init_constructs.
  - intros p. keeps.
  - intros p w w' c' s E. cbv zeta in E.
    apply bind_inv in E as (w1 & t1 & _ & E).
    apply bind_inv in E as (w2 & t2 & _ & E).
    apply bind_inv in E as (w3 & dc & _ & E).
    apply bind_inv in E as (w4 & self & E4 & E).
    unfold ret in E. injection E as _ _ <-. cbn [Stage.set_kwarg Stage.class_name].
    destruct (is_str "TOPUP" dc).
    + apply bind_inv in E4 as (w5 & pn & _ & E4).
      unfold ret in E4. by injection E4 as _ <-.
    + unfold ret in E4. by injection E4 as _ <-.
Qed.

Lemma free_surfer_constructs :
  constructs "FreeSurfer" (FreeSurfer.__init__ here env).
Proof.
  apply (constructs_then "FreeSurfer" (Stage.__init__ here env "FreeSurfer")).
  - apply stage_init_constructs.
  - intros p. keeps.
  - intros p w w' c' s E. cbv zeta in E.
    repeat (apply bind_inv in E as (? & ? & _ & E)).
    unfold ret in E. by injection E as _ _ <-.
Qed.

Lemma with_input_json_constructs n input_json :
  constructs n (fun c => OtherStages.with_input_json here n env c input_json).
Proof.
  apply (constructs_then n (Stage.__init__ here env n)).
  - apply stage_init_constructs.
  - intros p. keeps.
  - intros p w w' c' s E. unfold ret in E. by injection E as _ _ <-.
Qed.

Lemma construct_appends n ctor acc w w' acc' :
  constructs n ctor ->
  Run.construct ctor acc w = (w', Ok acc') ->
  map Stage.class_name (snd acc') = (map Stage.class_name (snd acc) ++ [n])%list /\
  built w' = (built w ++ [n])%list.
Proof.
  intros Hc E. unfold Run.construct in E.
  apply bind_inv in E as (w1 & [c1 s1] & E1 & E).
  unfold ret in E. injection E as <- <-.
  destruct (Hc _ _ _ _ _ E1) as [Hn Hb]. simpl.
  by rewrite map_app, Hb; simpl; rewrite Hn.
Qed.

(** X17. The stage objects of a session, when all can be constructed:
    the three anatomical stages when there is a T1w image, the three
    functional stages when there is a functional run and the session is
    not restricted to anatomy, the executive summary in every case, then
    the cleaning and the file mapper stages when their JSON is given;
    each constructor has run once, in that order. *)
Theorem create_pipelines_order a session_spec run_anat run_func w w' spec' order :
  Run.create_pipelines here env a session_spec run_anat run_func w
    = (w', Ok (spec', order)) ->
  map Stage.class_name order = stage_names a run_anat run_func /\
  built w' = (built w ++ stage_names a run_anat run_func)%list.
Proof.
  intros E. unfold Run.create_pipelines in E. unfold stage_names.
  apply bind_inv in E as (w1 & acc1 & E1 & E).
  apply bind_inv in E as (w2 & acc2 & E2 & E).
  apply bind_inv in E as (w3 & acc3 & E3 & E).
  apply bind_inv in E as (w4 & acc4 & E4 & E).
  assert (H1 : map Stage.class_name (snd acc1) =
               (if run_anat then ["PreFreeSurfer"; "FreeSurfer"; "PostFreeSurfer"] else [])
               /\ built w1 = (built w ++ map Stage.class_name (snd acc1))%list).
  { destruct run_anat.
    - apply bind_inv in E1 as (wa & a1 & Ea & E1).
      apply bind_inv in E1 as (wb & a2 & Eb & E1).
      destruct (construct_appends _ _ _ _ _ _ pre_free_surfer_constructs Ea) as [Na Ba].
      destruct (construct_appends _ _ _ _ _ _ free_surfer_constructs Eb) as [Nb Bb].
      destruct (construct_appends _ _ _ _ _ _ (stage_init_constructs "PostFreeSurfer") E1)
        as [Nc Bc].
      rewrite Nc, Nb, Na, Bc, Bb, Ba. simpl. by rewrite <- !app_assoc.
    - unfold ret in E1. injection E1 as <- <-. simpl. by rewrite app_nil_r. }
  assert (H2 : map Stage.class_name (snd acc2) =
               (map Stage.class_name (snd acc1) ++
                if run_func then ["FMRIVolume"; "FMRISurface"; "DCANBOLDProcessing"]
                else [])%list
               /\ built w2 =
                  (built w1 ++ if run_func
                               then ["FMRIVolume"; "FMRISurface"; "DCANBOLDProcessing"]
                               else [])%list).
  { destruct run_func.
    - apply bind_inv in E2 as (wa & a1 & Ea & E2).
      apply bind_inv in E2 as (wb & a2 & Eb & E2).
      destruct (construct_appends _ _ _ _ _ _ (stage_init_constructs "FMRIVolume") Ea)
        as [Na Ba].
      destruct (construct_appends _ _ _ _ _ _ (stage_init_constructs "FMRISurface") Eb)
        as [Nb Bb].
      destruct (construct_appends _ _ _ _ _ _
                  (stage_init_constructs "DCANBOLDProcessing") E2) as [Nc Bc].
      rewrite Nc, Nb, Na, Bc, Bb, Ba. by rewrite <- !app_assoc.
    - unfold ret in E2. injection E2 as <- <-. by rewrite !app_nil_r. }
  destruct (construct_appends _ _ _ _ _ _ (stage_init_constructs "ExecutiveSummary") E3)
    as [N3 B3].
  assert (H4 : map Stage.class_name (snd acc4) =
               (map Stage.class_name (snd acc3) ++
                if py_truthy (Run.cleaning_json a) then ["CustomClean"] else [])%list
               /\ built w4 =
                  (built w3 ++ if py_truthy (Run.cleaning_json a) then ["CustomClean"]
                               else [])%list).
  { destruct (py_truthy (Run.cleaning_json a)).
    - exact (construct_appends _ _ _ _ _ _ (with_input_json_constructs "CustomClean" _) E4).
    - unfold ret in E4. injection E4 as <- <-. by rewrite !app_nil_r. }
  assert (H5 : map Stage.class_name order =
               (map Stage.class_name (snd acc4) ++
                if py_truthy (Run.file_mapper_json a) then ["FileMapper"] else [])%list
               /\ built w' =
                  (built w4 ++ if py_truthy (Run.file_mapper_json a) then ["FileMapper"]
                               else [])%list).
  { destruct (py_truthy (Run.file_mapper_json a)).
    - exact (construct_appends _ _ _ _ _ _ (with_input_json_constructs "FileMapper" _) E).
    - unfold ret in E. injection E as <- ->. simpl. by rewrite !app_nil_r. }
  destruct H1 as [N1 B1], H2 as [N2 B2], H4 as [N4 B4], H5 as [N5 B5].
  split.
  - rewrite N5, N4, N3, N2, N1. by rewrite <- !app_assoc.
  - rewrite B5, B4, B3, B2, B1, N1. by rewrite <- !app_assoc.
Qed.

End Construction.

Lemma create_pipelines_order_witness :
  exists w' spec' order,
    Run.create_pipelines "/opt/pipeline/app" env_a command_line_args
      (constructed topup_session) true true installed = (w', Ok (spec', order)) /\
    map Stage.class_name order =
      ["PreFreeSurfer"; "FreeSurfer"; "PostFreeSurfer"; "FMRIVolume"; "FMRISurface";
       "DCANBOLDProcessing"; "ExecutiveSummary"] /\
    built w' =
      ["PreFreeSurfer"; "FreeSurfer"; "PostFreeSurfer"; "FMRIVolume"; "FMRISurface";
       "DCANBOLDProcessing"; "ExecutiveSummary"].
Proof.
  assert (Hok : is_ok (snd (Run.create_pipelines "/opt/pipeline/app" env_a
                              command_line_args (constructed topup_session) true true
                              installed)) = true) by (vm_compute; reflexivity).
  destruct (Run.create_pipelines "/opt/pipeline/app" env_a command_line_args
              (constructed topup_session) true true installed)
    as [w' [[spec' order]|e]] eqn:E; [|discriminate Hok].
  exists w', spec', order. split; [reflexivity|].
  exact (create_pipelines_order "/opt/pipeline/app" env_a command_line_args
           (constructed topup_session) true true installed w' spec' order E).
Defined.

(** ** The constructor of a stage *)

Section StageInit.
Context `{PyRuntime}.
Variable here : string.
Variable env : gmap string string.


Lemma str_length_app (a b : string) :
  String.length (a +:+ b) = (String.length a + String.length b)%nat.
Proof.
  induction a as [|c a IH]; [reflexivity|].
  change (String c a +:+ b) with (String c (a +:+ b)). simpl. by rewrite IH.
Qed.



End StageInit.


(** ** Running a stage *)

Section Running.
Context `{PyRuntime} `{Processes}.

Lemma quiet_isfile p : quiet_io (os_path_isfile p).
Proof. intros w. apply only_printed_refl. Qed.

Lemma quiet_readlines p : quiet_io (Runner.readlines p).
Proof.
  intros w. unfold Runner.readlines.
  destruct (fs w !! p) as [[|c]|]; apply only_printed_refl.
Qed.

Lemma quiet_for_print (g : string -> string) l : quiet_io (io_for l (fun f => print (g f))).
Proof. intros w. rewrite io_for_print. by split. Qed.

Lemma quiet_identify config : quiet_io (Runner.identify_templates config).
Proof.
  unfold Runner.identify_templates.
  apply quiet_bind; [apply quiet_lift | intros ti].
  apply quiet_bind; [apply quiet_lift | intros p].
  apply quiet_bind; [apply quiet_isfile | intros [|]].
  - apply quiet_bind; [apply quiet_print | intros _].
    apply quiet_bind; [apply quiet_readlines | intros l].
    apply (quiet_for_print (fun rmline => Runner.tab +:+ str_strip rmline)).
  - apply quiet_print.
Qed.

Lemma cmdline_class env self cmd :
  Command.cmdline env self = Ok cmd ->
  Command.generator_class (Stage.class_name self) = false.
Proof.
  unfold Command.cmdline, Command.args.
  destruct (Command.script self) as [s|]; [|discriminate]. cbn [rbind].
  destruct (py_format _ s) as [s'|]; [|discriminate]. cbn [rbind].
  destruct (Command.generator_class (Stage.class_name self)); [discriminate | reflexivity].
Qed.

Lemma status_at_same w w' st d :
  fs w' !! Status.file_path st = fs w !! Status.file_path st ->
  status_at w st d -> status_at w' st d.
Proof. unfold status_at. congruence. Qed.

Lemma outputs_ok_same cls w w' outputs :
  (forall p, fs w' !! p = fs w !! p) ->
  outputs_ok cls w' outputs = outputs_ok cls w outputs.
Proof.
  intros Hs. unfold outputs_ok. rewrite (existing_same w w' outputs); [reflexivity|].
  intros p. by rewrite Hs.
Qed.

(** The first steps of [run], up to the command: the templates are
    reported and the stage is set up. *)
Lemma run_starts cls env config self ncpus w w0 d n outputs :
  Command.generator_class (Stage.class_name self) = false ->
  Runner.identify_templates config w = (w0, Ok tt) ->
  status_at w (Stage.status self) d ->
  dict_get d "num_runs" = Some (VInt n) ->
  Stage.get_expected_outputs self = Ok outputs ->
  Status.file_path (Stage.status self) ∉ outputs ->
  NoDup (present_files w outputs) ->
  exists w1,
    Stage.setup cls self w0 = (w1, Ok tt) /\
    status_at w1 (Stage.status self)
      (Status.dict_set (Status.dict_set d "num_runs" (VInt (n + 1)))
         "node_status" (VInt Status.states.incomplete)) /\
    built w1 = built w /\
    (forall p, p <> Status.file_path (Stage.status self) ->
       fs w1 !! p = cleared w outputs p) /\
    Runner.run cls env config self ncpus w =
      (cmd <~ lift (Command.cmdline env self);;
       log_dir <~ Stage._get_log_dir (Stage.kwargs self) (Stage.class_name self);;
       result <~ Runner.call cls env cmd
                   (os_path_join log_dir (Stage.class_name self +:+ ".out"))
                   (os_path_join log_dir (Stage.class_name self +:+ ".err")) ncpus;;
       Stage.teardown cls self result) w1.
Proof.
  intros Hg Hid Hd Hn Ho Hst Hnd.
  pose proof (quiet_identify config w) as Hq. rewrite Hid in Hq.
  destruct Hq as [Hfs0 Hb0]. simpl in Hfs0, Hb0.
  assert (Hd0 : status_at w0 (Stage.status self) d)
    by (apply (status_at_same w); [by rewrite Hfs0 | exact Hd]).
  assert (Hnd0 : NoDup (present_files w0 outputs)).
  { rewrite (present_files_same w w0); [exact Hnd|]. intros p _. by rewrite Hfs0. }
  destruct (setup_at cls self w0 d n outputs Hd0 Hn Ho Hst Hnd0)
    as (w1 & E1 & Hat1 & Hb1 & Hfs1).
  exists w1. split; [exact E1|]. split; [exact Hat1|]. split; [congruence|]. split.
  - intros p Hp. rewrite (Hfs1 p Hp). unfold cleared. by rewrite Hfs0.
  - unfold Runner.run. rewrite Hg. unfold io_bind at 1. rewrite Hid.
    unfold io_bind at 1. rewrite E1. reflexivity.
Qed.

Lemma get_log_dir_there kw name logs w :
  kw !! "logs" = Some (VStr logs) ->
  fs w !! os_path_join logs name = Some Dir ->
  Stage._get_log_dir kw name w = (w, Ok (os_path_join logs name)).
Proof.
  intros Hl Hd. unfold Stage._get_log_dir. rewrite io_bind_lift, Hl.
  unfold io_bind, os_path_isdir. rewrite Hd. reflexivity.
Qed.

Lemma num_runs_after_start d n :
  getitem_key
    (VDict (Status.dict_set (Status.dict_set d "num_runs" (VInt n))
              "node_status" (VInt Status.states.incomplete))) "num_runs" = Ok (VInt n).
Proof.
  unfold getitem_key.
  rewrite (dict_get_set_ne _ "node_status" "num_runs") by discriminate.
  by rewrite dict_get_set_eq.
Qed.

(** X19. A stage run while the calls and the check of the outputs are
    deactivated, as they are when the commands are only printed: no
    program is started, yet the run counts as one, the expected outputs
    of the earlier run are deleted, and the record says succeeded. *)
Theorem run_without_calls cls env config self ncpus w w0 d n outputs cmd logs :
  Stage.call_active cls = false ->
  Stage.check_expected_outputs_active cls = false ->
  Runner.identify_templates config w = (w0, Ok tt) ->
  status_at w (Stage.status self) d ->
  dict_get d "num_runs" = Some (VInt n) ->
  Stage.get_expected_outputs self = Ok outputs ->
  Status.file_path (Stage.status self) ∉ outputs ->
  NoDup (present_files w outputs) ->
  Command.cmdline env self = Ok cmd ->
  Stage.kwargs self !! "logs" = Some (VStr logs) ->
  fs w !! log_dir_of logs self = Some Dir ->
  exists w',
    Runner.run cls env config self ncpus w = (w', Ok tt) /\
    Status.__getitem__ (Stage.status self) "num_runs" w' = (w', Ok (VInt (n + 1))) /\
    Status.__getitem__ (Stage.status self) "node_status" w'
      = (w', Ok (VInt Status.states.succeeded)) /\
    Status.__getitem__ (Stage.status self) "comment" w' = (w', Ok (VStr "")) /\
    built w' = built w /\
    forall p, p <> Status.file_path (Stage.status self) ->
      fs w' !! p = cleared w outputs p.
Proof.
  intros Hcall Hcheck Hid Hd Hn Ho Hst Hnd Hcmd Hl Hdir.
  destruct (run_starts cls env config self ncpus w w0 d n outputs
              (cmdline_class _ _ _ Hcmd) Hid Hd Hn Ho Hst Hnd)
    as (w1 & _ & Hat1 & Hb1 & Hfs1 & ->).
  rewrite io_bind_lift, Hcmd.
  assert (Hne : log_dir_of logs self <> Status.file_path (Stage.status self)).
  { intros E. unfold status_at in Hd. rewrite <- E, Hdir in Hd. discriminate Hd. }
  assert (Hdir1 : fs w1 !! log_dir_of logs self = Some Dir).
  { rewrite (Hfs1 _ Hne). unfold cleared. rewrite Hdir. simpl.
    by rewrite andb_false_r. }
  unfold io_bind at 1. rewrite (get_log_dir_there _ _ logs w1 Hl Hdir1).
  unfold io_bind at 1. unfold Runner.call. rewrite Hcall. unfold ret at 1.
  destruct (teardown_at cls self (VInt 0) w1 _ outputs Hat1 Ho)
    as (w' & E & Hs & Hc & Hr & Hb & Hfs).
  assert (Hok : outputs_ok cls w1 outputs = true)
    by (unfold outputs_ok; by rewrite Hcheck).
  rewrite Hok in E, Hs, Hc. cbn in E, Hs, Hc.
  exists w'. split; [exact E|]. rewrite num_runs_after_start in Hr.
  split; [exact Hr|]. split; [exact Hs|]. split; [exact Hc|].
  split; [congruence|].
  intros p Hp. rewrite (Hfs p Hp). apply Hfs1, Hp.
Qed.

(** X20. A stage whose command cannot be written, for a kwarg or an
    environment variable that is missing, has been set up by then: [run]
    raises the error of the command with the run counted, the outputs of
    the earlier run deleted and the record left at incomplete. *)
Theorem run_command_error cls env config self ncpus w w0 d n outputs e :
  Command.generator_class (Stage.class_name self) = false ->
  Runner.identify_templates config w = (w0, Ok tt) ->
  status_at w (Stage.status self) d ->
  dict_get d "num_runs" = Some (VInt n) ->
  Stage.get_expected_outputs self = Ok outputs ->
  Status.file_path (Stage.status self) ∉ outputs ->
  NoDup (present_files w outputs) ->
  Command.cmdline env self = Raise e ->
  exists w',
    Runner.run cls env config self ncpus w = (w', Raise e) /\
    Status.__getitem__ (Stage.status self) "num_runs" w' = (w', Ok (VInt (n + 1))) /\
    Status.__getitem__ (Stage.status self) "node_status" w'
      = (w', Ok (VInt Status.states.incomplete)) /\
    forall p, p <> Status.file_path (Stage.status self) ->
      fs w' !! p = cleared w outputs p.
Proof.
  intros Hg Hid Hd Hn Ho Hst Hnd Hcmd.
  destruct (run_starts cls env config self ncpus w w0 d n outputs Hg Hid Hd Hn Ho Hst Hnd)
    as (w1 & _ & Hat1 & Hb1 & Hfs1 & ->).
  rewrite io_bind_lift, Hcmd. exists w1. split; [reflexivity|].
  destruct (reads_after_start _ _ _ _ Hat1) as (Hr & Hs & _).
  split; [exact Hr|]. split; [exact Hs | exact Hfs1].
Qed.

End Running.

Lemma run_without_calls_witness :
  exists w',
    Runner.run print_commands_settings mapper_env fresh mapper_stage 1 mapper_world
      = (w', Ok tt) /\
    Status.__getitem__ mapper_status "num_runs" w' = (w', Ok (VInt 1)) /\
    Status.__getitem__ mapper_status "node_status" w'
      = (w', Ok (VInt Status.states.succeeded)) /\
    fs w' !! sample_output = None.
Proof.
  destruct (run_without_calls print_commands_settings mapper_env fresh mapper_stage 1
              mapper_world
              (mkWorld (fs mapper_world)
                 ["There is no available information about the templates being used."] [])
              Status.defaults 0 [sample_output]
              "/opt/filemapper/BIDS_filemapper_wrapper.sh 01 1 /out/files /in/map.json "
              "/out/logs")
    as (w' & E & Hn & Hs & _ & _ & Hfs);
    try reflexivity.
  - vm_compute. intros Hin. apply elem_of_cons in Hin as [Hin | Hin];
      [discriminate Hin | inversion Hin].
  - vm_compute. repeat constructor. intros Hin. inversion Hin.
  - exists w'. split; [exact E|]. split; [exact Hn|]. split; [exact Hs|].
    rewrite Hfs by discriminate. reflexivity.
Defined.

Lemma run_command_error_witness :
  exists w',
    Runner.run Stage.class_defaults ∅ fresh mapper_stage 1 mapper_world
      = (w', Raise (KeyError "FILEMAPPERDIR")) /\
    Status.__getitem__ mapper_status "node_status" w'
      = (w', Ok (VInt Status.states.incomplete)) /\
    fs w' !! sample_output = None.
Proof.
  destruct (run_command_error Stage.class_defaults ∅ fresh mapper_stage 1 mapper_world
              (mkWorld (fs mapper_world)
                 ["There is no available information about the templates being used."] [])
              Status.defaults 0 [sample_output] (KeyError "FILEMAPPERDIR"))
    as (w' & E & _ & Hs & Hfs);
    try reflexivity.
  - vm_compute. intros Hin. apply elem_of_cons in Hin as [Hin | Hin];
      [discriminate Hin | inversion Hin].
  - vm_compute. repeat constructor. intros Hin. inversion Hin.
  - exists w'. split; [exact E|]. split; [exact Hs|].
    rewrite Hfs by discriminate. reflexivity.
Defined.

(** ** The program of a stage *)

Section Program.
Context `{PyRuntime} `{Processes}.

Lemma open_w_at p w :
  is_dir (fs w !! p) = false ->
  Runner.open_w p w = (set_fs (<[p := File Data]> (fs w)) w, Ok tt).
Proof.
  intros Hd. unfold Runner.open_w.
  destruct (fs w !! p) as [[|c]|]; [discriminate Hd | reflexivity..].
Qed.

(** An active call: the logs are opened and the program runs on the
    files it finds. *)
Lemma call_active_at cls env cmd out_log err_log num_threads w :
  Stage.call_active cls = true ->
  is_dir (fs w !! out_log) = false ->
  is_dir (fs w !! err_log) = false ->
  let r := subprocess_call (str_words cmd) (threads_env env num_threads) out_log err_log
             (with_logs (fs w) out_log err_log) in
  exists printed,
    Runner.call cls env cmd out_log err_log num_threads w =
      (mkWorld (fst r) printed (built w),
       match snd r with
       | Ok status => Ok (VInt status)
       | Raise e => Raise e
       end).
Proof.
  intros Ha Ho He r. unfold Runner.call. rewrite Ha. unfold Runner._call.
  assert (He' : is_dir (<[out_log := File Data]> (fs w) !! err_log) = false).
  { destruct (decide (out_log = err_log)) as [->|Hne].
    - by rewrite lookup_insert_eq.
    - by rewrite lookup_insert_ne. }
  unfold threads_env in r. destruct (1 <? num_threads).
  - eexists. unfold io_bind at 1. unfold io_bind at 1. unfold print at 1.
    unfold ret at 1. unfold io_bind at 1. rewrite open_w_at by exact Ho.
    unfold io_bind at 1. rewrite open_w_at by exact He'.
    reflexivity.
  - eexists. unfold io_bind at 1. unfold ret at 1.
    unfold io_bind at 1. rewrite open_w_at by exact Ho.
    unfold io_bind at 1. rewrite open_w_at by exact He'.
    reflexivity.
Qed.

(** X21. A stage run with the calls active. After the setup the two logs
    of the stage are opened and the program is started on the words of
    the command. If it cannot be started, [run] raises that error and the
    record stays at incomplete. If it returns an exit status, and has
    left the record alone, the stage passes exactly when the status is 0
    and the check of the expected outputs, on the files the program
    left, answers True; the record says so, the run is counted once, and
    [run] raises the error of the stage otherwise. *)
Theorem run_outcome cls env config self ncpus w w0 d n outputs cmd logs :
  Stage.call_active cls = true ->
  Runner.identify_templates config w = (w0, Ok tt) ->
  status_at w (Stage.status self) d ->
  dict_get d "num_runs" = Some (VInt n) ->
  Stage.get_expected_outputs self = Ok outputs ->
  Status.file_path (Stage.status self) ∉ outputs ->
  NoDup (present_files w outputs) ->
  Command.cmdline env self = Ok cmd ->
  Stage.kwargs self !! "logs" = Some (VStr logs) ->
  fs w !! log_dir_of logs self = Some Dir ->
  let path := Status.file_path (Stage.status self) in
  let out_log := out_log_of logs self in
  let err_log := err_log_of logs self in
  path <> out_log -> path <> err_log ->
  is_dir (fs w !! out_log) = false ->
  is_dir (fs w !! err_log) = false ->
  exists w1,
    Stage.setup cls self w0 = (w1, Ok tt) /\
    let files := with_logs (fs w1) out_log err_log in
    let r := subprocess_call (str_words cmd) (threads_env env ncpus) out_log err_log files in
    fst r !! path = files !! path ->
    match snd r with
    | Raise e =>
        exists w',
          Runner.run cls env config self ncpus w = (w', Raise e) /\
          fs w' = fst r /\
          Status.__getitem__ (Stage.status self) "node_status" w'
            = (w', Ok (VInt Status.states.incomplete))
    | Ok code =>
        let checked := outputs_ok cls (world_of (fst r)) outputs in
        let passed := (code =? 0) && checked in
        exists w',
          Runner.run cls env config self ncpus w =
            (w', if passed then Ok tt
                 else Raise (Exception ("error caught during stage: " +:+
                                        Stage.class_name self))) /\
          Status.__getitem__ (Stage.status self) "node_status" w' =
            (w', Ok (VInt (if passed then Status.states.succeeded
                           else Status.states.failed))) /\
          Status.__getitem__ (Stage.status self) "comment" w' =
            (w', Ok (VStr (if checked then
                             if code =? 0 then ""
                             else "stage terminated with exit code " +:+ pretty code
                           else not_created))) /\
          Status.__getitem__ (Stage.status self) "num_runs" w' = (w', Ok (VInt (n + 1))) /\
          forall p, p <> path -> fs w' !! p = fst r !! p
    end.
Proof.
  intros Hcall Hid Hd Hn Ho Hst Hnd Hcmd Hl Hdir path out_log err_log Hpo Hpe Hdo Hde.
  destruct (run_starts cls env config self ncpus w w0 d n outputs
              (cmdline_class _ _ _ Hcmd) Hid Hd Hn Ho Hst Hnd)
    as (w1 & E1 & Hat1 & Hb1 & Hfs1 & Hrun).
  exists w1. split; [exact E1|]. intros files r Hkept.
  rewrite io_bind_lift, Hcmd in Hrun.
  assert (Hne : log_dir_of logs self <> path).
  { intros E. unfold status_at in Hd. fold path in Hd. rewrite <- E, Hdir in Hd.
    discriminate Hd. }
  assert (Hdir1 : fs w1 !! log_dir_of logs self = Some Dir).
  { rewrite (Hfs1 _ Hne). unfold cleared. rewrite Hdir. simpl.
    by rewrite andb_false_r. }
  unfold io_bind at 1 in Hrun. rewrite (get_log_dir_there _ _ logs w1 Hl Hdir1) in Hrun.
  assert (Hcl : forall p, is_dir (fs w !! p) = false -> is_dir (cleared w outputs p) = false).
  { intros p Hp. unfold cleared.
    destruct (bool_decide (p ∈ outputs) && is_file (fs w !! p)); [reflexivity | exact Hp]. }
  destruct (call_active_at cls env cmd out_log err_log ncpus w1 Hcall)
    as (printed & Ecall).
  { rewrite Hfs1 by (apply not_eq_sym, Hpo). by apply Hcl. }
  { rewrite Hfs1 by (apply not_eq_sym, Hpe). by apply Hcl. }
  change (os_path_join (os_path_join logs (Stage.class_name self))
            (Stage.class_name self +:+ ".out")) with out_log in Hrun.
  change (os_path_join (os_path_join logs (Stage.class_name self))
            (Stage.class_name self +:+ ".err")) with err_log in Hrun.
  unfold io_bind at 1 in Hrun. rewrite Ecall in Hrun. fold files in Hrun. fold r in Hrun.
  assert (Hfiles : files !! path = fs w1 !! path).
  { unfold files, with_logs. rewrite !lookup_insert_ne by congruence. reflexivity. }
  set (w2 := mkWorld (fst r) printed (built w1)) in *.
  assert (Hat2 : status_at w2 (Stage.status self)
                   (Status.dict_set (Status.dict_set d "num_runs" (VInt (n + 1)))
                      "node_status" (VInt Status.states.incomplete))).
  { unfold status_at. fold path. cbn [w2 fs]. rewrite Hkept, Hfiles. exact Hat1. }
  destruct (snd r) as [code|e].
  - destruct (teardown_at cls self (VInt code) w2 _ outputs Hat2 Ho)
      as (w' & E & Hs & Hc & Hr & Hb & Hfs).
    rewrite (outputs_ok_same cls (world_of (fst r)) w2) in E, Hs, Hc by reflexivity.
    rewrite num_runs_after_start in Hr.
    exists w'. split; [by rewrite Hrun|]. split; [exact Hs|]. split; [exact Hc|].
    split; [exact Hr | exact Hfs].
  - exists w2. split; [exact Hrun|]. split; [reflexivity|].
    by destruct (reads_after_start _ _ _ _ Hat2) as (_ & Hs & _).
Qed.

End Program.

Lemma run_outcome_witness :
  exists w',
    Runner.run Stage.class_defaults mapper_env fresh mapper_stage 1 mapper_world
      = (w', Ok tt) /\
    Status.__getitem__ mapper_status "node_status" w'
      = (w', Ok (VInt Status.states.succeeded)) /\
    Status.__getitem__ mapper_status "num_runs" w' = (w', Ok (VInt 1)) /\
    fs w' !! sample_output = Some (File Data).
Proof.
  destruct (run_outcome Stage.class_defaults mapper_env fresh mapper_stage 1 mapper_world
              (mkWorld (fs mapper_world)
                 ["There is no available information about the templates being used."] [])
              Status.defaults 0 [sample_output]
              "/opt/filemapper/BIDS_filemapper_wrapper.sh 01 1 /out/files /in/map.json "
              "/out/logs")
    as (w1 & E1 & Hrun);
    try reflexivity; try discriminate.
  - vm_compute. intros Hin. apply elem_of_cons in Hin as [Hin | Hin];
      [discriminate Hin | inversion Hin].
  - vm_compute. repeat constructor. intros Hin. inversion Hin.
  - assert (Hw1 : w1 = fst (Stage.setup Stage.class_defaults mapper_stage
                             (mkWorld (fs mapper_world)
                                ["There is no available information about the templates being used."]
                                []))) by (by rewrite E1).
    clear E1. subst w1.
    destruct Hrun as (w' & E & Hs & _ & Hn & Hfs); [vm_compute; reflexivity|].
    exists w'. split; [exact E|]. split; [exact Hs|]. split; [exact Hn|].
    rewrite Hfs by discriminate. vm_compute. reflexivity.
Defined.

(** ** The arguments of a command *)

Section Arguments.
Context `{PyRuntime}.

Lemma read_field_name n rest :
  has_char is_brace n = false ->
  read_field (n +:+ String "}" rest) = Some (n, rest).
Proof.
  induction n as [|a n IH]; [reflexivity|].
  change (String a n +:+ String "}" rest) with (String a (n +:+ String "}" rest)).
  cbn [has_char read_field]. intros Hb. apply orb_false_iff in Hb as [Ha Hn].
  unfold is_brace in Ha. apply orb_false_iff in Ha as [_ Ha].
  rewrite Ha, (IH Hn). reflexivity.
Qed.

Lemma format_field_name lookup n :
  name_ok n = true ->
  format_field lookup n =
    match lookup n with Some v => Ok v | None => Raise (KeyError n) end.
Proof.
  unfold name_ok, format_field. intros Hn.
  apply andb_true_iff in Hn as [Hn Hd]. apply andb_true_iff in Hn as [Hs _].
  apply negb_true_iff in Hs, Hd. by rewrite Hs, Hd.
Qed.

Lemma format_fuel_text lookup s rest fuel :
  has_char is_brace s = false ->
  format_fuel (String.length s + fuel) lookup (s +:+ rest) =
    (r <- format_fuel fuel lookup rest;; Ok (s +:+ r)).
Proof.
  induction s as [|a s IH]; intros Hb.
  - change (format_fuel fuel lookup rest =
            (r <- format_fuel fuel lookup rest;; Ok r)).
    by destruct (format_fuel fuel lookup rest).
  - change (String a s +:+ rest) with (String a (s +:+ rest)).
    cbn [has_char] in Hb. apply orb_false_iff in Hb as [Ha Hs].
    unfold is_brace in Ha. apply orb_false_iff in Ha as [Ho Hc].
    cbn [String.length Nat.add format_fuel]. rewrite Ho, Hc, (IH Hs).
    by destruct (format_fuel fuel lookup rest).
Qed.

Lemma read_field_shorter t name rest :
  read_field t = Some (name, rest) -> (String.length rest < String.length t)%nat.
Proof.
  revert name rest. induction t as [|c t IHt]; intros name rest Er; [discriminate Er|].
  cbn [read_field] in Er. destruct (Ascii.eqb c "}").
  - injection Er as _ <-. simpl. lia.
  - destruct (read_field t) as [[n' r']|]; [|discriminate Er].
    injection Er as _ <-. specialize (IHt _ _ eq_refl). simpl. lia.
Qed.

Lemma format_fuel_more lookup s fuel fuel' :
  (String.length s < fuel)%nat -> (fuel <= fuel')%nat ->
  format_fuel fuel' lookup s = format_fuel fuel lookup s.
Proof.
  revert s fuel'. induction fuel as [|fuel IH]; intros s fuel' Hl Hle; [lia|].
  destruct fuel' as [|fuel']; [lia|].
  destruct s as [|a s]; [reflexivity|].
  cbn [format_fuel]. simpl in Hl.
  destruct (Ascii.eqb a "{").
  - destruct s as [|b s']; [reflexivity|]. simpl in Hl.
    destruct (Ascii.eqb b "{").
    + rewrite (IH s' fuel') by lia. reflexivity.
    + destruct (read_field (String b s')) as [[name rest]|] eqn:Er; [|reflexivity].
      pose proof (read_field_shorter _ _ _ Er) as Hrest. simpl in Hrest.
      rewrite (IH rest fuel') by lia. reflexivity.
  - destruct (Ascii.eqb a "}").
    + destruct s as [|b s']; [reflexivity|]. simpl in Hl.
      destruct (Ascii.eqb b "}"); [|reflexivity].
      rewrite (IH s' fuel') by lia. reflexivity.
    + rewrite (IH s fuel') by lia. reflexivity.
Qed.

Lemma format_fuel_field lookup n rest fuel :
  name_ok n = true ->
  format_fuel (S fuel) lookup ("{" +:+ n +:+ "}" +:+ rest) =
    (v <- match lookup n with Some v => Ok v | None => Raise (KeyError n) end;;
     r <- format_fuel fuel lookup rest;;
     Ok (v +:+ r)).
Proof.
  intros Hp.
  assert (Hb : has_char is_brace n = false).
  { unfold name_ok in Hp. apply andb_true_iff in Hp as [Hp _].
    apply andb_true_iff in Hp as [_ Hp]. by apply negb_true_iff in Hp. }
  assert (Hs : has_char field_special n = false).
  { unfold name_ok in Hp. apply andb_true_iff in Hp as [Hp _].
    apply andb_true_iff in Hp as [Hp _]. by apply negb_true_iff in Hp. }
  change ("{" +:+ n +:+ "}" +:+ rest) with (String "{" (n +:+ String "}" rest)).
  cbn [format_fuel]. change (Ascii.eqb "{" "{") with true. cbv iota.
  destruct (n +:+ String "}" rest) as [|b s''] eqn:En.
  { destruct n; discriminate En. }
  assert (Hbb : Ascii.eqb b "{" = false).
  { destruct n as [|c n'].
    - injection En as <- _. reflexivity.
    - change (String c n' +:+ String "}" rest)
        with (String c (n' +:+ String "}" rest)) in En.
      injection En as <- _. cbn [has_char] in Hs.
      apply orb_false_iff in Hs as [Hs _]. unfold field_special in Hs.
      by apply orb_false_iff in Hs as [_ Hs]. }
  rewrite Hbb, <- En, (read_field_name _ _ Hb), (format_field_name _ _ Hp).
  reflexivity.
Qed.

(** Formatting a template puts the value of each field in its place. *)
Lemma format_template lookup ps :
  Forall (fun p => part_ok p = true) ps ->
  py_format lookup (template ps) = fill lookup ps.
Proof.
  unfold py_format. induction ps as [|p ps IH]; intros Hok; [reflexivity|].
  apply Forall_cons in Hok as [Hp Hps]. specialize (IH Hps).
  destruct p as [s|n]; cbn [template fill part_ok] in *.
  - apply negb_true_iff in Hp.
    rewrite (format_fuel_more lookup _ (String.length s + S (String.length (template ps))))
      by (rewrite str_length_app; lia).
    rewrite (format_fuel_text _ _ _ _ Hp), IH. reflexivity.
  - rewrite (format_fuel_field _ _ _ _ Hp).
    rewrite (format_fuel_more lookup (template ps) (S (String.length (template ps)))).
    + by rewrite IH.
    + lia.
    + rewrite !str_length_app. simpl. lia.
Qed.

Lemma fill_all lookup ps :
  (forall n, n ∈ field_names ps -> is_Some (lookup n)) -> is_ok (fill lookup ps) = true.
Proof.
  induction ps as [|[s|n] ps IH]; intros Ha; [reflexivity| |].
  - cbn [fill]. specialize (IH Ha). by destruct (fill lookup ps).
  - cbn [fill]. destruct (Ha n) as [v ->]; [left|]. cbn [rbind].
    assert (Hr : is_ok (fill lookup ps) = true)
      by (apply IH; intros m Hm; apply Ha; by right).
    by destruct (fill lookup ps).
Qed.

Lemma fill_first_missing lookup ps before n after :
  field_names ps = (before ++ n :: after)%list ->
  (forall m, m ∈ before -> is_Some (lookup m)) ->
  lookup n = None ->
  fill lookup ps = Raise (KeyError n).
Proof.
  revert before. induction ps as [|[s|m] ps IH]; intros before Hf Hb Hn.
  - by destruct before.
  - cbn [fill]. by rewrite (IH before Hf Hb Hn).
  - cbn [fill field_names] in *. destruct before as [|b before].
    + injection Hf as -> _. by rewrite Hn.
    + injection Hf as -> Hf. destruct (Hb b) as [v ->]; [left|]. cbn [rbind].
      rewrite (IH before Hf); [reflexivity | | exact Hn].
      intros k Hk. apply Hb. by right.
Qed.

(** X22. The arguments of a command are the spec of the class with the
    text of each kwarg in the place of its field, [None] written NONE
    for PreFreeSurfer and ExecutiveSummary and None for the other
    classes. They can be written exactly when every field of the spec is
    a kwarg; otherwise [args] raises KeyError for the first field, in
    the order of the spec, that is not. *)
Theorem args_fill_spec self ps :
  Command.generator_class (Stage.class_name self) = false ->
  Command.spec self = Ok (template ps) ->
  Forall (fun p => part_ok p = true) ps ->
  Command.args self = fill (Command.kw self) ps /\
  ((forall n, n ∈ field_names ps -> is_Some (Stage.kwargs self !! n)) ->
   is_ok (Command.args self) = true) /\
  (forall before n after,
     field_names ps = (before ++ n :: after)%list ->
     (forall m, m ∈ before -> is_Some (Stage.kwargs self !! m)) ->
     Stage.kwargs self !! n = None ->
     Command.args self = Raise (KeyError n)).
Proof.
  intros Hg Hs Hok.
  assert (Ha : Command.args self = fill (Command.kw self) ps).
  { unfold Command.args. rewrite Hg, Hs. cbn [rbind]. by apply format_template. }
  assert (Hkw : forall n, is_Some (Stage.kwargs self !! n) -> is_Some (Command.kw self n)).
  { intros n [v Hv]. unfold Command.kw. rewrite Hv. simpl. eauto. }
  split; [exact Ha|]. rewrite Ha. split.
  - intros Hall. apply fill_all. intros n Hn. apply Hkw, Hall, Hn.
  - intros before n after Hf Hb Hn. apply (fill_first_missing _ _ before n after Hf).
    + intros m Hm. apply Hkw, Hb, Hm.
    + unfold Command.kw. by rewrite Hn.
Qed.

End Arguments.

Lemma args_fill_spec_witness :
  Command.args stage_without_label_range = Raise (KeyError "atropos_label_min").
Proof.
  destruct (args_fill_spec stage_without_label_range pre_free_surfer_parts)
    as (_ & _ & Hmissing).
  - reflexivity.
  - vm_compute. reflexivity.
  - repeat constructor.
  - apply (Hmissing (take 37 (field_names pre_free_surfer_parts)) "atropos_label_min"
             (drop 38 (field_names pre_free_surfer_parts))).
    + reflexivity.
    + intros m Hm. vm_compute in Hm.
      repeat (apply elem_of_cons in Hm as [-> | Hm]; [vm_compute; eauto|]).
      inversion Hm.
    + vm_compute. reflexivity.
Defined.

(** ** The modes of a session *)

Section SessionModes.
Context `{PyRuntime} `{Processes}.

Lemma check_step m stage w :
  checkable m stage = true ->
  (_ <~ print ("checking outputs for " +:+ Stage.class_name stage);;
   Interface.except_AssertionError
     (Stage.check_expected_outputs (Interface.settings_of m stage) stage)) w =
  (mkWorld (fs w) (stdout w ++ check_report m w stage) (built w), Ok tt).
Proof.
  intros Hc. unfold io_bind, print, Interface.except_AssertionError, check_report.
  destruct (check_expected_outputs_reports (Interface.settings_of m stage) stage
              (mkWorld (fs w)
                 (stdout w ++ ["checking outputs for " +:+ Stage.class_name stage])
                 (built w))) as (Hoff & _ & Hon).
  unfold checkable in Hc.
  destruct (Stage.check_expected_outputs_active (Interface.settings_of m stage)) eqn:Ea.
  - simpl in Hc. destruct (Stage.get_expected_outputs stage) as [outputs|] eqn:Eo;
      [|discriminate Hc].
    rewrite (Hon outputs eq_refl eq_refl).
    change (missing (mkWorld (fs w) _ (built w)) outputs) with (missing w outputs).
    destruct (missing w outputs) as [|f r]; [reflexivity|].
    cbn [fs stdout built]. by rewrite <- app_assoc.
  - rewrite (Hoff eq_refl). by destruct (Stage.get_expected_outputs stage).
Qed.

Lemma check_only_loop_at m order w :
  forallb (checkable m) order = true ->
  Interface.check_only_loop m order w =
    (mkWorld (fs w) (stdout w ++ flat_map (check_report m w) order) (built w), Ok tt).
Proof.
  unfold Interface.check_only_loop. revert w.
  induction order as [|stage order IH]; intros w Hc.
  - simpl. unfold ret. rewrite app_nil_r. by destruct w.
  - cbn [forallb] in Hc. apply andb_true_iff in Hc as [Hs Hr].
    cbn [io_for flat_map]. unfold io_bind at 1. rewrite (check_step m stage w Hs).
    rewrite (IH _ Hr). cbn [fs stdout built]. rewrite <- app_assoc.
    reflexivity.
Qed.

Lemma quiet_check_only m order : quiet_io (Interface.check_only_loop m order).
Proof.
  unfold Interface.check_only_loop. induction order as [|stage order IH].
  - apply quiet_ret.
  - cbn [io_for]. apply quiet_bind; [|intros _; exact IH].
    apply quiet_bind; [apply quiet_print | intros _].
    intros w. unfold Interface.except_AssertionError.
    destruct (Stage.check_expected_outputs (Interface.settings_of m stage) stage w)
      as [w' r] eqn:E.
    assert (Hq : only_printed w w').
    { destruct (Stage.check_expected_outputs_active (Interface.settings_of m stage))
        eqn:Ea.
      - destruct (Stage.get_expected_outputs stage) as [outputs|e] eqn:Eo.
        + destruct (check_expected_outputs_spec (Interface.settings_of m stage) stage w
                      outputs Eo) as (out & E').
          rewrite E in E'. injection E' as -> _. by split.
        + destruct (check_expected_outputs_reports (Interface.settings_of m stage)
                      stage w) as (_ & Hraise & _).
          rewrite (Hraise e Ea Eo) in E. injection E as <- _. apply only_printed_refl.
      - destruct (check_expected_outputs_reports (Interface.settings_of m stage)
                    stage w) as (Hoff & _).
        rewrite (Hoff Ea) in E. injection E as <- _. apply only_printed_refl. }
    destruct r as [b|[]]; exact Hq.
Qed.

(** X23. A session in check-only mode. Whatever the other modes are, no
    stage is run, no file is touched, no record is updated and the
    settings of the classes are as before. When the expected outputs of
    every stage can be listed the session ends normally, missing outputs
    or not, having printed for each stage, in order, the line that names
    it and the report of its check; an error in listing the outputs of a
    stage is not caught. *)
Theorem check_only_session print_commands ignore m env config order ncpus w :
  let end_ := Interface.session_end true print_commands ignore m env config order ncpus w in
  fs (fst end_) = fs w /\
  built (fst end_) = built w /\
  (forallb (checkable m) order = true ->
     end_ = (mkWorld (fs w) (stdout w ++ flat_map (check_report m w) order) (built w),
             Ok m)) /\
  (forall stage rest e,
     order = stage :: rest ->
     Stage.check_expected_outputs_active (Interface.settings_of m stage) = true ->
     Stage.get_expected_outputs stage = Raise e ->
     (forall msg, e <> AssertionError msg) ->
     snd end_ = Raise e).
Proof.
  intros end_. unfold end_, Interface.session_end. cbv iota.
  pose proof (quiet_check_only m order w) as [Hfs Hb].
  split; [|split; [|split]].
  - unfold io_bind. destruct (Interface.check_only_loop m order w) as [w' [[]|e]];
      exact Hfs.
  - unfold io_bind. destruct (Interface.check_only_loop m order w) as [w' [[]|e]];
      exact Hb.
  - intros Hc. unfold io_bind. by rewrite (check_only_loop_at m order w Hc).
  - intros stage rest e -> Ha He Hne. unfold io_bind at 1.
    unfold Interface.check_only_loop. cbn [io_for]. unfold io_bind at 1.
    unfold io_bind at 1. unfold print at 1. unfold Interface.except_AssertionError.
    destruct (check_expected_outputs_reports (Interface.settings_of m stage) stage
                (mkWorld (fs w)
                   (stdout w ++ ["checking outputs for " +:+ Stage.class_name stage])
                   (built w))) as (_ & Hraise & _).
    rewrite (Hraise e Ha He).
    destruct e; try reflexivity. by destruct (Hne msg).
Qed.

End SessionModes.

Lemma check_only_session_witness :
  Interface.session_end true true false ∅ mapper_env fresh [mapper_stage; sample_stage] 1
    quiet =
  (mkWorld ∅
     ["checking outputs for FileMapper";
      "missing expected outputs from FileMapper";
      "file not found: /out/files/T1w/T1w_acpc.nii.gz";
      "checking outputs for PreFreeSurfer";
      "missing expected outputs from PreFreeSurfer";
      "file not found: /out/files/T1w/T1w_acpc.nii.gz"] [], Ok ∅).
Proof.
  destruct (check_only_session true false ∅ mapper_env fresh [mapper_stage; sample_stage]
              1 quiet) as (_ & _ & Hall & _).
  rewrite Hall by reflexivity. reflexivity.
Defined.
